(** * claude_profiles.py in Rocq

    A shallow embedding of [src/claude_profiles.py]: the detection of a
    project's stack from marker files ([detect_project], [detect_variant])
    and the application of a profile to a directory ([apply_profile]).

    The script is dynamically typed and works on whatever [json.load]
    returns, so the embedding works on JSON values and gives every Python
    operation the outcome the interpreter gives it: a value, an exception,
    or -- for the few corners listed with the operations below that this
    development does not cover -- [Unsupported].  Printing to the terminal
    is left out: [print] changes neither the files nor the objects. *)

From Stdlib Require Import ZArith Ascii String List Lia.
From stdpp Require Import base option list strings pretty gmap.
From stdpp Require Import sorting.

Set Warnings "-register-all".

Local Open Scope string_scope.
Local Open Scope list_scope.

(** ** JSON documents

    What [json.load] builds: [None], booleans, integers, strings, lists and
    dictionaries with string keys.  A dictionary keeps its entries in
    insertion order, as a Python [dict] does.  Numbers are the integers;
    a document with a fractional number is outside the embedding. *)

Inductive json : Type :=
  | JNull
  | JBool (b : bool)
  | JInt (n : Z)
  | JStr (s : string)
  | JArr (items : list json)
  | JObj (entries : list (string * json)).

Abbreviation dict := (list (string * json)).

(** ** Outcomes of running Python code *)

Inductive exn : Set :=
  | TypeError
  | AttributeError
  | ValueError
  | KeyError
  | JSONDecodeError
  | FileNotFoundError
  | FileExistsError
  | IsADirectoryError
  | NotADirectoryError
  | SystemExit (code : Z).

Inductive outcome (A : Type) : Type :=
  | Returns (a : A)
  | Raises (e : exn)
  | Unsupported.

Arguments Returns {A} a.
Arguments Raises {A} e.
Arguments Unsupported {A}.

#[global] Instance outcome_ret : MRet outcome := λ A a, Returns a.

#[global] Instance outcome_bind : MBind outcome := λ A B k o,
  match o with
  | Returns a => k a
  | Raises e => Raises e
  | Unsupported => Unsupported
  end.

Definition returned {A} (o : outcome A) : option A :=
  match o with Returns a => Some a | _ => None end.

(** ** Dictionaries *)

Module Dict.

(** [d.get(k)] *)
Fixpoint get (k : string) (d : dict) : option json :=
  match d with
  | [] => None
  | (k', v) :: d' => if String.eqb k k' then Some v else get k d'
  end.

(** [d[k] = v]: an existing key keeps its position, a new one goes last. *)
Fixpoint set (k : string) (v : json) (d : dict) : dict :=
  match d with
  | [] => [(k, v)]
  | (k', v') :: d' =>
      if String.eqb k k' then (k, v) :: d' else (k', v') :: set k v d'
  end.

(** [d.update(other)] *)
Definition update (d other : dict) : dict :=
  foldl (λ acc kv, set kv.1 kv.2 acc) d other.

(** [d.pop(k, None)] *)
Definition pop (k : string) (d : dict) : dict :=
  List.filter (λ kv, negb (String.eqb k kv.1)) d.

Definition keys (d : dict) : list string := d.*1.

(** A dictionary has each key once. *)
Definition wf (d : dict) : Prop := NoDup (keys d).

End Dict.

(** ** The operations of the interpreter on JSON values *)

Definition is_dict (v : json) : bool :=
  match v with JObj _ => true | _ => false end.

(** [bool(v)] *)
Definition truthy (v : json) : bool :=
  match v with
  | JNull => false
  | JBool b => b
  | JInt n => negb (n =? 0)%Z
  | JStr s => negb (String.eqb s "")
  | JArr l => match l with [] => false | _ => true end
  | JObj d => match d with [] => false | _ => true end
  end.

(** [needle in hay] on strings *)
Fixpoint contains (needle hay : string) : bool :=
  String.prefix needle hay ||
  match hay with
  | EmptyString => false
  | String _ hay' => contains needle hay'
  end.

(** [v.get(key, dflt)] *)
Definition py_get (v : json) (key : string) (dflt : json) : outcome json :=
  match v with
  | JObj d => Returns (default dflt (Dict.get key d))
  | _ => Raises AttributeError
  end.

(** [v[key]] for a string [key] *)
Definition py_getitem (v : json) (key : string) : outcome json :=
  match v with
  | JObj d => match Dict.get key d with Some x => Returns x | None => Raises KeyError end
  | _ => Raises TypeError
  end.

(** [key in v] for a string [key] *)
Definition py_contains (key : string) (v : json) : outcome bool :=
  match v with
  | JObj d => Returns (bool_decide (is_Some (Dict.get key d)))
  | JArr l => Returns (existsb (λ x, match x with JStr s => String.eqb s key | _ => false end) l)
  | JStr s => Returns (contains key s)
  | _ => Raises TypeError
  end.

(** [v[key] = val] *)
Definition py_setitem (v : json) (key : string) (val : json) : outcome json :=
  match v with
  | JObj d => Returns (JObj (Dict.set key val d))
  | _ => Raises TypeError
  end.

(** [{**v}] and, from a dictionary under construction, [{..., **v}] *)
Definition py_unpack (acc : dict) (v : json) : outcome dict :=
  match v with
  | JObj d => Returns (Dict.update acc d)
  | _ => Raises TypeError
  end.

(** [d.update(v)].  A list argument is read by Python as a sequence of
    key/value pairs, whose keys need not be strings: not covered. *)
Definition py_update (d : dict) (v : json) : outcome dict :=
  match v with
  | JObj o => Returns (Dict.update d o)
  | JArr [] => Returns d
  | JArr _ => Unsupported
  | JStr "" => Returns d
  | JStr _ => Raises ValueError
  | _ => Raises TypeError
  end.

(** [for x in v]: the values the loop visits.  A non-empty string is
    visited character by character (code points): not covered. *)
Definition py_iter (v : json) : outcome (list json) :=
  match v with
  | JArr l => Returns l
  | JObj d => Returns (JStr <$> Dict.keys d)
  | JStr "" => Returns []
  | JStr _ => Unsupported
  | _ => Raises TypeError
  end.

(** [d.pop(k, None)] for an arbitrary [k]: lists and dictionaries are not
    hashable, but an empty [d] answers with the default before it hashes
    [k]; a hashable [k] that is no string equals no key of [d]. *)
Definition py_pop (d : dict) (k : json) : outcome dict :=
  match k with
  | JStr s => Returns (Dict.pop s d)
  | JArr _ | JObj _ => match d with [] => Returns d | _ :: _ => Raises TypeError end
  | _ => Returns d
  end.

(** [s + v] for a string [s] *)
Definition py_str_add (s : string) (v : json) : outcome string :=
  match v with
  | JStr t => Returns (s +:+ t)
  | _ => Raises TypeError
  end.

(** [v + s] for a string [s] *)
Definition py_add_str (v : json) (s : string) : outcome string :=
  match v with
  | JStr t => Returns (t +:+ s)
  | _ => Raises TypeError
  end.

(** [v += s] for a string [s]: the new value of the variable.  On a list
    the statement extends the list object in place: not covered. *)
Definition py_iadd_str (v : json) (s : string) : outcome json :=
  match v with
  | JStr t => Returns (JStr (t +:+ s))
  | JArr _ => Unsupported
  | _ => Raises TypeError
  end.

(** ** The file system

    Paths are absolute and resolved (what [Path(directory).resolve()]
    gives), a list of names from the root.  The files are a finite map
    from paths to nodes; the root is a directory of every file system.
    Names joined to a path with [/] are single names: a name with a
    separator in it, or one of [""], ["."] and [".."], would be re-read by
    [pathlib] as several steps and is outside the embedding.  A file holds
    text; links, permissions and files that do not decode as text are
    left out. *)

Abbreviation path := (list string).

Inductive node : Type :=
  | File (content : string)
  | Dir.

Abbreviation fs := (gmap path node).

Module FS.

Definition lookup (f : fs) (p : path) : option node :=
  match p with
  | [] => Some Dir
  | _ => f !! p
  end.

(** [p.exists()] *)
Definition exists_ (f : fs) (p : path) : bool :=
  match lookup f p with Some _ => true | None => false end.

(** [p.is_dir()] *)
Definition is_dir (f : fs) (p : path) : bool :=
  match lookup f p with Some Dir => true | _ => false end.

Definition parent (p : path) : path := removelast p.

Definition basename (p : path) : string := List.last p "".

Definition plain_name (s : string) : bool :=
  negb (String.eqb s "") && negb (String.eqb s ".") && negb (String.eqb s "..")
  && negb (contains "/" s) && negb (contains (String "000" "") s).

(** [p / name] *)
Definition child (p : path) (name : string) : outcome path :=
  if plain_name name then Returns (p ++ [name]) else Unsupported.

(** [p.read_text()] *)
Definition read_text (f : fs) (p : path) : outcome string :=
  match lookup f p with
  | Some (File s) => Returns s
  | Some Dir => Raises IsADirectoryError
  | None => Raises FileNotFoundError
  end.

Definition put (f : fs) (p : path) (s : string) : outcome fs :=
  match lookup f (parent p) with
  | Some Dir => Returns (<[p := File s]> f)
  | Some (File _) => Raises NotADirectoryError
  | None => Raises FileNotFoundError
  end.

(** [p.write_text(s)] *)
Definition write_text (f : fs) (p : path) (s : string) : outcome fs :=
  match lookup f p with
  | Some Dir => Raises IsADirectoryError
  | _ => put f p s
  end.

(** [with open(p, "a") as h: h.write(s)] *)
Definition append_text (f : fs) (p : path) (s : string) : outcome fs :=
  match lookup f p with
  | Some Dir => Raises IsADirectoryError
  | Some (File old) => put f p (old +:+ s)
  | None => put f p s
  end.

(** [p.mkdir(parents=True, exist_ok=True)], walking down from [done]. *)
Fixpoint mkdir_from (f : fs) (done : path) (rest : list string) : outcome fs :=
  match rest with
  | [] => Returns f
  | c :: rest' =>
      let p := done ++ [c] in
      match lookup f p with
      | Some Dir => mkdir_from f p rest'
      | Some (File _) =>
          Raises (match rest' with [] => FileExistsError | _ => NotADirectoryError end)
      | None => mkdir_from (<[p := Dir]> f) p rest'
      end
  end.

Definition mkdir (f : fs) (p : path) : outcome fs := mkdir_from f [] p.

(** [shutil.copy2(src, dst)]: into [dst] when [dst] is a directory. *)
Definition copy2 (f : fs) (src dst : path) : outcome fs :=
  s ← read_text f src;
  write_text f (if is_dir f dst then dst ++ [basename src] else dst) s.

(** The entries of directory [d]. *)
Definition children (f : fs) (d : path) : list path :=
  filter (λ p, p ≠ [] ∧ parent p = d) (map_to_list f).*1.

(** One name against one pattern part, as [fnmatch] does for [*] and
    [?]; no pattern of the script uses a bracket class. *)
Fixpoint fnmatch (pat : string) : string → bool :=
  match pat with
  | EmptyString => λ name, String.eqb name ""
  | String "*" pat' =>
      fix star (name : string) : bool :=
        fnmatch pat' name ||
        match name with
        | EmptyString => false
        | String _ name' => star name'
        end
  | String "?" pat' => λ name,
      match name with
      | EmptyString => false
      | String _ name' => fnmatch pat' name'
      end
  | String c pat' => λ name,
      match name with
      | EmptyString => false
      | String c' name' => Ascii.eqb c c' && fnmatch pat' name'
      end
  end.

Definition has_magic (pat : string) : bool :=
  contains "*" pat || contains "?" pat || contains "[" pat.

(** The parts of a pattern between its separators. *)
Fixpoint split_slash (s : string) : list string :=
  match s with
  | EmptyString => [""]
  | String c s' =>
      let r := split_slash s' in
      if Ascii.eqb c "/" then "" :: r
      else match r with
           | h :: t => String c h :: t
           | [] => [String c ""]
           end
  end.

Definition parts (pattern : string) : list string :=
  filter (λ c, c ≠ "" ∧ c ≠ ".") (split_slash pattern).

Fixpoint expand (f : fs) (pats : list string) (cur : path) : list path :=
  match pats with
  | [] => [cur]
  | pat :: rest =>
      if is_dir f cur then
        let next :=
          if has_magic pat
          then filter (λ p, fnmatch pat (basename p) = true) (children f cur)
          else if exists_ f (cur ++ [pat]) then [cur ++ [pat]] else [] in
        flat_map (expand f rest) next
      else []
  end.

(** [list(base.glob(pattern))], up to the order of the matches. *)
Definition glob (f : fs) (base : path) (pattern : string) : list path :=
  expand f (parts pattern) base.

End FS.

(** ** Detection of the project's stack *)

Definition DETECTION_RULES : list (list string * string * option string) :=
  [ (["*.xcodeproj"; "*.xcworkspace"; "Package.swift"], "ios-swift", None);
    (["pubspec.yaml"], "flutter", None);
    (["app/build.gradle*"; "app/build.gradle.kts"], "android", None);
    (["pom.xml"], "java", Some "maven");
    (["build.gradle"; "build.gradle.kts"; "gradlew"], "java", Some "gradle");
    (["Cargo.toml"], "rust", None);
    (["go.mod"], "go", None);
    (["next.config.*"; "*.tsx"], "typescript-react", None);
    (["tsconfig.json"], "typescript-node", None);
    (["package.json"], "javascript-node", None);
    (["pyproject.toml"; "setup.py"; "requirements.txt"; "Pipfile"], "python", None);
    (["CMakeLists.txt"; "Makefile"], "cpp", None) ].

Abbreviation entry := (string * option string)%type.

(** [bool(list(path.glob(marker)))] *)
Definition matches (f : fs) (directory : path) (marker : string) : bool :=
  match FS.glob f directory marker with [] => false | _ => true end.

Arguments matches : simpl never.

(** The inner loop of [detect_project]: the markers of one rule, up to the
    [break] at the first one that matches. *)
Fixpoint scan_markers (f : fs) (directory : path) (markers : list string)
    (e : entry) (detected : list entry) : list entry :=
  match markers with
  | [] => detected
  | marker :: rest =>
      if matches f directory marker
      then if bool_decide (e ∈ detected) then detected else detected ++ [e]
      else scan_markers f directory rest e detected
  end.

Definition scan_rules (f : fs) (directory : path)
    (rules : list (list string * string * option string))
    (detected : list entry) : list entry :=
  foldl (λ detected '(markers, profile, variant),
           scan_markers f directory markers (profile, variant) detected)
        detected rules.

Definition detect_project (f : fs) (directory : path) : outcome (list entry) :=
  Returns (scan_rules f directory DETECTION_RULES []).

(** ** Text *)

Definition nl : string := String "010" "".

Definition ascii_lower (c : ascii) : ascii :=
  let n := nat_of_ascii c in
  if (65 <=? n)%nat && (n <=? 90)%nat then ascii_of_nat (n + 32) else c.

(** [s.lower()] on ASCII text; other text is not covered. *)
Fixpoint lower (s : string) : outcome string :=
  match s with
  | EmptyString => Returns ""
  | String c s' =>
      if (128 <=? nat_of_ascii c)%nat then Unsupported
      else r ← lower s'; Returns (String (ascii_lower c) r)
  end.

(** [s.split("\n")], the lines of a text. *)
Fixpoint lines (s : string) : list string :=
  match s with
  | EmptyString => [""]
  | String c s' =>
      let r := lines s' in
      if Ascii.eqb c "010" then "" :: r
      else match r with
           | h :: t => String c h :: t
           | [] => [String c ""]
           end
  end.

(** ** The variant of a stack, the profiles and their application

    The decoder [json.loads] and the encoder [json.dumps(_, indent=2)] are
    the library's, and the two directories of profiles depend on the
    machine: the script is embedded over all of them.  [Codec] below has
    a decoder and an encoder to run it with. *)

Record world : Type := World {
  files : fs;        (* the file system *)
  profile : json     (* the object the variable [profile] is bound to *)
}.

(** A Python statement: it may change the world before it raises. *)
Definition prog (A : Type) : Type := world → outcome A * world.

#[global] Instance prog_ret : MRet prog := λ A a w, (Returns a, w).

#[global] Instance prog_bind : MBind prog := λ A B k m w,
  match m w with
  | (Returns a, w') => k a w'
  | (Raises e, w') => (Raises e, w')
  | (Unsupported, w') => (Unsupported, w')
  end.

Definition lift {A} (o : outcome A) : prog A := λ w, (o, w).

(** An expression over the object [profile] is bound to. *)
Definition of_profile {A} (g : json → outcome A) : prog A :=
  λ w, (g (profile w), w).

Definition reading {A} (g : fs → outcome A) : prog A :=
  λ w, (g (files w), w).

Definition writing (g : fs → outcome fs) : prog unit := λ w,
  match g (files w) with
  | Returns f' => (Returns tt, World f' (profile w))
  | Raises e => (Raises e, w)
  | Unsupported => (Unsupported, w)
  end.

(** [if not dry_run: ...] *)
Definition unless (dry_run : bool) (body : prog unit) : prog unit :=
  if dry_run then mret tt else body.

Fixpoint for_each {X} (l : list X) (body : X → prog unit) : prog unit :=
  match l with
  | [] => mret tt
  | x :: l' => body x ;; for_each l' body
  end.

Fixpoint fold_prog {X S} (body : S → X → prog S) (s : S) (l : list X) : prog S :=
  match l with
  | [] => mret s
  | x :: l' => s' ← body s x; fold_prog body s' l'
  end.

Fixpoint fold_outcome {X S} (body : S → X → outcome S) (s : S) (l : list X) : outcome S :=
  match l with
  | [] => Returns s
  | x :: l' => s' ← body s x; fold_outcome body s' l'
  end.

(** The effective configuration: the profile's artifacts with the
    variant's merged in. *)
Record config : Type := Config {
  cfg_mcp_servers : dict;
  cfg_claude_md : json;
  cfg_rules : dict;
  cfg_skills : dict;
  cfg_settings : json
}.

(** What the variable [settings] refers to: the object stored in the
    profile under a key, or an object of its own. *)
Inductive ref : Type :=
  | InProfile (key : string)
  | Fresh (obj : json).

Definition deref (r : ref) : prog json :=
  match r with
  | InProfile k => of_profile (λ p, py_getitem p k)
  | Fresh o => mret o
  end.

(** [r[key] = val], on the object [r] refers to. *)
Definition setitem (r : ref) (key : string) (val : json) : prog ref :=
  match r with
  | InProfile k => λ w,
      match (obj ← py_getitem (profile w) k;
             obj' ← py_setitem obj key val;
             py_setitem (profile w) k obj') with
      | Returns p' => (Returns r, World (files w) p')
      | Raises e => (Raises e, w)
      | Unsupported => (Unsupported, w)
      end
  | Fresh o => lift (o' ← py_setitem o key val; Returns (Fresh o'))
  end.

Definition nonempty (variant : option string) : bool :=
  match variant with
  | Some v => negb (String.eqb v "")
  | None => false
  end.

(** The first framework among the dependencies. *)
Definition framework (deps : dict) : option string :=
  let has k := bool_decide (is_Some (Dict.get k deps)) in
  if has "next" then Some "nextjs"
  else if has "react" then Some "react"
  else if has "vue" then Some "vue"
  else if has "svelte" || has "@sveltejs/kit" then Some "svelte"
  else if has "express" || has "fastify" || has "koa" then Some "api"
  else None.

Definition gitignore_entries : list string :=
  [".claude/settings.local.json"; ".claude/CLAUDE.local.md"].

(** What lines 291-293 write for the entries to add. *)
Definition gitignore_block (new_entries : list string) : string :=
  nl +:+ "# Claude Code (local)" +:+ nl
  +:+ String.concat "" ((λ e, e +:+ nl) <$> new_entries).

(** [variant_config], lines 180-182. *)
Definition variant_config_of (profile : json) (variant : option string) : outcome json :=
  if nonempty variant then
    has ← py_contains "variants" profile;
    if has : bool then
      variants ← py_getitem profile "variants";
      py_get variants (default "" variant) (JObj [])
    else Returns (JObj [])
  else Returns (JObj []).

(** [display_name], lines 184-186; the name is only printed. *)
Definition display_name_of (profile_name : string) (profile : json)
    (variant : option string) : outcome json :=
  display_name ← py_get profile "display_name" (JStr profile_name);
  if nonempty variant
  then py_iadd_str display_name (" (" +:+ default "" variant +:+ ")")
  else Returns display_name.

(** [{**profile.get(field, {})}], updated with the variant's [field] when
    that is truthy: [mcp_servers], [rules] and [skills] all start so. *)
Definition merged (field : string) (profile variant_config : json) : outcome dict :=
  base ← py_get profile field (JObj []);
  d ← py_unpack [] base;
  extra ← py_get variant_config field JNull;
  if truthy extra
  then x ← py_getitem variant_config field; py_update d x
  else Returns d.

(** [mcp_servers], lines 206-212. *)
Definition merged_mcp_servers (profile variant_config : json) : outcome dict :=
  mcp_servers ← merged "mcp_servers" profile variant_config;
  excluded ← py_get variant_config "exclude_mcps" (JArr []);
  names ← py_iter excluded;
  fold_outcome py_pop mcp_servers names.

(** [claude_md], lines 224-226. *)
Definition merged_claude_md (profile variant_config : json) : outcome json :=
  claude_md ← py_get profile "claude_md" (JStr "");
  extra ← py_get variant_config "claude_md_append" JNull;
  if truthy extra
  then x ← py_getitem variant_config "claude_md_append";
       s ← py_str_add (nl +:+ nl) x;
       py_iadd_str claude_md s
  else Returns claude_md.

(** [settings = profile.get("settings", {})], line 262: no copy is made. *)
Definition settings_of_profile : prog ref :=
  of_profile (λ p,
    match p with
    | JObj d =>
        Returns (match Dict.get "settings" d with
                 | Some _ => InProfile "settings"
                 | None => Fresh (JObj [])
                 end)
    | _ => Raises AttributeError
    end).

(** The body of the loop of lines 265-269. *)
Definition merge_entry (settings : ref) (kv : string * json) : prog ref :=
  let '(key, val) := kv in
  both ← (if is_dict val
          then cur ← deref settings;
               old ← lift (py_get cur key JNull);
               mret (is_dict old)
          else mret false);
  if both : bool then
    cur ← deref settings;
    old ← lift (py_getitem cur key);
    acc ← lift (py_unpack [] old);
    both_entries ← lift (py_unpack acc val);
    setitem settings key (JObj both_entries)
  else setitem settings key val.

(** [v.items()] *)
Definition py_items (v : json) : outcome dict :=
  match v with
  | JObj d => Returns d
  | _ => Raises AttributeError
  end.

(** [settings], lines 262-269. *)
Definition merged_settings (variant_config : json) : prog ref :=
  settings ← settings_of_profile;
  extra ← lift (py_get variant_config "settings_merge" JNull);
  if truthy extra
  then x ← lift (py_getitem variant_config "settings_merge");
       entries ← lift (py_items x);
       fold_prog merge_entry settings entries
  else mret settings.

Section Script.

Variable json_loads : string → outcome json.
Variable json_dumps : json → outcome string.
Variable PROFILES_DIR BUILTIN_PROFILES_DIR : path.

Definition get_profiles_dir (f : fs) : path :=
  if FS.exists_ f PROFILES_DIR then PROFILES_DIR else BUILTIN_PROFILES_DIR.

Definition load_profile (f : fs) (name : string) : outcome json :=
  let profiles_dir := get_profiles_dir f in
  profile_path ← FS.child profiles_dir (name +:+ ".json");
  if FS.exists_ f profile_path
  then text ← FS.read_text f profile_path; json_loads text
  else Raises (SystemExit 1).

(** The [try] block of [detect_variant], lines 142-153. *)
Definition manifest_variant (f : fs) (pkg_path : path) : outcome (option string) :=
  text ← FS.read_text f pkg_path;
  pkg ← json_loads text;
  dependencies ← py_get pkg "dependencies" (JObj []);
  acc ← py_unpack [] dependencies;
  dev_dependencies ← py_get pkg "devDependencies" (JObj []);
  deps ← py_unpack acc dev_dependencies;
  Returns (framework deps).

Definition java_variant (f : fs) (directory : path) : option string :=
  if matches f directory "pom.xml" then Some "maven"
  else if matches f directory "build.gradle"
          || matches f directory "build.gradle.kts"
          || matches f directory "gradlew" then Some "gradle"
  else None.

Definition js_variant (f : fs) (directory : path) : outcome (option string) :=
  let pkg_path := directory ++ ["package.json"] in
  if FS.exists_ f pkg_path then
    match manifest_variant f pkg_path with
    | Raises JSONDecodeError | Raises KeyError => Returns None
    | o => o
    end
  else Returns None.

Definition python_variant (f : fs) (directory : path) : outcome (option string) :=
  if matches f directory "manage.py" then Returns (Some "django")
  else if matches f directory "app.py" || matches f directory "wsgi.py"
  then Returns (Some "flask")
  else if FS.exists_ f (directory ++ ["pyproject.toml"]) then
    content ← FS.read_text f (directory ++ ["pyproject.toml"]);
    lowered ← lower content;
    Returns (if contains "fastapi" lowered then Some "fastapi" else None)
  else Returns None.

(** Each [return] of the function ends it; a branch that returns nothing
    falls through to the next [if]. *)
Definition detect_variant (f : fs) (profile_name : string) (directory : path)
    : outcome (option string) :=
  match (if String.eqb profile_name "java" then java_variant f directory else None) with
  | Some v => Returns (Some v)
  | None =>
      js ← (if bool_decide (profile_name ∈ ["typescript-react"; "typescript-node"; "javascript-node"])
            then js_variant f directory else Returns None);
      match js with
      | Some v => Returns (Some v)
      | None =>
          if String.eqb profile_name "python"
          then python_variant f directory
          else Returns None
      end
  end.

(** Step 1, lines 197-203. *)
Definition create_dirs (directory : path) (dry_run : bool) : prog unit :=
  for_each [[".claude"; "rules"]; [".claude"; "skills"]] (λ d,
    let target := directory ++ d in
    present ← reading (λ f, Returns (FS.exists_ f target));
    if present : bool then mret tt
    else unless dry_run (writing (λ f, FS.mkdir f target))).

(** Step 2, lines 214-218. *)
Definition write_mcp (directory : path) (dry_run : bool) (mcp_servers : dict) : prog unit :=
  if truthy (JObj mcp_servers) then
    let mcp_json := JObj [("mcpServers", JObj mcp_servers)] in
    unless dry_run
      (text ← lift (json_dumps mcp_json);
       writing (λ f, FS.write_text f (directory ++ [".mcp.json"]) (text +:+ nl)))
  else mret tt.

(** Step 3, lines 228-235. *)
Definition write_claude_md (directory : path) (dry_run : bool) (claude_md : json) : prog unit :=
  if truthy claude_md then
    let claude_md_path := directory ++ [".claude"; "CLAUDE.md"] in
    present ← reading (λ f, Returns (FS.exists_ f claude_md_path));
    (if present : bool
     then unless dry_run
            (writing (λ f, FS.copy2 f claude_md_path (directory ++ [".claude"; "CLAUDE.md.bak"])))
     else mret tt);;
    unless dry_run
      (text ← lift (py_add_str claude_md nl);
       writing (λ f, FS.write_text f claude_md_path text))
  else mret tt.

(** Step 4, lines 243-246. *)
Definition write_rules (directory : path) (dry_run : bool) (rules : dict) : prog unit :=
  for_each rules (λ '(rule_name, rule_content),
    unless dry_run
      (rule_path ← lift (FS.child (directory ++ [".claude"; "rules"]) (rule_name +:+ ".md"));
       text ← lift (py_add_str rule_content nl);
       writing (λ f, FS.write_text f rule_path text))).

(** Step 5, lines 254-258. *)
Definition write_skills (directory : path) (dry_run : bool) (skills : dict) : prog unit :=
  for_each skills (λ '(skill_name, skill_content),
    unless dry_run
      (skill_dir ← lift (FS.child (directory ++ [".claude"; "skills"]) skill_name);
       writing (λ f, FS.mkdir f skill_dir);;
       text ← lift (py_add_str skill_content nl);
       writing (λ f, FS.write_text f (skill_dir ++ ["SKILL.md"]) text))).

(** Step 6, lines 271-274, on the value of [settings]. *)
Definition write_settings (directory : path) (dry_run : bool) (value : json) : prog unit :=
  if truthy value then
    unless dry_run
      (text ← lift (json_dumps value);
       writing (λ f, FS.write_text f (directory ++ [".claude"; "settings.json"]) (text +:+ nl)))
  else mret tt.

(** Step 7, lines 278-293. *)
Definition update_gitignore (directory : path) (dry_run : bool) : prog unit :=
  let gitignore_path := directory ++ [".gitignore"] in
  present ← reading (λ f, Returns (FS.exists_ f gitignore_path));
  existing_gitignore ← (if present : bool
                        then reading (λ f, FS.read_text f gitignore_path)
                        else mret "");
  let new_entries :=
    List.filter (λ e, negb (contains e existing_gitignore)) gitignore_entries in
  match new_entries with
  | [] => mret tt
  | _ =>
      unless dry_run
        (writing (λ f, FS.append_text f gitignore_path (gitignore_block new_entries)))
  end.

(** Steps 1 to 7, lines 196-297.  The script returns nothing; the
    embedding returns what its variables [mcp_servers], [claude_md],
    [rules], [skills] and [settings] hold at the end: the effective
    configuration. *)
Definition apply_steps (directory : path) (dry_run : bool) (variant_config : json)
    : prog config :=
  create_dirs directory dry_run;;
  mcp_servers ← of_profile (λ p, merged_mcp_servers p variant_config);
  write_mcp directory dry_run mcp_servers;;
  claude_md ← of_profile (λ p, merged_claude_md p variant_config);
  write_claude_md directory dry_run claude_md;;
  rules ← of_profile (λ p, merged "rules" p variant_config);
  write_rules directory dry_run rules;;
  skills ← of_profile (λ p, merged "skills" p variant_config);
  write_skills directory dry_run skills;;
  settings ← merged_settings variant_config;
  value ← deref settings;
  write_settings directory dry_run value;;
  update_gitignore directory dry_run;;
  mret {| cfg_mcp_servers := mcp_servers; cfg_claude_md := claude_md;
          cfg_rules := rules; cfg_skills := skills; cfg_settings := value |}.

(** [apply_profile] from line 180 on, with [profile] bound and the
    variant resolved. *)
Definition apply_resolved (profile_name : string) (variant : option string)
    (directory : path) (dry_run : bool) : prog config :=
  variant_config ← of_profile (λ p, variant_config_of p variant);
  of_profile (λ p, display_name_of profile_name p variant);;
  apply_steps directory dry_run variant_config.

(** The variant after lines 177-178. *)
Definition resolve (f : fs) (profile_name : string) (variant : option string)
    (directory : path) : outcome (option string) :=
  match variant with
  | None => detect_variant f profile_name directory
  | Some _ => Returns variant
  end.

(** [apply_profile] from line 174 on, with [profile] bound. *)
Definition apply_loaded (profile_name : string) (variant : option string)
    (directory : path) (dry_run : bool) : prog config :=
  variant ← reading (λ f, resolve f profile_name variant directory);
  apply_resolved profile_name variant directory dry_run.

Definition apply_profile (profile_name : string) (variant : option string)
    (directory : path) (dry_run : bool) (f : fs) : outcome unit * fs :=
  match load_profile f profile_name with
  | Returns p =>
      let r := apply_loaded profile_name variant directory dry_run (World f p) in
      (r.1 ≫= λ _, Returns tt, files r.2)
  | Raises e => (Raises e, f)
  | Unsupported => (Unsupported, f)
  end.

End Script.

(** ** A decoder and an encoder

    [json.loads] and [json.dumps(_, indent=2)] on ASCII documents whose
    numbers are integers; on any other text they answer [Unsupported]. *)

Module Codec.

Definition code (c : ascii) : nat := nat_of_ascii c.

Definition dquote : ascii := "034"%char.

Definition is_ws (c : ascii) : bool :=
  let n := code c in
  (n =? 32)%nat || (n =? 9)%nat || (n =? 10)%nat || (n =? 13)%nat.

Definition is_digit (c : ascii) : bool :=
  (48 <=? code c)%nat && (code c <=? 57)%nat.

Fixpoint skip_ws (s : string) : string :=
  match s with
  | String c s' => if is_ws c then skip_ws s' else s
  | EmptyString => ""
  end.

Fixpoint drop (n : nat) (s : string) : string :=
  match n, s with
  | S n', String _ s' => drop n' s'
  | _, _ => s
  end.

(** The digits [s] starts with, as a number, and the rest of [s]. *)
Fixpoint digits (acc : Z) (count : nat) (s : string) : Z * nat * string :=
  match s with
  | String c s' =>
      if is_digit c
      then digits (10 * acc + Z.of_nat (code c - 48)) (S count) s'
      else (acc, count, s)
  | EmptyString => (acc, count, s)
  end.

Definition starts_fraction (s : string) : bool :=
  match s with
  | String c _ => Ascii.eqb c "." || Ascii.eqb c "e" || Ascii.eqb c "E"
  | EmptyString => false
  end.

(** A number without its sign.  More than one digit after a leading
    zero ends the number at the zero.  Python refuses integers of more
    than 4300 digits with an error of its own. *)
Definition natural (s : string) : outcome (Z * string) :=
  match s with
  | String "0" s' =>
      if starts_fraction s' then Unsupported else Returns (0%Z, s')
  | _ =>
      let '(n, count, rest) := digits 0 0 s in
      if (count =? 0)%nat then Raises JSONDecodeError
      else if starts_fraction rest || (4300 <? count)%nat then Unsupported
      else Returns (n, rest)
  end.

Definition number (s : string) : outcome (json * string) :=
  match s with
  | String "-" s' =>
      if String.prefix "Infinity" s' then Unsupported
      else '(n, rest) ← natural s'; Returns (JInt (- n), rest)
  | _ => '(n, rest) ← natural s; Returns (JInt n, rest)
  end.

(** The character an escape stands for; [\u] is not covered. *)
Definition unescape (c : ascii) : outcome ascii :=
  if Ascii.eqb c dquote then Returns dquote
  else if Ascii.eqb c "\" then Returns "\"%char
  else if Ascii.eqb c "/" then Returns "/"%char
  else if Ascii.eqb c "b" then Returns "008"%char
  else if Ascii.eqb c "f" then Returns "012"%char
  else if Ascii.eqb c "n" then Returns "010"%char
  else if Ascii.eqb c "r" then Returns "013"%char
  else if Ascii.eqb c "t" then Returns "009"%char
  else if Ascii.eqb c "u" then Unsupported
  else Raises JSONDecodeError.

(** A string after its opening quote, and what follows its closing one. *)
Fixpoint text (s : string) : outcome (string * string) :=
  match s with
  | EmptyString => Raises JSONDecodeError
  | String c s' =>
      if Ascii.eqb c dquote then Returns ("", s')
      else if Ascii.eqb c "\" then
        match s' with
        | String e s'' =>
            ch ← unescape e;
            '(body, rest) ← text s'';
            Returns (String ch body, rest)
        | EmptyString => Raises JSONDecodeError
        end
      else if (code c <? 32)%nat then Raises JSONDecodeError
      else if (128 <=? code c)%nat then Unsupported
      else '(body, rest) ← text s'; Returns (String c body, rest)
  end.

(** Values nest at most [depth] deep: beyond the interpreter's limit on
    recursion the decoder fails with an error of another kind. *)
Fixpoint value (fuel depth : nat) (s : string) : outcome (json * string) :=
  match fuel with
  | O => Unsupported
  | S fuel =>
      match s with
      | String "034" s' => '(t, rest) ← text s'; Returns (JStr t, rest)
      | String "[" s' =>
          match depth with
          | O => Unsupported
          | S depth =>
              match skip_ws s' with
              | String "]" rest => Returns (JArr [], rest)
              | s'' => '(l, rest) ← elements fuel depth s''; Returns (JArr l, rest)
              end
          end
      | String "{" s' =>
          match depth with
          | O => Unsupported
          | S depth =>
              match skip_ws s' with
              | String "}" rest => Returns (JObj [], rest)
              | s'' => '(d, rest) ← members fuel depth [] s''; Returns (JObj d, rest)
              end
          end
      | _ =>
          if String.prefix "null" s then Returns (JNull, drop 4 s)
          else if String.prefix "true" s then Returns (JBool true, drop 4 s)
          else if String.prefix "false" s then Returns (JBool false, drop 5 s)
          else if String.prefix "NaN" s || String.prefix "Infinity" s then Unsupported
          else number s
      end
  end
(** The elements of a list, from the first one to the closing bracket. *)
with elements (fuel depth : nat) (s : string) : outcome (list json * string) :=
  match fuel with
  | O => Unsupported
  | S fuel =>
      '(v, rest) ← value fuel depth s;
      match skip_ws rest with
      | String "," rest' =>
          '(l, rest'') ← elements fuel depth (skip_ws rest');
          Returns (v :: l, rest'')
      | String "]" rest' => Returns ([v], rest')
      | _ => Raises JSONDecodeError
      end
  end
(** The members of an object, added to [acc]: a repeated key keeps its
    place and takes the later value. *)
with members (fuel depth : nat) (acc : dict) (s : string) : outcome (dict * string) :=
  match fuel with
  | O => Unsupported
  | S fuel =>
      match s with
      | String "034" s' =>
          '(key, rest) ← text s';
          match skip_ws rest with
          | String ":" rest' =>
              '(v, rest'') ← value fuel depth (skip_ws rest');
              let acc := Dict.set key v acc in
              match skip_ws rest'' with
              | String "," rest3 => members fuel depth acc (skip_ws rest3)
              | String "}" rest3 => Returns (acc, rest3)
              | _ => Raises JSONDecodeError
              end
          | _ => Raises JSONDecodeError
          end
      | _ => Raises JSONDecodeError
      end
  end.

(** [json.loads(s)].  A value and the list or object around it take two
    units of fuel for each character they read, at most. *)
Definition loads (s : string) : outcome json :=
  '(v, rest) ← value (S (S (2 * String.length s))) 500 (skip_ws s);
  match skip_ws rest with
  | EmptyString => Returns v
  | _ => Raises JSONDecodeError
  end.

Definition hex_digit (n : nat) : ascii :=
  ascii_of_nat (if (n <? 10)%nat then 48 + n else 87 + n).

(** One character inside a quoted string. *)
Definition escape (c : ascii) : outcome string :=
  let n := code c in
  if Ascii.eqb c dquote then Returns (String "\" (String dquote ""))
  else if Ascii.eqb c "\" then Returns "\\"
  else if (n =? 10)%nat then Returns "\n"
  else if (n =? 13)%nat then Returns "\r"
  else if (n =? 9)%nat then Returns "\t"
  else if (n =? 8)%nat then Returns "\b"
  else if (n =? 12)%nat then Returns "\f"
  else if (128 <=? n)%nat then Unsupported
  else if (n <? 32)%nat || (n =? 127)%nat
  then Returns ("\u00" +:+ String (hex_digit (n / 16)) (String (hex_digit (n mod 16)) ""))
  else Returns (String c "").

Fixpoint quoted_body (s : string) : outcome string :=
  match s with
  | EmptyString => Returns ""
  | String c s' => e ← escape c; r ← quoted_body s'; Returns (e +:+ r)
  end.

Definition quoted (s : string) : outcome string :=
  body ← quoted_body s; Returns (String dquote body +:+ String dquote "").

Fixpoint spaces (n : nat) : string :=
  match n with
  | O => ""
  | S n' => String " " (spaces n')
  end.

Fixpoint sequence (l : list (outcome string)) : outcome (list string) :=
  match l with
  | [] => Returns []
  | o :: l' => x ← o; r ← sequence l'; Returns (x :: r)
  end.

(** A value that starts at indentation [level]. *)
Fixpoint encode (level : nat) (v : json) : outcome string :=
  let inner := nl +:+ spaces (2 * S level) in
  let close := nl +:+ spaces (2 * level) in
  match v with
  | JNull => Returns "null"
  | JBool true => Returns "true"
  | JBool false => Returns "false"
  | JInt n => Returns (pretty n)
  | JStr s => quoted s
  | JArr [] => Returns "[]"
  | JArr items =>
      parts ← sequence (List.map (encode (S level)) items);
      Returns ("[" +:+ inner +:+ String.concat ("," +:+ inner) parts +:+ close +:+ "]")
  | JObj [] => Returns "{}"
  | JObj entries =>
      parts ← sequence
                (List.map (λ kv, k ← quoted kv.1;
                                 x ← encode (S level) kv.2;
                                 Returns (k +:+ ": " +:+ x)) entries);
      Returns ("{" +:+ inner +:+ String.concat ("," +:+ inner) parts +:+ close +:+ "}")
  end.

(** [json.dumps(v, indent=2)] *)
Definition dumps (v : json) : outcome string := encode 0 v.

End Codec.

(** ** Words of the specification *)

(** The markers of a list of rules. *)
Definition markers_of (rules : list (list string * string * option string)) : list string :=
  rules ≫= λ r, r.1.1.

(** The entries a list of rules can report. *)
Definition entries_of (rules : list (list string * string * option string)) : list entry :=
  (λ r, (r.1.2, r.2)) <$> rules.

(** The rules one of whose markers matches in [directory]. *)
Definition matching_rules (f : fs) (directory : path)
    : list (list string * string * option string) :=
  List.filter (λ r, existsb (matches f directory) r.1.1) DETECTION_RULES.

(** The entries of a list that report the stack [java]. *)
Definition java_entries (detected : list entry) : list entry :=
  List.filter (λ e, String.eqb e.1 "java") detected.

(** The rules before the one for [pom.xml], and the rules after it. *)
Definition rules_before_maven := take 3 DETECTION_RULES.
Definition rules_after_maven := drop 4 DETECTION_RULES.

(** "If both base and override values are mappings, merge their entries;
    otherwise override replaces": the value the merged settings give a key
    of the override, from the base settings [S] and the override's [val]. *)
Definition one_level (S : dict) (key : string) (val : json) : json :=
  match val, Dict.get key S with
  | JObj m, Some (JObj s) => JObj (Dict.update (Dict.update [] s) m)
  | _, _ => val
  end.

(** One turn of the loop over the override's entries, on the dictionary
    [settings] refers to. *)
Definition merge_step (cur : dict) (kv : string * json) : dict :=
  Dict.set kv.1 (one_level cur kv.1 kv.2) cur.

(** The variable [r] refers to the dictionary [cur]. *)
Definition points_to (r : ref) (w : world) (cur : dict) : Prop :=
  deref r w = (Returns (JObj cur), w).

(** "The first matching framework name from a fixed precedence list":
    the dependencies that reveal a framework, and the variant each row
    stands for, in the order of precedence. *)
Definition FRAMEWORKS : list (list string * string) :=
  [ (["next"], "nextjs");
    (["react"], "react");
    (["vue"], "vue");
    (["svelte"; "@sveltejs/kit"], "svelte");
    (["express"; "fastify"; "koa"], "api") ].

(** The variant of the first row one of whose dependencies is among
    [names]. *)
Definition first_framework (names : list string) : option string :=
  snd <$> List.find (λ row, existsb (λ dep, bool_decide (dep ∈ names)) row.1) FRAMEWORKS.

(** The stacks whose variant is read from [package.json]. *)
Definition JS_FAMILY : list string :=
  ["typescript-react"; "typescript-node"; "javascript-node"].

(** "Appended to an ignore-file if not already present": the text of the
    ignore-file, the entries it lacks, and the file after the update. *)
Definition gitignore_text (before : option node) : string :=
  match before with Some (File s) => s | _ => "" end.

Definition missing_entries (text : string) : list string :=
  List.filter (λ e, negb (contains e text)) gitignore_entries.

Definition gitignore_after (before : option node) : option node :=
  match missing_entries (gitignore_text before) with
  | [] => before
  | new => Some (File (gitignore_text before +:+ gitignore_block new))
  end.

(** ** Reasoning about statements *)

(** The statement [m] leaves the observation [obs] of the world as it is,
    however it ends. *)
Definition unchanged {A X} (obs : world → X) (m : prog A) : Prop :=
  ∀ w, obs (m w).2 = obs w.

Definition file_at (p : path) (w : world) : option node := files w !! p.

(** From a world in [I], the statement [m] returns in [Q] or fails in [E]. *)
Definition hoare {A} (I : world → Prop) (m : prog A)
    (Q : A → world → Prop) (E : world → Prop) : Prop :=
  ∀ w, I w → match m w with
             | (Returns a, w') => Q a w'
             | (_, w') => E w'
             end.

(** ** Directories to run the script on *)

(** A Maven project. *)
Definition maven_project : fs :=
  {[ ["project"] := Dir;
     ["project"; "pom.xml"] := File "<project/>" ]}.

(** A project with both a Maven and a Gradle build. *)
Definition maven_gradle_project : fs :=
  {[ ["project"] := Dir;
     ["project"; "pom.xml"] := File "<project/>";
     ["project"; "build.gradle"] := File "plugins { }" ]}.

(** ** Profiles to run the script on *)

(** A variant that adds the server [browser] and excludes it again. *)
Definition add_and_exclude : json :=
  JObj [("mcp_servers", JObj [("browser", JObj [("command", JStr "npx")])]);
        ("exclude_mcps", JArr [JStr "browser"; JStr "db"])].

Definition web_settings : dict :=
  [("permissions", JObj [("allow", JArr [JStr "Read"]); ("deny", JArr [])]);
   ("model", JStr "sonnet")].

(** What the variant [strict] merges into the settings. *)
Definition strict_merge : dict :=
  [("permissions", JObj [("deny", JArr [JStr "Bash"])]);
   ("model", JStr "opus")].

Definition strict_variant : dict := [("settings_merge", JObj strict_merge)].

Definition web_fields : dict :=
  [("display_name", JStr "Web");
   ("mcp_servers", JObj [("db", JObj []); ("docs", JObj [])]);
   ("settings", JObj web_settings);
   ("variants", JObj [("strict", JObj strict_variant); ("lean", add_and_exclude);
                      ("bare", JObj [("exclude_mcps", JArr [JStr "db"; JStr "docs"])])])].

Definition web_profile : json := JObj web_fields.

(** The settings of [web_profile] with those of [strict] merged in. *)
Definition strict_settings : dict :=
  [("permissions", JObj [("allow", JArr [JStr "Read"]); ("deny", JArr [JStr "Bash"])]);
   ("model", JStr "opus")].

(** A manifest with React among the dependencies and Next.js among the
    development dependencies, as [json.dumps] writes it. *)
Definition next_manifest : json :=
  JObj [("name", JStr "site");
        ("dependencies", JObj [("react", JStr "^18.0.0"); ("express", JStr "^4.0.0")]);
        ("devDependencies", JObj [("next", JStr "^14.0.0")])].

Definition next_project : fs :=
  {[ ["project"] := Dir;
     ["project"; "package.json"] :=
       File (default "" (returned (Codec.dumps next_manifest))) ]}.

(** A manifest cut short, and one that holds a list. *)
Definition broken_project : fs :=
  {[ ["project"] := Dir;
     ["project"; "package.json"] := File "{ " ]}.

Definition list_project : fs :=
  {[ ["project"] := Dir;
     ["project"; "package.json"] := File "[]" ]}.

(** A machine with the user's profiles and a project whose ignore-file
    names one of the two entries inside a longer line. *)
Definition home_profiles : path := ["home"; "dev"; ".claude-profiles"].
Definition builtin_profiles : path := ["opt"; "claude-profiles"; "profiles"].

Definition machine : fs :=
  {[ ["home"] := Dir;
     ["home"; "dev"] := Dir;
     home_profiles := Dir;
     home_profiles ++ ["web.json"] :=
       File (default "" (returned (Codec.dumps web_profile)));
     ["project"] := Dir;
     ["project"; ".gitignore"] :=
       File ("node_modules" +:+ nl +:+ "old/.claude/settings.local.json.bak" +:+ nl) ]}.

(** The machine after the profile [web] is applied with the variant
    [bare], which excludes every server. *)
Definition machine_after : fs :=
  (apply_profile Codec.loads Codec.dumps home_profiles builtin_profiles
     "web" (Some "bare") ["project"] false machine).2.

(** An empty project directory. *)
Definition empty_project : fs := {[ ["project"] := Dir ]}.

(** ** The commands

    [cmd_apply], [cmd_init] and [cmd_diff], and [list_profiles].  The
    fields of [args] a command reads are its parameters here.  [cmd_diff]
    only prints; the embedding returns the sets it prints from. *)

(** [name.rfind(".")]: the text before the last dot and the text after
    it. *)
Fixpoint rsplit_dot (name : string) : option (string * string) :=
  match name with
  | EmptyString => None
  | String c rest =>
      match rsplit_dot rest with
      | Some (before, after) => Some (String c before, after)
      | None => if Ascii.eqb c "." then Some ("", rest) else None
      end
  end.

Fixpoint only_dots (s : string) : bool :=
  match s with
  | EmptyString => true
  | String c s' => Ascii.eqb c "." && only_dots s'
  end.

(** [p.stem] for a path whose last name is [name]: the name without its
    last suffix.  A name that starts with its only dot has no suffix.  On
    a name that ends with a dot, and on one with dots alone before its last
    dot, the versions of [pathlib] differ: not covered. *)
Definition stem (name : string) : outcome string :=
  match rsplit_dot name with
  | None => Returns name
  | Some (before, after) =>
      if String.eqb before "" then Returns name
      else if only_dots before
           then if String.eqb after "" then Returns name else Unsupported
           else if String.eqb after "" then Unsupported else Returns before
  end.

(** A name that starts with a character other than a dot and an
    underscore. *)
Definition ordinary (name : string) : bool :=
  match name with
  | EmptyString => false
  | String c _ => negb (Ascii.eqb c ".") && negb (Ascii.eqb c "_")
  end.

(** A list comprehension whose expression may fail. *)
Fixpoint map_outcome {X Y} (g : X → outcome Y) (l : list X) : outcome (list Y) :=
  match l with
  | [] => Returns []
  | x :: l' => y ← g x; ys ← map_outcome g l'; Returns (y :: ys)
  end.

(** [a <= b] on strings: by code points, which for UTF-8 text is the order
    of the bytes. *)
Definition string_le (a b : string) : Prop := String.leb a b = true.

#[global] Instance string_le_dec a b : Decision (string_le a b).
Proof. unfold string_le. apply _. Defined.

(** [sorted(l)] *)
Definition sorted (l : list string) : list string := merge_sort string_le l.

(** [v.keys()] *)
Definition py_keys (v : json) : outcome (list string) :=
  match v with
  | JObj d => Returns (Dict.keys d)
  | _ => Raises AttributeError
  end.

(** What [cmd_diff] reports: for the servers, [None] when there is no
    manifest and else the sets [missing] and [extra]; [missing_rules];
    [missing_skills]. *)
Record report : Type := Report {
  mcp_report : option (gset string * gset string);
  missing_rules : gset string;
  missing_skills : gset string
}.

Section Commands.

Variable json_loads : string → outcome json.
Variable json_dumps : json → outcome string.
Variable PROFILES_DIR BUILTIN_PROFILES_DIR : path.

Definition list_profiles (f : fs) : outcome (list string) :=
  let profiles_dir := get_profiles_dir PROFILES_DIR BUILTIN_PROFILES_DIR f in
  if FS.exists_ f profiles_dir then
    names ← map_outcome (λ p, stem (FS.basename p))
               (List.filter (λ p, negb (String.prefix "_" (FS.basename p)))
                  (FS.glob f profiles_dir "*.json"));
    Returns (sorted names)
  else Returns [].

(** [cmd_apply], lines 408-419.  Lines 415-416 resolve the variant as
    lines 177-178 do. *)
Definition cmd_apply (profile_name : string) (variant : option string)
    (directory : path) (dry_run : bool) (f : fs) : outcome unit * fs :=
  if String.eqb profile_name "auto" then
    match detect_project f directory with
    | Returns [] => (Raises (SystemExit 1), f)
    | Returns ((profile_name, variant) :: _) =>
        match resolve json_loads f profile_name variant directory with
        | Returns variant =>
            apply_profile json_loads json_dumps PROFILES_DIR BUILTIN_PROFILES_DIR
              profile_name variant directory dry_run f
        | Raises e => (Raises e, f)
        | Unsupported => (Unsupported, f)
        end
    | Raises e => (Raises e, f)
    | Unsupported => (Unsupported, f)
    end
  else apply_profile json_loads json_dumps PROFILES_DIR BUILTIN_PROFILES_DIR
         profile_name variant directory dry_run f.

(** The body of the loop of [cmd_init], lines 432-433.  Copying a file
    onto itself raises [shutil.SameFileError]: not covered. *)
Definition copy_profile (f : fs) (profile_file : path) : outcome fs :=
  dest ← FS.child PROFILES_DIR (FS.basename profile_file);
  if bool_decide (profile_file =
                  if FS.is_dir f dest then dest ++ [FS.basename profile_file] else dest)
  then Unsupported
  else FS.copy2 f profile_file dest.

(** The loop of [cmd_init]: what is copied before a failure stays. *)
Fixpoint copy_profiles (f : fs) (profile_files : list path) : outcome unit * fs :=
  match profile_files with
  | [] => (Returns tt, f)
  | profile_file :: rest =>
      match copy_profile f profile_file with
      | Returns f' => copy_profiles f' rest
      | Raises e => (Raises e, f)
      | Unsupported => (Unsupported, f)
      end
  end.

(** [cmd_init], lines 424-433, with [args.force]. *)
Definition cmd_init (force : bool) (f : fs) : outcome unit * fs :=
  if FS.exists_ f PROFILES_DIR && negb force then (Returns tt, f)
  else match FS.mkdir f PROFILES_DIR with
       | Returns f' => copy_profiles f' (FS.glob f' BUILTIN_PROFILES_DIR "*.json")
       | Raises e => (Raises e, f)
       | Unsupported => (Unsupported, f)
       end.

(** Lines 458-475 of [cmd_diff]. *)
Definition diff_mcp (profile : json) (directory : path) (f : fs)
    : outcome (option (gset string * gset string)) :=
  let mcp_path := directory ++ [".mcp.json"] in
  if FS.exists_ f mcp_path then
    text ← FS.read_text f mcp_path;
    current ← json_loads text;
    current_mcps ← py_get current "mcpServers" (JObj []);
    profile_mcps ← py_get profile "mcp_servers" (JObj []);
    profile_keys ← py_keys profile_mcps;
    current_keys ← py_keys current_mcps;
    let missing : gset string := list_to_set profile_keys ∖ list_to_set current_keys in
    let extra : gset string := list_to_set current_keys ∖ list_to_set profile_keys in
    Returns (Some (missing, extra))
  else Returns None.

(** Lines 478-483. *)
Definition diff_rules (profile : json) (directory : path) (f : fs) : outcome (gset string) :=
  let rules_dir := directory ++ [".claude"; "rules"] in
  rules ← py_get profile "rules" (JObj []);
  profile_rules ← py_keys rules;
  existing_rules ← (if FS.exists_ f rules_dir
                    then map_outcome (λ p, stem (FS.basename p)) (FS.glob f rules_dir "*.md")
                    else Returns []);
  Returns (list_to_set profile_rules ∖ list_to_set existing_rules).

(** [p.name for p in d.iterdir() if p.is_dir()] *)
Definition subdirectories (f : fs) (d : path) : outcome (list string) :=
  if FS.is_dir f d
  then Returns (FS.basename <$> List.filter (FS.is_dir f) (FS.children f d))
  else Raises (if FS.exists_ f d then NotADirectoryError else FileNotFoundError).

(** Lines 490-495. *)
Definition diff_skills (profile : json) (directory : path) (f : fs) : outcome (gset string) :=
  let skills_dir := directory ++ [".claude"; "skills"] in
  skills ← py_get profile "skills" (JObj []);
  profile_skills ← py_keys skills;
  existing_skills ← (if FS.exists_ f skills_dir
                     then subdirectories f skills_dir
                     else Returns []);
  Returns (list_to_set profile_skills ∖ list_to_set existing_skills).

(** [cmd_diff] from line 455 on, with [profile] bound. *)
Definition diff_loaded (profile : json) (directory : path) (f : fs) : outcome report :=
  mcp ← diff_mcp profile directory f;
  rules ← diff_rules profile directory f;
  skills ← diff_skills profile directory f;
  Returns (Report mcp rules skills).

(** [cmd_diff], lines 446-499. *)
Definition cmd_diff (profile_name : string) (directory : path) (f : fs) : outcome report :=
  profile_name ← (if String.eqb profile_name "auto" then
                    detected ← detect_project f directory;
                    match detected with
                    | [] => Raises (SystemExit 1)
                    | first :: _ => Returns first.1
                    end
                  else Returns profile_name);
  profile ← load_profile json_loads PROFILES_DIR BUILTIN_PROFILES_DIR f profile_name;
  diff_loaded profile directory f.

End Commands.

(** The names of rules and skills that are one step of a path each, as
    [FS.child] takes them: the file name [<name>.md] of a rule, and the
    name of a skill, hold no separator and no NUL, and the name of a skill
    is none of [""], ["."] and [".."].  With other names the files of two
    rules, of two skills, or of a rule and [CLAUDE.md], can be one file. *)
Definition plain_names (rules skills : dict) : Prop :=
  Forall (λ k, FS.plain_name (k +:+ ".md") = true) (Dict.keys rules)
  ∧ Forall (λ k, FS.plain_name k = true) (Dict.keys skills).

(** Nothing is removed and no node changes its kind: [f'] has every path
    of [f], a directory where [f] has one and a file where [f] has one. *)
Definition is_directory (n : node) : bool :=
  match n with Dir => true | File _ => false end.

Definition kept (f f' : fs) : Prop :=
  ∀ p n, f !! p = Some n → ∃ n', f' !! p = Some n' ∧ is_directory n' = is_directory n.

(** The statement [m] removes nothing, however it ends. *)
Definition keeps {A} (m : prog A) : Prop := ∀ w, kept (files w) (files (m w).2).

(** ** More machines to run the script on *)

Definition gradle_fields : dict :=
  [("mcp_servers", JObj [("gradle", JObj [])]);
   ("exclude_mcps", JArr [JStr "docs"]);
   ("rules", JObj [("wrapper", JStr "Use the wrapper.")])].

Definition java_fields : dict :=
  [("display_name", JStr "Java");
   ("mcp_servers", JObj [("docs", JObj [("command", JStr "npx")])]);
   ("claude_md", JStr "# Java");
   ("rules", JObj [("style", JStr "Use records.")]);
   ("skills", JObj [("build", JStr "Run the build.")]);
   ("variants", JObj [("gradle", JObj gradle_fields)])].

Definition java_profile : json := JObj java_fields.

(** What the variant [gradle] of [java_profile] holds. *)
Definition gradle_variant : json := JObj gradle_fields.

(** A machine as installed: the built-in profiles [java] and [web], a
    private file beside them, no profiles of the user, and a Gradle
    project. *)
Definition fresh_machine : fs :=
  {[ ["home"] := Dir;
     ["home"; "dev"] := Dir;
     ["opt"] := Dir;
     ["opt"; "claude-profiles"] := Dir;
     builtin_profiles := Dir;
     builtin_profiles ++ ["java.json"] :=
       File (default "" (returned (Codec.dumps java_profile)));
     builtin_profiles ++ ["web.json"] :=
       File (default "" (returned (Codec.dumps web_profile)));
     builtin_profiles ++ ["_schema.json"] := File "{}";
     builtin_profiles ++ ["README.md"] := File "Profiles";
     ["project"] := Dir;
     ["project"; "build.gradle"] := File "plugins { }" ]}.

(** The same machine once the user has profiles of their own: only
    [web]. *)
Definition customised_machine : fs :=
  <[ home_profiles ++ ["web.json"] :=
       File (default "" (returned (Codec.dumps web_profile))) ]>
  (<[ home_profiles := Dir ]> fresh_machine).

(** A project whose [package.json] is a directory. *)
Definition odd_project : fs :=
  {[ ["project"] := Dir;
     ["project"; "package.json"] := Dir ]}.

(** The fresh machine after [java] is applied to the Gradle project, and
    after it is applied a second time. *)
Definition java_applied : fs :=
  (apply_profile Codec.loads Codec.dumps home_profiles builtin_profiles
     "java" None ["project"] false fresh_machine).2.

Definition java_applied_twice : fs :=
  (apply_profile Codec.loads Codec.dumps home_profiles builtin_profiles
     "java" None ["project"] false java_applied).2.

(** A machine whose project has instructions of its own already. *)
Definition machine_with_notes : fs :=
  <[ ["project"; ".claude"; "CLAUDE.md"] := File "My notes" ]>
  (<[ ["project"; ".claude"] := Dir ]> fresh_machine).

Definition notes_replaced : fs :=
  (apply_profile Codec.loads Codec.dumps home_profiles builtin_profiles
     "java" None ["project"] false machine_with_notes).2.

(** [machine] after [web] is applied with the variant [strict]. *)
Definition strict_applied : fs :=
  (apply_profile Codec.loads Codec.dumps home_profiles builtin_profiles
     "web" (Some "strict") ["project"] false machine).2.

(** What the comparison with [java] reports after that run. *)
Definition java_report : report :=
  {| mcp_report := Some ({["docs"]}, {["gradle"]});
     missing_rules := ∅;
     missing_skills := ∅ |}.

(** A Python project that names its framework in capitals, and one that
    has both a Django and a Flask entry file. *)
Definition fastapi_project : fs :=
  {[ ["project"] := Dir;
     ["project"; "pyproject.toml"] := File "dependencies: FastAPI>=0.100" ]}.

Definition django_project : fs :=
  {[ ["project"] := Dir;
     ["project"; "manage.py"] := File "import django";
     ["project"; "app.py"] := File "import flask";
     ["project"; "pyproject.toml"] := Dir ]}.

(** [java_applied] with a manifest cut short. *)
Definition broken_manifest : fs :=
  <[ ["project"; ".mcp.json"] := File "{ " ]> java_applied.

(** The customised machine with a profile of the user's own. *)
Definition machine_with_own : fs :=
  <[ home_profiles ++ ["mine.json"] := File "{}" ]> customised_machine.

(** * Detection *)

Lemma scan_markers_cases f d markers e detected :
  scan_markers f d markers e detected =
  if existsb (matches f d) markers
  then if bool_decide (e ∈ detected) then detected else detected ++ [e]
  else detected.
Proof.
  induction markers as [|m ms IH]; simpl; [done|].
  destruct (matches f d m); simpl; [done | apply IH].
Qed.

Lemma existsb_none {A} (g : A → bool) l :
  Forall (λ x, g x = false) l → existsb g l = false.
Proof. induction 1 as [|x l Hx _ IH]; simpl; [done | by rewrite Hx, IH]. Qed.

Lemma scan_rules_cons f d r rules detected :
  scan_rules f d (r :: rules) detected =
  scan_rules f d rules (scan_markers f d r.1.1 (r.1.2, r.2) detected).
Proof. by destruct r as [[ms p] v]. Qed.

Lemma scan_rules_none f d rules detected :
  Forall (λ m, matches f d m = false) (markers_of rules) →
  scan_rules f d rules detected = detected.
Proof.
  revert detected. induction rules as [|r rules IH]; intros detected H; [done|].
  unfold markers_of in H. rewrite bind_cons in H. apply Forall_app in H as [Hr H].
  rewrite scan_rules_cons, scan_markers_cases, (existsb_none _ _ Hr).
  by apply IH.
Qed.

(** The scan only ever adds entries of its rules, in their order. *)
Lemma scan_rules_sublist f d rules detected :
  ∃ ext, scan_rules f d rules detected = detected ++ ext
         ∧ ext `sublist_of` entries_of rules.
Proof.
  revert detected. induction rules as [|r rules IH]; intros detected.
  { exists []. by rewrite app_nil_r. }
  rewrite scan_rules_cons, scan_markers_cases.
  destruct (existsb _ _); [destruct (bool_decide _)|].
  - destruct (IH detected) as (ext & -> & Hs). exists ext. split; [done|].
    by apply sublist_cons.
  - destruct (IH (detected ++ [(r.1.2, r.2)])) as (ext & -> & Hs).
    exists ((r.1.2, r.2) :: ext). split; [by rewrite <- app_assoc|].
    by apply sublist_skip.
  - destruct (IH detected) as (ext & -> & Hs). exists ext. split; [done|].
    by apply sublist_cons.
Qed.

(** Nothing matches below a path that is no directory. *)
Lemma matches_not_dir f d marker :
  FS.is_dir f d = false → FS.parts marker ≠ [] → matches f d marker = false.
Proof.
  intros Hd Hp. unfold matches, FS.glob.
  destruct (FS.parts marker) as [|pat rest]; [done|].
  simpl. by rewrite Hd.
Qed.

(** A marker without wildcard matches when the file of that name exists. *)
Lemma matches_literal f d name :
  FS.parts name = [name] → FS.has_magic name = false →
  matches f d name = FS.is_dir f d && FS.exists_ f (d ++ [name]).
Proof.
  intros Hp Hm. unfold matches, FS.glob. rewrite Hp. simpl. rewrite Hm.
  destruct (FS.is_dir f d); [|done].
  destruct (FS.exists_ f (d ++ [name])); done.
Qed.

Lemma markers_have_parts :
  Forall (λ m, FS.parts m ≠ []) (markers_of DETECTION_RULES).
Proof. repeat constructor; by vm_compute. Qed.

Lemma detection_entries_NoDup : NoDup (entries_of DETECTION_RULES).
Proof. refine (bool_decide_unpack _ _). vm_compute. exact I. Qed.

(** C5, as the code has it: for every directory argument that does not
    exist on the file system, [detect_project] returns normally, with the
    empty list; no error is raised. *)
Theorem detect_project_missing_directory (f : fs) (directory : path) :
  FS.exists_ f directory = false →
  detect_project f directory = Returns [].
Proof.
  intros Hex. unfold detect_project. f_equal.
  apply scan_rules_none.
  assert (FS.is_dir f directory = false) as Hd.
  { unfold FS.is_dir, FS.exists_ in *. by destruct (FS.lookup f directory). }
  eapply Forall_impl; [apply markers_have_parts|].
  intros m Hm. by apply matches_not_dir.
Qed.

Lemma detect_project_missing_directory_witness :
  FS.exists_ maven_project ["elsewhere"] = false
  ∧ detect_project maven_project ["elsewhere"] = Returns [].
Proof.
  split; [vm_compute; reflexivity|].
  apply detect_project_missing_directory. vm_compute. reflexivity.
Defined.

(** C5 as stated fails: on the empty file system the directory [nowhere]
    does not exist, and [detect_project] returns the empty list there
    instead of raising. *)
Lemma detect_project_missing_directory_returns :
  FS.exists_ ∅ ["nowhere"] = false
  ∧ detect_project ∅ ["nowhere"] = Returns []
  ∧ ∀ e, detect_project ∅ ["nowhere"] ≠ Raises e.
Proof. vm_compute. split; [done|]. split; [done|]. intros e; discriminate. Qed.

Lemma scan_rules_app f d rules1 rules2 detected :
  scan_rules f d (rules1 ++ rules2) detected =
  scan_rules f d rules2 (scan_rules f d rules1 detected).
Proof. apply foldl_app. Qed.

(** C2, as the code has it: for a directory whose listing contains
    [pom.xml] and no marker of any earlier rule, the list [detect_project]
    returns starts with the pair [("java", "maven")] -- the pair carries
    the variant -- and is that pair alone when no marker of a later rule is
    there either; [detect_variant("java", directory)] returns ["maven"]. *)
Theorem detect_maven (json_loads : string → outcome json) (f : fs) (directory : path) :
  FS.is_dir f directory = true →
  FS.exists_ f (directory ++ ["pom.xml"]) = true →
  Forall (λ m, matches f directory m = false) (markers_of rules_before_maven) →
  ∃ rest,
    detect_project f directory = Returns (("java", Some "maven") :: rest)
    ∧ (Forall (λ m, matches f directory m = false) (markers_of rules_after_maven) →
       rest = [])
    ∧ detect_variant json_loads f "java" directory = Returns (Some "maven").
Proof.
  intros Hdir Hpom Hbefore.
  assert (matches f directory "pom.xml" = true) as Hm.
  { rewrite matches_literal; [by rewrite Hdir, Hpom | by vm_compute..]. }
  destruct (scan_rules_sublist f directory rules_after_maven [("java", Some "maven")])
    as (rest & Hrest & _).
  exists rest. split; [|split].
  - unfold detect_project. f_equal.
    change DETECTION_RULES
      with (rules_before_maven ++ (["pom.xml"], "java", Some "maven") :: rules_after_maven).
    rewrite scan_rules_app, (scan_rules_none _ _ _ _ Hbefore), scan_rules_cons.
    rewrite scan_markers_cases. cbn [existsb fst snd]. rewrite Hm.
    cbn [orb]. rewrite bool_decide_eq_false_2 by apply not_elem_of_nil.
    exact Hrest.
  - intros Hafter. rewrite (scan_rules_none _ _ _ _ Hafter) in Hrest.
    apply (app_inv_head [("java", Some "maven")]). by rewrite <- Hrest.
  - unfold detect_variant, java_variant. cbn [String.eqb Ascii.eqb Bool.eqb]. by rewrite Hm.
Qed.

Lemma detect_maven_witness :
  ∃ rest,
    detect_project maven_project ["project"] = Returns (("java", Some "maven") :: rest)
    ∧ (Forall (λ m, matches maven_project ["project"] m = false)
         (markers_of rules_after_maven) → rest = [])
    ∧ detect_variant Codec.loads maven_project "java" ["project"]
      = Returns (Some "maven").
Proof.
  apply (detect_maven Codec.loads maven_project ["project"]).
  - vm_compute. reflexivity.
  - vm_compute. reflexivity.
  - repeat (constructor; [vm_compute; reflexivity|]). constructor.
Defined.

(** C2 as stated fails: in a directory that holds [pom.xml] and nothing
    else, the pair [detect_project] reports is [("java", "maven")], not
    [("java", None)]. *)
Lemma detect_maven_pair_has_variant :
  FS.exists_ maven_project ["project"; "pom.xml"] = true
  ∧ Forall (λ m, matches maven_project ["project"] m = false)
      (markers_of rules_before_maven)
  ∧ detect_project maven_project ["project"] = Returns [("java", Some "maven")]
  ∧ detect_project maven_project ["project"] ≠ Returns [("java", None)].
Proof.
  split; [vm_compute; reflexivity|].
  split; [repeat (constructor; [vm_compute; reflexivity|]); constructor|].
  split; [vm_compute; reflexivity|]. vm_compute. discriminate.
Qed.

Lemma detection_stacks_once :
  Forall (λ e1 : entry,
    Forall (λ e2 : entry, e1.1 = e2.1 → e1.1 ≠ "java" → e1 = e2)
      (entries_of DETECTION_RULES))
    (entries_of DETECTION_RULES).
Proof. refine (bool_decide_unpack _ _). vm_compute. exact I. Qed.

(** Among entries that are not yet there, the scan adds the entry of
    every rule that matches, and of no other. *)
Lemma scan_rules_filter f d rules : ∀ detected,
  NoDup (detected ++ entries_of rules) →
  scan_rules f d rules detected =
  detected ++ entries_of (List.filter (λ r, existsb (matches f d) r.1.1) rules).
Proof.
  induction rules as [|r rules IH]; intros detected Hnd.
  { by rewrite app_nil_r. }
  rewrite scan_rules_cons, scan_markers_cases. cbn [List.filter].
  change (entries_of (r :: rules)) with ((r.1.2, r.2) :: entries_of rules) in Hnd.
  destruct (existsb (matches f d) r.1.1).
  - assert ((r.1.2, r.2) ∉ detected) as Hnew.
    { apply NoDup_app in Hnd as (_ & Hd & _). intros Hin. apply (Hd _ Hin). left. }
    rewrite bool_decide_eq_false_2 by done.
    rewrite IH.
    + change (entries_of (r :: ?l)) with ((r.1.2, r.2) :: entries_of l).
      by rewrite <- app_assoc.
    + by rewrite <- app_assoc.
  - apply IH. apply NoDup_app in Hnd as (H1 & H2 & H3).
    apply NoDup_app. split; [done|]. split.
    + intros x Hx Hx'. apply (H2 x Hx). by right.
    + by apply NoDup_cons in H3 as [_ ?].
Qed.

Lemma detect_project_matching f d :
  detect_project f d = Returns (entries_of (matching_rules f d)).
Proof.
  unfold detect_project, matching_rules. f_equal.
  rewrite scan_rules_filter; [done|]. apply detection_entries_NoDup.
Qed.

Lemma filter_entries_of (q : entry → bool) p rules :
  List.filter q (entries_of (List.filter p rules))
  = entries_of (List.filter (λ r, p r && q (r.1.2, r.2)) rules).
Proof.
  induction rules as [|r rules IH]; [done|]. cbn [List.filter].
  destruct (p r); cbn [andb]; [|exact IH].
  change (entries_of (r :: ?l)) with ((r.1.2, r.2) :: entries_of l).
  cbn [List.filter]. destruct (q (r.1.2, r.2)); [|exact IH].
  change (entries_of (r :: ?l)) with ((r.1.2, r.2) :: entries_of l).
  by rewrite IH.
Qed.

(** The entries for [java] come from the two rules for it, the one for
    Maven before the one for Gradle. *)
Lemma java_entries_matching f d :
  java_entries (entries_of (matching_rules f d))
  = (if matches f d "pom.xml" then [("java", Some "maven")] else [])
    ++ (if existsb (matches f d) ["build.gradle"; "build.gradle.kts"; "gradlew"]
        then [("java", Some "gradle")] else []).
Proof.
  unfold java_entries, matching_rules, DETECTION_RULES.
  rewrite filter_entries_of.
  cbn [List.filter fst snd String.eqb Ascii.eqb Bool.eqb].
  rewrite !andb_false_r, !andb_true_r.
  cbn [existsb]. rewrite (orb_false_r (matches f d "pom.xml")).
  destruct (matches f d "pom.xml");
    by destruct (matches f d "build.gradle" || _).
Qed.

(** C6, as the code has it: for every directory, no pair of stack and
    variant appears twice in the list [detect_project] returns, and no
    stack other than [java] appears twice; [java] is reported once per
    build tool found: in a directory that holds [pom.xml] and one of
    [build.gradle], [build.gradle.kts] and [gradlew], the entries for
    [java] are the two pairs [("java", "maven")] and [("java", "gradle")],
    in this order. *)
Theorem detect_project_no_duplicates (f : fs) (directory : path) :
  ∃ detected,
    detect_project f directory = Returns detected
    ∧ NoDup detected
    ∧ (∀ e1 e2, e1 ∈ detected → e2 ∈ detected →
         e1.1 = e2.1 → e1.1 ≠ "java" → e1 = e2)
    ∧ (FS.is_dir f directory = true →
       FS.exists_ f (directory ++ ["pom.xml"]) = true →
       existsb (λ marker, FS.exists_ f (directory ++ [marker]))
         ["build.gradle"; "build.gradle.kts"; "gradlew"] = true →
       java_entries detected = [("java", Some "maven"); ("java", Some "gradle")]).
Proof.
  destruct (scan_rules_sublist f directory DETECTION_RULES []) as (ext & Hext & Hsub).
  rewrite app_nil_l in Hext. exists ext. split; [by unfold detect_project; rewrite Hext|].
  split; [exact (sublist_NoDup _ _ detection_entries_NoDup Hsub)|]. split.
  - intros e1 e2 H1 H2.
    apply (λ H, elem_of_sublist _ _ _ H Hsub) in H1.
    apply (λ H, elem_of_sublist _ _ _ H Hsub) in H2.
    pose proof detection_stacks_once as H.
    rewrite Forall_forall in H. specialize (H e1 H1).
    rewrite Forall_forall in H. exact (H e2 H2).
  - intros Hdir Hpom Hgradle.
    assert (ext = entries_of (matching_rules f directory)) as ->.
    { pose proof (detect_project_matching f directory) as H.
      unfold detect_project in H. rewrite Hext in H. congruence. }
    rewrite java_entries_matching.
    rewrite (matches_literal f directory "pom.xml") by by vm_compute.
    cbn [existsb] in Hgradle |- *.
    rewrite !matches_literal by by vm_compute.
    rewrite Hdir, Hpom. cbn [andb]. by rewrite Hgradle.
Qed.

(** C6 as stated fails: with [pom.xml] and [build.gradle] side by side the
    stack [java] is reported twice, once per variant. *)
Lemma detect_project_java_twice :
  detect_project maven_gradle_project ["project"]
  = Returns [("java", Some "maven"); ("java", Some "gradle")].
Proof. vm_compute. reflexivity. Qed.

(** * Dictionaries *)

Lemma get_set k k' v d :
  Dict.get k' (Dict.set k v d) = if String.eqb k' k then Some v else Dict.get k' d.
Proof.
  induction d as [|[k0 v0] d IH]; simpl; [done|].
  destruct (String.eqb_spec k k0) as [->|Hk]; simpl.
  - by destruct (String.eqb_spec k' k0).
  - destruct (String.eqb_spec k' k0) as [->|Hk'].
    + destruct (String.eqb_spec k0 k); [congruence | done].
    + done.
Qed.

Lemma get_pop k k' d :
  Dict.get k' (Dict.pop k d) = if String.eqb k' k then None else Dict.get k' d.
Proof.
  induction d as [|[k0 v0] d IH]; simpl.
  - by destruct (String.eqb k' k).
  - destruct (String.eqb_spec k k0) as [->|Hk]; simpl.
    + rewrite IH. by destruct (String.eqb_spec k' k0).
    + rewrite IH. destruct (String.eqb_spec k' k0) as [->|Hk'].
      * destruct (String.eqb_spec k0 k); [congruence | done].
      * done.
Qed.

Lemma get_None_keys k d : Dict.get k d = None ↔ k ∉ Dict.keys d.
Proof.
  unfold Dict.keys. induction d as [|[k0 v0] d IH]; simpl.
  - split; [intros _; apply not_elem_of_nil | done].
  - rewrite not_elem_of_cons. destruct (String.eqb_spec k k0) as [->|Hk].
    + split; [done | intros [? _]; done].
    + rewrite IH. tauto.
Qed.

Lemma get_Some_keys k d : is_Some (Dict.get k d) ↔ k ∈ Dict.keys d.
Proof.
  rewrite <- not_eq_None_Some, get_None_keys.
  split; [apply dec_stable | tauto].
Qed.

Lemma update_cons d k v other :
  Dict.update d ((k, v) :: other) = Dict.update (Dict.set k v d) other.
Proof. done. Qed.

(** [update] takes the entries of [other] and keeps the rest of [d]. *)
Lemma get_update k d other :
  Dict.wf other →
  Dict.get k (Dict.update d other) =
  match Dict.get k other with Some v => Some v | None => Dict.get k d end.
Proof.
  unfold Dict.wf, Dict.keys. revert d.
  induction other as [|[k0 v0] other IH]; intros d Hwf; [done|].
  apply NoDup_cons in Hwf as [Hk0 Hwf]. simpl in Hk0.
  rewrite update_cons, IH, get_set by done. simpl.
  destruct (String.eqb_spec k k0) as [->|Hk]; [|done].
  apply get_None_keys in Hk0. by rewrite Hk0.
Qed.

Lemma keys_update k d other :
  is_Some (Dict.get k (Dict.update d other))
  ↔ k ∈ Dict.keys d ∨ k ∈ Dict.keys other.
Proof.
  revert d. induction other as [|[k0 v0] other IH]; intros d.
  - simpl. rewrite get_Some_keys. unfold Dict.keys at 2. simpl.
    rewrite elem_of_nil. tauto.
  - rewrite update_cons, IH. unfold Dict.keys at 3. simpl.
    rewrite elem_of_cons, <- !get_Some_keys, get_set.
    destruct (String.eqb_spec k k0) as [->|Hk].
    + split; [intros _; right; by left | intros _; left; by eexists].
    + fold (Dict.keys other). rewrite !get_Some_keys. tauto.
Qed.

(** * The merge of a profile and a variant *)

(** A [pop] that returns removed the key, or had no key to remove. *)
Lemma py_pop_inv d x d' :
  py_pop d x = Returns d' →
  (∃ s, x = JStr s ∧ d' = Dict.pop s d) ∨ ((∀ s, x ≠ JStr s) ∧ d' = d).
Proof.
  destruct x as [| | |s|l|o]; simpl; intros Hp;
    try (right; split; [done|]; destruct d; congruence).
  left. exists s. split; [done | congruence].
Qed.

Lemma pops_spec names : ∀ d m,
  fold_outcome py_pop d names = Returns m →
  ∀ k, (Dict.get k d = None → Dict.get k m = None)
       ∧ (JStr k ∈ names → Dict.get k m = None)
       ∧ (JStr k ∉ names → Dict.get k m = Dict.get k d).
Proof.
  induction names as [|x names IH]; intros d m H k; simpl in H.
  - inversion H; subst. split; [done|]. split; [by intros ?%elem_of_nil | done].
  - unfold mbind, outcome_bind in H.
    destruct (py_pop d x) as [d'| |] eqn:Hp; try done.
    destruct (IH d' m H k) as (IH0 & IH1 & IH2).
    apply py_pop_inv in Hp as [(s & -> & ->)|[Hx ->]].
    + split; [|split].
      * intros Hk. apply IH0. rewrite get_pop, Hk. by destruct (String.eqb k s).
      * intros [[= <-]|Hk]%elem_of_cons; [|by apply IH1].
        apply IH0. by rewrite get_pop, String.eqb_refl.
      * intros [Hs Hk]%not_elem_of_cons. rewrite (IH2 Hk).
        rewrite get_pop. destruct (String.eqb_spec k s); [congruence | done].
    + split; [done|]. split.
      * intros [<-|Hk]%elem_of_cons; [by destruct (Hx k) | by apply IH1].
      * intros [_ Hk]%not_elem_of_cons. by apply IH2.
Qed.

(** C4: every key listed in the variant's [exclude_mcps] is absent from
    the merged [mcp_servers], whatever the variant's own [mcp_servers]
    add: the exclusion comes after the additions.  The keys that are not
    listed keep what the merge of base and additions gave them. *)
Theorem excluded_mcps_absent (profile : json) (override : dict)
    (names : list json) (mcp_servers : dict) :
  Dict.get "exclude_mcps" override = Some (JArr names) →
  merged_mcp_servers profile (JObj override) = Returns mcp_servers →
  ∃ added,
    merged "mcp_servers" profile (JObj override) = Returns added
    ∧ ∀ k, (JStr k ∈ names → Dict.get k mcp_servers = None)
           ∧ (JStr k ∉ names → Dict.get k mcp_servers = Dict.get k added).
Proof.
  intros Hex H. unfold merged_mcp_servers in H.
  destruct (merged "mcp_servers" profile (JObj override)) as [added| |]; try done.
  exists added. split; [done|]. intros k.
  simpl in H. rewrite Hex in H. simpl in H.
  by destruct (pops_spec names added mcp_servers H k) as (_ & ? & ?).
Qed.

Lemma excluded_mcps_absent_witness :
  merged_mcp_servers web_profile add_and_exclude = Returns [("docs", JObj [])]
  ∧ ∃ added,
      merged "mcp_servers" web_profile add_and_exclude = Returns added
      ∧ ∀ k, (JStr k ∈ [JStr "browser"; JStr "db"] →
              Dict.get k [("docs", JObj [])] = None)
             ∧ (JStr k ∉ [JStr "browser"; JStr "db"] →
                Dict.get k [("docs", JObj [])] = Dict.get k added).
Proof.
  split; [vm_compute; reflexivity|].
  apply (excluded_mcps_absent web_profile _ [JStr "browser"; JStr "db"]).
  - reflexivity.
  - vm_compute. reflexivity.
Defined.

Lemma apply_resolved_unfold json_dumps name variant dir dry w :
  apply_resolved json_dumps name variant dir dry w =
  match variant_config_of (profile w) variant with
  | Returns vc =>
      match display_name_of name (profile w) variant with
      | Returns _ => apply_steps json_dumps dir dry vc w
      | Raises e => (Raises e, w)
      | Unsupported => (Unsupported, w)
      end
  | Raises e => (Raises e, w)
  | Unsupported => (Unsupported, w)
  end.
Proof.
  unfold apply_resolved, mbind, prog_bind, of_profile.
  destruct (variant_config_of (profile w) variant); [|done..].
  by destruct (display_name_of name (profile w) variant).
Qed.

(** C3: for a profile whose [variants] have no key [V], merging with the
    variant [V] is merging with no variant: the lookup raises nothing and
    yields the empty configuration that no variant yields, so every
    artifact is merged from the same inputs; and where the display name
    is a string, as profiles have it, the whole run with [V] is the run
    with no variant -- same effective configuration, same outcome, same
    files. *)
Theorem unknown_variant_is_no_variant (json_dumps : json → outcome string)
    (name V : string) (directory : path) (dry_run : bool) (f : fs) (fields : dict) :
  (Dict.get "variants" fields = None
   ∨ ∃ variants, Dict.get "variants" fields = Some (JObj variants)
                 ∧ Dict.get V variants = None) →
  variant_config_of (JObj fields) (Some V) = Returns (JObj [])
  ∧ variant_config_of (JObj fields) None = Returns (JObj [])
  ∧ ((Dict.get "display_name" fields = None
      ∨ ∃ s, Dict.get "display_name" fields = Some (JStr s)) →
     apply_resolved json_dumps name (Some V) directory dry_run (World f (JObj fields))
     = apply_resolved json_dumps name None directory dry_run (World f (JObj fields))).
Proof.
  intros Hv.
  assert (variant_config_of (JObj fields) (Some V) = Returns (JObj [])) as Hvc.
  { unfold variant_config_of. destruct (nonempty (Some V)); [|done]. simpl.
    destruct Hv as [Hv | (variants & Hv & HV)]; rewrite Hv; simpl.
    - done.
    - by rewrite HV. }
  split; [done|]. split; [done|]. intros Hd.
  rewrite !apply_resolved_unfold. simpl profile. rewrite Hvc.
  assert (∀ v, ∃ x, display_name_of name (JObj fields) v = Returns x) as Hdn.
  { intros v. unfold display_name_of. simpl.
    destruct Hd as [Hd | (s & Hd)]; rewrite Hd; simpl;
      destruct (nonempty v); simpl; eauto. }
  destruct (Hdn (Some V)) as [x1 ->]. destruct (Hdn None) as [x2 ->].
  done.
Qed.

Lemma unknown_variant_is_no_variant_witness :
  variant_config_of web_profile (Some "gradle") = Returns (JObj [])
  ∧ apply_resolved Codec.dumps "web" (Some "gradle") ["project"] false
      (World empty_project web_profile)
    = apply_resolved Codec.dumps "web" None ["project"] false
      (World empty_project web_profile).
Proof.
  destruct (unknown_variant_is_no_variant Codec.dumps "web" "gradle" ["project"]
              false empty_project web_fields) as (H1 & _ & H2).
  - right. eexists. split; reflexivity.
  - split; [exact H1|]. apply H2. right. eexists. reflexivity.
Defined.

(** * The settings *)

Lemma points_to_inv r w cur :
  points_to r w cur →
  match r with
  | InProfile k => ∃ fields, profile w = JObj fields ∧ Dict.get k fields = Some (JObj cur)
  | Fresh o => o = JObj cur
  end.
Proof.
  unfold points_to. destruct r as [k|o]; simpl.
  - unfold of_profile. intros [= H]. destruct (profile w) as [| | | | |fields]; try done.
    exists fields. split; [done|]. simpl in H. by destruct (Dict.get k fields); simplify_eq.
  - by intros [= ->].
Qed.

(** Unfolds one layer of the monad of statements. *)
Ltac run_prog :=
  unfold mbind, prog_bind, of_profile, lift, mret, prog_ret; simpl.

Lemma merge_entry_spec r w cur key val :
  points_to r w cur →
  ∃ r' w',
    merge_entry r (key, val) w = (Returns r', w')
    ∧ points_to r' w' (Dict.set key (one_level cur key val) cur)
    ∧ files w' = files w
    ∧ match r with
      | InProfile k => r' = r
      | Fresh _ => profile w' = profile w ∧ ∃ o, r' = Fresh o
      end.
Proof.
  intros H. pose proof (points_to_inv _ _ _ H) as Hinv.
  destruct r as [k|o].
  - destruct Hinv as (fields & Hp & Hk). destruct w as [f p]. simpl in Hp. subst p.
    unfold merge_entry, one_level, points_to.
    destruct val as [| | | | |m]; simpl; run_prog; rewrite ?Hk; simpl;
      [| | | | |destruct (Dict.get key cur) as [[| | | | |s]|] eqn:Hc; simpl;
                rewrite ?Hk; simpl; rewrite ?Hc; simpl];
      (eexists _, _; split; [reflexivity|]; split; [|done];
       unfold deref; run_prog; by rewrite get_set, String.eqb_refl).
  - subst o. unfold merge_entry, one_level, points_to.
    destruct val as [| | | | |m]; simpl; run_prog;
      [| | | | |destruct (Dict.get key cur) as [[| | | | |s]|] eqn:Hc; simpl;
                rewrite ?Hc; simpl];
      (eexists _, _; split; [reflexivity|]; split; [done|]; eauto).
Qed.

Lemma fold_merge_entries entries : ∀ r w cur,
  points_to r w cur →
  ∃ r' w',
    fold_prog merge_entry r entries w = (Returns r', w')
    ∧ points_to r' w' (foldl merge_step cur entries)
    ∧ files w' = files w
    ∧ ∀ k, r = InProfile k → r' = InProfile k.
Proof.
  induction entries as [|[key val] entries IH]; intros r w cur H; cbn [fold_prog foldl].
  - by exists r, w.
  - destruct (merge_entry_spec r w cur key val H) as (r1 & w1 & Hrun & H1 & Hf1 & Hr1).
    destruct (IH r1 w1 _ H1) as (r2 & w2 & Hrun2 & H2 & Hf2 & Hr2).
    exists r2, w2. unfold mbind, prog_bind. rewrite Hrun, Hrun2.
    split; [done|]. split; [done|]. split; [congruence|].
    intros k ->. apply Hr2. exact Hr1.
Qed.

Lemma get_merge_steps k entries : ∀ cur,
  Dict.wf entries →
  Dict.get k (foldl merge_step cur entries) =
  match Dict.get k entries with
  | Some val => Some (one_level cur k val)
  | None => Dict.get k cur
  end.
Proof.
  unfold Dict.wf, Dict.keys.
  induction entries as [|[k0 v0] entries IH]; intros cur Hwf; [done|].
  apply NoDup_cons in Hwf as [Hk0 Hwf]. simpl in Hk0.
  simpl foldl. rewrite IH by done. unfold merge_step at 1 2. simpl.
  destruct (String.eqb_spec k k0) as [->|Hk].
  - apply get_None_keys in Hk0. by rewrite Hk0, get_set, String.eqb_refl.
  - unfold one_level. rewrite !get_set.
    destruct (String.eqb_spec k k0); [done|]. done.
Qed.

Lemma settings_of_profile_spec f fields S :
  default (JObj []) (Dict.get "settings" fields) = JObj S →
  ∃ r, settings_of_profile (World f (JObj fields)) = (Returns r, World f (JObj fields))
       ∧ points_to r (World f (JObj fields)) S.
Proof.
  intros H. unfold settings_of_profile, of_profile, points_to. simpl.
  destruct (Dict.get "settings" fields) as [v|] eqn:Hs; simpl in H; subst.
  - eexists. split; [done|]. unfold deref, of_profile. simpl. by rewrite Hs.
  - eexists. split; [done|]. by simplify_eq.
Qed.

Lemma get_unpacked j s m :
  Dict.wf s → Dict.wf m →
  Dict.get j (Dict.update (Dict.update [] s) m) =
  match Dict.get j m with Some x => Some x | None => Dict.get j s end.
Proof.
  intros Hs Hm. rewrite !get_update by done. simpl.
  by destruct (Dict.get j m), (Dict.get j s).
Qed.

(** C8: with base settings [S] and a variant whose [settings_merge] is
    [M], the merged settings give every key of [M] the union of the two
    values' entries, the entries of [M] winning, when both values are
    mappings, and the value of [M] otherwise; the entries of that union
    are taken whole from [M] or from [S], with no merge below; a key of
    [S] that [M] does not have keeps its value. *)
Theorem settings_merge_one_level (f : fs) (fields override S M : dict) :
  default (JObj []) (Dict.get "settings" fields) = JObj S →
  Dict.get "settings_merge" override = Some (JObj M) →
  Dict.wf M →
  ∃ settings w' R,
    merged_settings (JObj override) (World f (JObj fields)) = (Returns settings, w')
    ∧ deref settings w' = (Returns (JObj R), w')
    ∧ ∀ k,
        match Dict.get k M with
        | None => Dict.get k R = Dict.get k S
        | Some (JObj m) =>
            match Dict.get k S with
            | Some (JObj s) =>
                ∃ u, Dict.get k R = Some (JObj u)
                     ∧ (Dict.wf s → Dict.wf m →
                        ∀ j, Dict.get j u =
                             match Dict.get j m with
                             | Some x => Some x
                             | None => Dict.get j s
                             end)
            | _ => Dict.get k R = Some (JObj m)
            end
        | Some val => Dict.get k R = Some val
        end.
Proof.
  intros HS HM Hwf.
  destruct (settings_of_profile_spec f fields S HS) as (r & Hr & Hpt).
  assert (∃ settings w',
    merged_settings (JObj override) (World f (JObj fields)) = (Returns settings, w')
    ∧ points_to settings w' (foldl merge_step S M)) as (settings & w' & Hrun & Hfin).
  { unfold merged_settings. unfold mbind at 1, prog_bind at 1. rewrite Hr.
    unfold mbind at 1, prog_bind at 1, lift at 1. simpl py_get. rewrite HM. simpl.
    destruct M as [|e M]; [by exists r, (World f (JObj fields))|]. simpl truthy. cbv iota.
    unfold mbind at 1, prog_bind at 1, lift at 1. simpl py_getitem. rewrite HM.
    unfold mbind at 1, prog_bind at 1, lift at 1. simpl py_items.
    destruct (fold_merge_entries (e :: M) r _ S Hpt) as (r' & w' & -> & H' & _).
    by exists r', w'. }
  exists settings, w', (foldl merge_step S M). split; [done|]. split; [done|].
  intros k. rewrite get_merge_steps by done.
  destruct (Dict.get k M) as [val|]; [|done].
  unfold one_level.
  destruct val as [| | | | |m]; try done.
  destruct (Dict.get k S) as [[| | | | |s]|]; try done.
  eexists. split; [done|]. intros Hs Hm j. by apply get_unpacked.
Qed.

Lemma settings_merge_one_level_witness :
  ∃ settings w' R,
    merged_settings (JObj strict_variant) (World empty_project (JObj web_fields))
    = (Returns settings, w')
    ∧ deref settings w' = (Returns (JObj R), w')
    ∧ ∀ k,
        match Dict.get k strict_merge with
        | None => Dict.get k R = Dict.get k web_settings
        | Some (JObj m) =>
            match Dict.get k web_settings with
            | Some (JObj s) =>
                ∃ u, Dict.get k R = Some (JObj u)
                     ∧ (Dict.wf s → Dict.wf m →
                        ∀ j, Dict.get j u =
                             match Dict.get j m with
                             | Some x => Some x
                             | None => Dict.get j s
                             end)
            | _ => Dict.get k R = Some (JObj m)
            end
        | Some val => Dict.get k R = Some val
        end.
Proof.
  apply (settings_merge_one_level empty_project web_fields strict_variant
           web_settings strict_merge).
  - reflexivity.
  - reflexivity.
  - refine (bool_decide_unpack _ _). vm_compute. exact I.
Defined.

(** The merge of the settings works on the loaded profile itself: for a
    profile that has settings [S] and a variant whose [settings_merge] is
    a non-empty [M], the profile holds the merged settings afterwards,
    and no file has changed yet. *)
Theorem merged_settings_in_profile (f : fs) (fields override S M : dict) :
  Dict.get "settings" fields = Some (JObj S) →
  Dict.get "settings_merge" override = Some (JObj M) →
  M ≠ [] →
  Dict.wf M →
  ∃ settings w' R,
    merged_settings (JObj override) (World f (JObj fields)) = (Returns settings, w')
    ∧ files w' = f
    ∧ py_getitem (profile w') "settings" = Returns (JObj R)
    ∧ ∀ k, Dict.get k R = match Dict.get k M with
                           | Some val => Some (one_level S k val)
                           | None => Dict.get k S
                           end.
Proof.
  intros HS HM Hne Hwf.
  destruct (settings_of_profile_spec f fields S) as (r & Hr & Hpt).
  { by rewrite HS. }
  assert (r = InProfile "settings") as ->.
  { unfold settings_of_profile, of_profile in Hr. simpl in Hr.
    rewrite HS in Hr. by simplify_eq. }
  destruct (fold_merge_entries M _ _ S Hpt) as (r' & w' & Hrun & Hfin & Hfiles & Hsame).
  rewrite (Hsame "settings" eq_refl) in Hrun, Hfin.
  exists (InProfile "settings"), w', (foldl merge_step S M).
  split; [|split; [done|split]].
  - unfold merged_settings. unfold mbind at 1, prog_bind at 1. rewrite Hr.
    unfold mbind at 1, prog_bind at 1, lift at 1. simpl py_get. rewrite HM. simpl.
    destruct M as [|e M]; [done|]. simpl truthy. cbv iota.
    unfold mbind at 1, prog_bind at 1, lift at 1. simpl py_getitem. rewrite HM.
    unfold mbind at 1, prog_bind at 1, lift at 1. simpl py_items.
    exact Hrun.
  - unfold points_to, deref, of_profile in Hfin. by simplify_eq.
  - intros k. by apply get_merge_steps.
Qed.

Lemma merged_settings_in_profile_witness :
  ∃ settings w' R,
    merged_settings (JObj strict_variant) (World empty_project (JObj web_fields))
    = (Returns settings, w')
    ∧ files w' = empty_project
    ∧ py_getitem (profile w') "settings" = Returns (JObj R)
    ∧ ∀ k, Dict.get k R = match Dict.get k strict_merge with
                           | Some val => Some (one_level web_settings k val)
                           | None => Dict.get k web_settings
                           end.
Proof.
  apply (merged_settings_in_profile empty_project web_fields strict_variant
           web_settings strict_merge).
  - reflexivity.
  - reflexivity.
  - discriminate.
  - refine (bool_decide_unpack _ _). vm_compute. exact I.
Defined.

(** C1 fails on the code: [settings] is the profile's own dictionary, not
    a copy, and the merge of the variant [strict] writes into it.  After
    the run the loaded profile holds the merged settings. *)
Theorem apply_profile_changes_loaded_profile :
  py_getitem web_profile "settings" = Returns (JObj web_settings)
  ∧ py_getitem
      (profile (apply_loaded Codec.loads Codec.dumps "web" (Some "strict")
                  ["project"] false (World empty_project web_profile)).2)
      "settings"
    = Returns (JObj strict_settings)
  ∧ profile (apply_loaded Codec.loads Codec.dumps "web" (Some "strict")
               ["project"] false (World empty_project web_profile)).2
    ≠ web_profile.
Proof.
  split; [reflexivity|]. split; [vm_compute; reflexivity|].
  vm_compute. discriminate.
Qed.

(** * The variant of a JavaScript or TypeScript project *)

Lemma lookup_child (f : fs) (d : path) (name : string) :
  FS.lookup f (d ++ [name]) = f !! (d ++ [name]).
Proof. by destruct d. Qed.

Lemma has_key_union k a b :
  bool_decide (is_Some (Dict.get k (Dict.update (Dict.update [] a) b)))
  = bool_decide (k ∈ Dict.keys a ++ Dict.keys b).
Proof.
  apply bool_decide_ext.
  rewrite keys_update, <- (get_Some_keys k (Dict.update [] a)), keys_update, elem_of_app.
  assert (k ∉ Dict.keys []) by apply not_elem_of_nil. tauto.
Qed.

(** The chain of tests of the script picks the first row of the table. *)
Lemma framework_first a b :
  framework (Dict.update (Dict.update [] a) b)
  = first_framework (Dict.keys a ++ Dict.keys b).
Proof.
  unfold framework, first_framework, FRAMEWORKS.
  rewrite !has_key_union.
  cbn [List.find existsb fst snd].
  generalize (bool_decide ("next" ∈ Dict.keys a ++ Dict.keys b)).
  generalize (bool_decide ("react" ∈ Dict.keys a ++ Dict.keys b)).
  generalize (bool_decide ("vue" ∈ Dict.keys a ++ Dict.keys b)).
  generalize (bool_decide ("svelte" ∈ Dict.keys a ++ Dict.keys b)).
  generalize (bool_decide ("@sveltejs/kit" ∈ Dict.keys a ++ Dict.keys b)).
  generalize (bool_decide ("express" ∈ Dict.keys a ++ Dict.keys b)).
  generalize (bool_decide ("fastify" ∈ Dict.keys a ++ Dict.keys b)).
  generalize (bool_decide ("koa" ∈ Dict.keys a ++ Dict.keys b)).
  intros b1 b2 b3 b4 b5 b6 b7 b8.
  by destruct b8, b7, b6, b5, b4, b3, b2, b1.
Qed.

Lemma js_family_names name :
  name ∈ JS_FAMILY →
  String.eqb name "java" = false ∧ String.eqb name "python" = false.
Proof.
  unfold JS_FAMILY. rewrite !elem_of_cons, elem_of_nil.
  intros [->|[->|[->|[]]]]; by vm_compute.
Qed.

(** X25: for a stack of the JavaScript family and a directory whose
    [package.json] is a file that holds the text [text]: when [json.loads]
    raises [JSONDecodeError] on [text], [detect_variant] returns [None]
    and raises nothing; when [json.loads] returns an object whose
    [dependencies] and [devDependencies], where present, are objects, it
    returns the variant of the first row of [FRAMEWORKS] -- next (reported
    as nextjs), react, vue, svelte, api -- that has a dependency among the
    names of the two together. *)
Theorem js_variant_of_manifest (json_loads : string → outcome json) (f : fs)
    (name : string) (directory : path) (text : string) :
  name ∈ JS_FAMILY →
  f !! (directory ++ ["package.json"]) = Some (File text) →
  (json_loads text = Raises JSONDecodeError →
   detect_variant json_loads f name directory = Returns None)
  ∧ (∀ pkg deps devs,
       json_loads text = Returns (JObj pkg) →
       default (JObj []) (Dict.get "dependencies" pkg) = JObj deps →
       default (JObj []) (Dict.get "devDependencies" pkg) = JObj devs →
       detect_variant json_loads f name directory
       = Returns (first_framework (Dict.keys deps ++ Dict.keys devs))).
Proof.
  intros Hname Hfile.
  destruct (js_family_names name Hname) as [Hjava Hpython].
  assert (∀ o,
    manifest_variant json_loads f (directory ++ ["package.json"]) = o →
    detect_variant json_loads f name directory =
    match o with
    | Raises JSONDecodeError | Raises KeyError | Returns None => Returns None
    | o => o
    end) as Hrun.
  { intros o Ho. unfold detect_variant. rewrite Hjava, Hpython.
    fold JS_FAMILY. rewrite bool_decide_eq_true_2 by done.
    unfold js_variant, FS.exists_. rewrite lookup_child, Hfile, Ho.
    destruct o as [[v|]|[]|]; done. }
  assert (FS.read_text f (directory ++ ["package.json"]) = Returns text) as Hread.
  { unfold FS.read_text. by rewrite lookup_child, Hfile. }
  split.
  - intros Hbad. apply (Hrun (Raises JSONDecodeError)).
    unfold manifest_variant. rewrite Hread. simpl. by rewrite Hbad.
  - intros pkg deps devs Hpkg Hdeps Hdevs.
    rewrite (Hrun (Returns (first_framework (Dict.keys deps ++ Dict.keys devs)))).
    + by destruct (first_framework _).
    + unfold manifest_variant. rewrite Hread. simpl. rewrite Hpkg. simpl.
      rewrite Hdeps. simpl. rewrite Hdevs. simpl. by rewrite framework_first.
Qed.

Lemma js_variant_of_manifest_witness :
  detect_variant Codec.loads broken_project "javascript-node" ["project"] = Returns None
  ∧ detect_variant Codec.loads next_project "typescript-node" ["project"]
    = Returns (Some "nextjs").
Proof.
  split.
  - apply (js_variant_of_manifest Codec.loads broken_project "javascript-node"
             ["project"] "{ ").
    + refine (bool_decide_unpack _ _). vm_compute. exact I.
    + vm_compute. reflexivity.
    + vm_compute. reflexivity.
  - apply (js_variant_of_manifest Codec.loads next_project "typescript-node"
             ["project"] (default "" (returned (Codec.dumps next_manifest))))
      with (deps := [("react", JStr "^18.0.0"); ("express", JStr "^4.0.0")])
           (devs := [("next", JStr "^14.0.0")])
           (pkg := [("name", JStr "site");
                    ("dependencies", JObj [("react", JStr "^18.0.0"); ("express", JStr "^4.0.0")]);
                    ("devDependencies", JObj [("next", JStr "^14.0.0")])]).
    + refine (bool_decide_unpack _ _). vm_compute. exact I.
    + vm_compute. reflexivity.
    + vm_compute. reflexivity.
    + reflexivity.
    + reflexivity.
Defined.

(** C7 fails on the code: the [try] of [detect_variant] recovers from a
    manifest that is not JSON, but catches [JSONDecodeError] and [KeyError]
    alone; a manifest that is JSON and no object -- here the list [[]] --
    gets past it, and [pkg.get] raises [AttributeError] out of
    [detect_variant]. *)
Theorem js_variant_of_list_manifest :
  Codec.loads "[]" = Returns (JArr [])
  ∧ detect_variant Codec.loads list_project "javascript-node" ["project"]
    = Raises AttributeError.
Proof. split; vm_compute; reflexivity. Qed.

(** * What a statement leaves alone *)

Section Unchanged.
Context {X : Type} (obs : world → X).

Lemma unchanged_ret {A} (a : A) : unchanged obs (mret a).
Proof. done. Qed.

Lemma unchanged_bind {A B} (m : prog A) (k : A → prog B) :
  unchanged obs m → (∀ a, unchanged obs (k a)) → unchanged obs (m ≫= k).
Proof.
  intros Hm Hk w. unfold mbind, prog_bind. specialize (Hm w).
  destruct (m w) as [[a|e|] w']; simpl in *; [|done..].
  by rewrite Hk.
Qed.

Lemma unchanged_lift {A} (o : outcome A) : unchanged obs (lift o).
Proof. done. Qed.

Lemma unchanged_of_profile {A} (g : json → outcome A) : unchanged obs (of_profile g).
Proof. done. Qed.

Lemma unchanged_reading {A} (g : fs → outcome A) : unchanged obs (reading g).
Proof. done. Qed.

Lemma unchanged_unless dry_run body :
  unchanged obs body → unchanged obs (unless dry_run body).
Proof. by destruct dry_run. Qed.

Lemma unchanged_bind_lift {A B} (o : outcome A) (k : A → prog B) :
  (∀ a, o = Returns a → unchanged obs (k a)) → unchanged obs (lift o ≫= k).
Proof.
  intros Hk w. unfold mbind, prog_bind, lift.
  destruct o as [a| |]; [|done..]. by apply Hk.
Qed.

Lemma unchanged_for_each {T} (l : list T) body :
  (∀ x, x ∈ l → unchanged obs (body x)) → unchanged obs (for_each l body).
Proof.
  induction l as [|x l IH]; intros H; simpl; [done|].
  apply unchanged_bind; [apply H; left | intros _; apply IH].
  intros y Hy. apply H. by right.
Qed.

Lemma unchanged_fold_prog {T S} (body : S → T → prog S) (l : list T) :
  (∀ s x, unchanged obs (body s x)) → ∀ s, unchanged obs (fold_prog body s l).
Proof.
  intros H. induction l as [|x l IH]; intros s; simpl; [done|].
  apply unchanged_bind; [apply H | done].
Qed.

End Unchanged.

Lemma unchanged_writing_profile g : unchanged profile (writing g).
Proof. intros w. unfold writing. by destruct (g (files w)). Qed.

Lemma unchanged_writing p g :
  (∀ f f', g f = Returns f' → f' !! p = f !! p) →
  unchanged (file_at p) (writing g).
Proof.
  intros H w. unfold writing, file_at. specialize (H (files w)).
  destruct (g (files w)); simpl; [by apply H | done..].
Qed.

Lemma unchanged_deref {X} (obs : world → X) r : unchanged obs (deref r).
Proof. by destruct r. Qed.

Lemma unchanged_setitem p r key val : unchanged (file_at p) (setitem r key val).
Proof.
  intros w. destruct r as [k|o]; simpl; [|done].
  by destruct (_ ≫= _).
Qed.

Lemma unchanged_merged_settings p vc : unchanged (file_at p) (merged_settings vc).
Proof.
  unfold merged_settings.
  apply unchanged_bind; [apply unchanged_of_profile|]. intros settings.
  apply unchanged_bind; [apply unchanged_lift|]. intros extra.
  destruct (truthy extra); [|apply unchanged_ret].
  apply unchanged_bind; [apply unchanged_lift|]. intros x.
  apply unchanged_bind; [apply unchanged_lift|]. intros entries.
  apply unchanged_fold_prog. intros s [key val]. unfold merge_entry.
  apply unchanged_bind.
  { destruct (is_dict val); [|apply unchanged_ret].
    apply unchanged_bind; [apply unchanged_deref|]. intros cur.
    apply unchanged_bind; [apply unchanged_lift|]. intros old. apply unchanged_ret. }
  intros both. destruct both; [|apply unchanged_setitem].
  apply unchanged_bind; [apply unchanged_deref|]. intros cur.
  apply unchanged_bind; [apply unchanged_lift|]. intros old.
  apply unchanged_bind; [apply unchanged_lift|]. intros acc.
  apply unchanged_bind; [apply unchanged_lift|]. intros both_entries.
  apply unchanged_setitem.
Qed.

(** ** Files that a write leaves alone *)

Lemma put_other f q s f' p :
  FS.put f q s = Returns f' → p ≠ q → f' !! p = f !! p.
Proof.
  unfold FS.put. destruct (FS.lookup f (FS.parent q)) as [[]|]; try done.
  intros [= <-] Hp. by rewrite lookup_insert_ne.
Qed.

Lemma write_text_other f q s f' p :
  FS.write_text f q s = Returns f' → p ≠ q → f' !! p = f !! p.
Proof.
  unfold FS.write_text. destruct (FS.lookup f q) as [[]|]; try done; apply put_other.
Qed.

Lemma append_text_other f q s f' p :
  FS.append_text f q s = Returns f' → p ≠ q → f' !! p = f !! p.
Proof.
  unfold FS.append_text. destruct (FS.lookup f q) as [[]|]; try done; apply put_other.
Qed.

Lemma mkdir_from_other (rest : list string) : ∀ (f : fs) (above : path) (f' : fs) (p : path),
  FS.mkdir_from f above rest = Returns f' →
  ¬ p `prefix_of` (above ++ rest)%list → f' !! p = f !! p.
Proof.
  induction rest as [|c rest IH]; intros f above f' p; simpl.
  - by intros [= <-].
  - intros H Hp.
    assert (p ≠ (above ++ [c])%list) as Hne.
    { intros ->. apply Hp. exists rest. by rewrite <- app_assoc. }
    assert (¬ p `prefix_of` ((above ++ [c]) ++ rest)%list) as Hp'.
    { by rewrite <- app_assoc. }
    destruct (FS.lookup f (above ++ [c])) as [[]|]; try done.
    + by apply (IH _ _ _ _ H).
    + rewrite (IH _ _ _ _ H Hp'). by rewrite lookup_insert_ne.
Qed.

Lemma mkdir_other f q f' p :
  FS.mkdir f q = Returns f' → ¬ p `prefix_of` q → f' !! p = f !! p.
Proof. apply mkdir_from_other. Qed.

Lemma copy2_other f src dst f' p :
  FS.copy2 f src dst = Returns f' →
  p ≠ dst → p ≠ (dst ++ [FS.basename src])%list → f' !! p = f !! p.
Proof.
  unfold FS.copy2. destruct (FS.read_text f src); simpl; try done.
  intros H H1 H2. eapply write_text_other; [exact H|].
  by destruct (FS.is_dir f dst).
Qed.

Lemma child_path base name q : FS.child base name = Returns q → q = base ++ [name].
Proof. unfold FS.child. destruct (FS.plain_name name); by intros [= <-]. Qed.

(** Two paths below [d] that part ways at the first name. *)
Ltac path_neq :=
  let H := fresh in
  intros H; rewrite <- ?app_assoc in H; cbn [app] in H;
  apply app_inv_head in H; by simplify_eq.

Ltac not_prefix :=
  let H := fresh in
  let k := fresh in
  intros [k H]; rewrite <- ?app_assoc in H; cbn [app] in H;
  apply app_inv_head in H; by simplify_eq.

Section Steps.
Variable json_dumps : json → outcome string.
Variables (d : path) (n : string) (dry_run : bool).
Hypothesis not_claude : n ≠ ".claude".

Lemma create_dirs_file : unchanged (file_at (d ++ [n])) (create_dirs d dry_run).
Proof.
  unfold create_dirs. apply unchanged_for_each. intros x Hx.
  apply unchanged_bind; [apply unchanged_reading|]. intros present.
  destruct present; [apply unchanged_ret|].
  apply unchanged_unless, unchanged_writing. intros f f' H.
  eapply mkdir_other; [exact H|].
  rewrite !elem_of_cons, elem_of_nil in Hx.
  destruct Hx as [->|[->|[]]]; not_prefix.
Qed.

Lemma create_dirs_profile : unchanged profile (create_dirs d dry_run).
Proof.
  unfold create_dirs. apply unchanged_for_each. intros x _.
  apply unchanged_bind; [apply unchanged_reading|]. intros present.
  destruct present; [apply unchanged_ret|].
  apply unchanged_unless, unchanged_writing_profile.
Qed.

Lemma write_mcp_file mcp_servers :
  n ≠ ".mcp.json" → unchanged (file_at (d ++ [n])) (write_mcp json_dumps d dry_run mcp_servers).
Proof.
  intros Hn. unfold write_mcp. destruct (truthy _); [|apply unchanged_ret].
  apply unchanged_unless, unchanged_bind; [apply unchanged_lift|]. intros text.
  apply unchanged_writing. intros f f' H.
  eapply write_text_other; [exact H|]. path_neq.
Qed.

Lemma write_claude_md_file claude_md :
  unchanged (file_at (d ++ [n])) (write_claude_md d dry_run claude_md).
Proof.
  unfold write_claude_md. destruct (truthy _); [|apply unchanged_ret].
  apply unchanged_bind; [apply unchanged_reading|]. intros present.
  apply unchanged_bind.
  { destruct present; [|apply unchanged_ret].
    apply unchanged_unless, unchanged_writing. intros f f' H.
    eapply copy2_other; [exact H| |]; path_neq. }
  intros _. apply unchanged_unless, unchanged_bind; [apply unchanged_lift|]. intros text.
  apply unchanged_writing. intros f f' H.
  eapply write_text_other; [exact H|]. path_neq.
Qed.

Lemma write_rules_file rules :
  unchanged (file_at (d ++ [n])) (write_rules d dry_run rules).
Proof.
  unfold write_rules. apply unchanged_for_each. intros [rule_name rule_content] _.
  apply unchanged_unless, unchanged_bind_lift. intros rule_path ->%child_path.
  apply unchanged_bind; [apply unchanged_lift|]. intros text.
  apply unchanged_writing. intros f f' H.
  eapply write_text_other; [exact H|]. path_neq.
Qed.

Lemma write_skills_file skills :
  unchanged (file_at (d ++ [n])) (write_skills d dry_run skills).
Proof.
  unfold write_skills. apply unchanged_for_each. intros [skill_name skill_content] _.
  apply unchanged_unless, unchanged_bind_lift. intros skill_dir ->%child_path.
  apply unchanged_bind.
  { apply unchanged_writing. intros f f' H.
    eapply mkdir_other; [exact H|]. not_prefix. }
  intros _. apply unchanged_bind; [apply unchanged_lift|]. intros text.
  apply unchanged_writing. intros f f' H.
  eapply write_text_other; [exact H|]. path_neq.
Qed.

Lemma write_settings_file value :
  unchanged (file_at (d ++ [n])) (write_settings json_dumps d dry_run value).
Proof.
  unfold write_settings. destruct (truthy _); [|apply unchanged_ret].
  apply unchanged_unless, unchanged_bind; [apply unchanged_lift|]. intros text.
  apply unchanged_writing. intros f f' H.
  eapply write_text_other; [exact H|]. path_neq.
Qed.

Lemma update_gitignore_file :
  n ≠ ".gitignore" → unchanged (file_at (d ++ [n])) (update_gitignore d dry_run).
Proof.
  intros Hn. unfold update_gitignore.
  apply unchanged_bind; [apply unchanged_reading|]. intros present.
  apply unchanged_bind.
  { destruct present; [apply unchanged_reading | apply unchanged_ret]. }
  intros existing. destruct (List.filter _ _); [apply unchanged_ret|].
  apply unchanged_unless, unchanged_writing. intros f f' H.
  eapply append_text_other; [exact H|]. path_neq.
Qed.

End Steps.

(** * The files a run writes *)

Lemma hoare_bind {A B} I (m : prog A) (k : A → prog B) R Q E :
  hoare I m R E → (∀ a, hoare (R a) (k a) Q E) → hoare I (m ≫= k) Q E.
Proof.
  intros Hm Hk w HI. unfold mbind, prog_bind. specialize (Hm w HI).
  destruct (m w) as [[a|e|] w']; [|done..]. by apply Hk.
Qed.

Lemma hoare_ret {A} (I : world → Prop) (a : A) (Q : A → world → Prop) E :
  (∀ w, I w → Q a w) → hoare I (mret a) Q E.
Proof. intros H w HI. by apply H. Qed.

Lemma hoare_pre {A} (I I' : world → Prop) (m : prog A) Q E :
  (∀ w, I' w → I w) → hoare I m Q E → hoare I' m Q E.
Proof. intros H Hm w HI. by apply Hm, H. Qed.

Lemma hoare_pure {A} (φ : Prop) (I : world → Prop) (m : prog A) Q E :
  (∀ w, I w → φ) → (φ → hoare I m Q E) → hoare I m Q E.
Proof. intros H Hm w HI. by apply (Hm (H w HI)). Qed.

Lemma hoare_unchanged {A X} (obs : world → X) (v : X) (m : prog A) (E : world → Prop) :
  unchanged obs m → (∀ w, obs w = v → E w) →
  hoare (λ w, obs w = v) m (λ _ w, obs w = v) E.
Proof.
  intros Hm HE w Hw. specialize (Hm w).
  destruct (m w) as [[a|e|] w']; simpl in Hm; [|apply HE..]; congruence.
Qed.

Lemma hoare_of_profile {A} (I : world → Prop) (g : json → outcome A) (E : world → Prop) :
  (∀ w, I w → E w) →
  hoare I (of_profile g) (λ a w, I w ∧ g (profile w) = Returns a) E.
Proof.
  intros HE w HI. unfold of_profile.
  destruct (g (profile w)) eqn:Hg; [done | by apply HE..].
Qed.

Lemma unchanged_pair {A X Y} (o1 : world → X) (o2 : world → Y) (m : prog A) :
  unchanged o1 m → unchanged o2 m → unchanged (λ w, (o1 w, o2 w)) m.
Proof. intros H1 H2 w. by rewrite H1, H2. Qed.

Section Apply.
Variable json_loads : string → outcome json.
Variable json_dumps : json → outcome string.
Variables PROFILES_DIR BUILTIN_PROFILES_DIR : path.

(** With no server to declare, no step touches the manifest. *)
Lemma apply_steps_no_manifest d dry_run vc w :
  merged_mcp_servers (profile w) vc = Returns [] →
  file_at (d ++ [".mcp.json"]) (apply_steps json_dumps d dry_run vc w).2
  = file_at (d ++ [".mcp.json"]) w.
Proof.
  intros Hempty.
  set (p := d ++ [".mcp.json"]). set (v := file_at p w).
  assert (hoare (λ w', (file_at p w', profile w') = (v, profile w))
            (apply_steps json_dumps d dry_run vc)
            (λ _ w', file_at p w' = v) (λ w', file_at p w' = v)) as H.
  { unfold apply_steps.
    eapply hoare_bind.
    { apply hoare_unchanged.
      - apply unchanged_pair; [by apply create_dirs_file | apply create_dirs_profile].
      - intros w0 H0. by injection H0. }
    intros u. eapply hoare_bind.
    { apply hoare_of_profile. intros w0 H0. by injection H0. }
    intros mcp. simpl.
    apply (hoare_pure (mcp = [])).
    { intros w' [H0 Hm]. injection H0 as _ Hp. rewrite Hp, Hempty in Hm. by simplify_eq. }
    intros ->. eapply hoare_pre; [intros w' [H0 _]; injection H0 as Hf _; exact Hf|].
    apply hoare_unchanged; [|done].
    apply unchanged_bind; [apply unchanged_ret|]. intros _.
    apply unchanged_bind; [apply unchanged_of_profile|]. intros claude_md.
    apply unchanged_bind; [by apply write_claude_md_file|]. intros _.
    apply unchanged_bind; [apply unchanged_of_profile|]. intros rules.
    apply unchanged_bind; [by apply write_rules_file|]. intros _.
    apply unchanged_bind; [apply unchanged_of_profile|]. intros skills.
    apply unchanged_bind; [by apply write_skills_file|]. intros _.
    apply unchanged_bind; [apply unchanged_merged_settings|]. intros settings.
    apply unchanged_bind; [apply unchanged_deref|]. intros value.
    apply unchanged_bind; [by apply write_settings_file|]. intros _.
    apply unchanged_bind; [by apply update_gitignore_file|]. intros _.
    apply unchanged_ret. }
  specialize (H w eq_refl).
  by destruct (apply_steps json_dumps d dry_run vc w) as [[cfg|e|] w'].
Qed.


(** C10: when the merged map of MCP servers is empty -- the profile
    declares none, or the variant excludes every merged key --
    [apply_profile] leaves [.mcp.json] as it found it, whether the run
    returns or raises, in dry-run or not: it writes no manifest, not even
    one with an empty [mcpServers] object. *)
Theorem no_manifest_for_empty_mcp (name : string) (variant : option string)
    (d : path) (dry_run : bool) (f : fs) (P : json) (v : option string) (vc : json) :
  load_profile json_loads PROFILES_DIR BUILTIN_PROFILES_DIR f name = Returns P →
  resolve json_loads f name variant d = Returns v →
  variant_config_of P v = Returns vc →
  merged_mcp_servers P vc = Returns [] →
  (apply_profile json_loads json_dumps PROFILES_DIR BUILTIN_PROFILES_DIR
     name variant d dry_run f).2 !! (d ++ [".mcp.json"])
  = f !! (d ++ [".mcp.json"]).
Proof.
  intros Hload Hres Hvc Hempty. unfold apply_profile. rewrite Hload. cbn [snd].
  unfold apply_loaded, mbind, prog_bind, reading. cbn [files]. rewrite Hres.
  rewrite apply_resolved_unfold. cbn [profile]. rewrite Hvc.
  destruct (display_name_of name P v); [|done..].
  by apply (apply_steps_no_manifest d dry_run vc (World f P)).
Qed.

Lemma update_gitignore_spec d v :
  hoare (λ w, file_at (d ++ [".gitignore"]) w = v)
    (update_gitignore d false)
    (λ _ w', file_at (d ++ [".gitignore"]) w' = gitignore_after v)
    (λ _, True).
Proof.
  intros [f P] Hv. unfold file_at in *. cbn [files] in Hv.
  unfold update_gitignore, mbind, prog_bind, reading, mret, prog_ret.
  unfold FS.exists_, FS.read_text. cbn [files]. rewrite !lookup_child, !Hv.
  unfold gitignore_after, gitignore_text.
  assert (∀ s new,
            match FS.append_text f (d ++ [".gitignore"]) new with
            | Returns f' => v = Some (File s) ∨ (v = None ∧ s = "") →
                            f' !! (d ++ [".gitignore"]) = Some (File (s +:+ new))
            | _ => True
            end) as Happend.
  { intros s new. unfold FS.append_text, FS.put. rewrite lookup_child, Hv.
    destruct v as [[s'|]|]; cbv beta iota; [|done|];
      (destruct (FS.lookup f _) as [[]|]; cbv beta iota; [done| |done]);
      rewrite lookup_insert_eq; intros [?|[? ?]]; by simplify_eq. }
  destruct v as [[s|]|];
    do 3 (cbv beta iota; cbn [files]; rewrite ?lookup_child, ?Hv); [|done|].
  - fold (missing_entries s). destruct (missing_entries s) as [|e l]; [done|].
    unfold unless, writing. cbn [files]. specialize (Happend s (gitignore_block (e :: l))).
    destruct (FS.append_text _ _ _); [|done..]. cbn [files]. apply Happend. by left.
  - fold (missing_entries ""). destruct (missing_entries "") as [|e l]; [done|].
    unfold unless, writing. cbn [files]. specialize (Happend "" (gitignore_block (e :: l))).
    destruct (FS.append_text _ _ _); [|done..]. cbn [files]. apply Happend. by right.
Qed.

Lemma apply_steps_gitignore d vc v :
  hoare (λ w, file_at (d ++ [".gitignore"]) w = v)
    (apply_steps json_dumps d false vc)
    (λ _ w', file_at (d ++ [".gitignore"]) w' = gitignore_after v)
    (λ _, True).
Proof.
  unfold apply_steps.
  eapply hoare_bind; [by apply hoare_unchanged; [apply create_dirs_file|]|]. intros u1.
  eapply hoare_bind; [by apply hoare_unchanged; [apply unchanged_of_profile|]|]. intros mcp.
  eapply hoare_bind; [by apply hoare_unchanged; [apply write_mcp_file|]|]. intros u2.
  eapply hoare_bind; [by apply hoare_unchanged; [apply unchanged_of_profile|]|]. intros claude_md.
  eapply hoare_bind; [by apply hoare_unchanged; [apply write_claude_md_file|]|]. intros u3.
  eapply hoare_bind; [by apply hoare_unchanged; [apply unchanged_of_profile|]|]. intros rules.
  eapply hoare_bind; [by apply hoare_unchanged; [apply write_rules_file|]|]. intros u4.
  eapply hoare_bind; [by apply hoare_unchanged; [apply unchanged_of_profile|]|]. intros skills.
  eapply hoare_bind; [by apply hoare_unchanged; [apply write_skills_file|]|]. intros u5.
  eapply hoare_bind; [by apply hoare_unchanged; [apply unchanged_merged_settings|]|]. intros settings.
  eapply hoare_bind; [by apply hoare_unchanged; [apply unchanged_deref|]|]. intros value.
  eapply hoare_bind; [by apply hoare_unchanged; [apply write_settings_file|]|]. intros u6.
  eapply hoare_bind; [apply update_gitignore_spec|]. intros u7.
  by apply hoare_ret.
Qed.

End Apply.

(** * The ignore-file *)

Lemma prefix_app (n b : string) : String.prefix n (n +:+ b) = true.
Proof.
  induction n as [|c n IH]; simpl; [by destruct b|].
  by destruct (ascii_dec c c).
Qed.

Lemma contains_unfold needle hay :
  contains needle hay =
  String.prefix needle hay ||
  match hay with
  | EmptyString => false
  | String _ hay' => contains needle hay'
  end.
Proof. by destruct hay. Qed.

Lemma contains_app (a n b : string) : contains n (a +:+ n +:+ b) = true.
Proof.
  induction a as [|c a IH].
  - change ("" +:+ n +:+ b) with (n +:+ b).
    rewrite contains_unfold. by rewrite prefix_app.
  - change (String c a +:+ n +:+ b) with (String c (a +:+ n +:+ b)).
    rewrite contains_unfold, IH. apply orb_true_r.
Qed.

(** The first line of a text is where the text starts. *)
Lemma first_line s : ∀ h t, lines s = h :: t → ∃ b, s = h +:+ b.
Proof.
  induction s as [|c s IH]; intros h t; simpl.
  - intros [= <- <-]. by exists "".
  - destruct (Ascii.eqb c "010").
    + intros [= <- <-]. by eexists.
    + destruct (lines s) as [|h' t'] eqn:Hs.
      * intros [= <- <-]. by exists s.
      * intros [= <- <-]. destruct (IH h' t' eq_refl) as [b ->]. by exists b.
Qed.

(** A line of a text occurs in the text. *)
Lemma line_occurs s e : e ∈ lines s → ∃ a b, s = a +:+ e +:+ b.
Proof.
  induction s as [|c s IH]; simpl.
  - intros ->%list_elem_of_singleton. by exists "", "".
  - destruct (Ascii.eqb c "010").
    + intros [->|He]%elem_of_cons.
      * by exists "", (String c s).
      * destruct (IH He) as (a & b & ->). by exists (String c a), b.
    + destruct (lines s) as [|h t] eqn:Hs.
      * intros ->%list_elem_of_singleton. by exists "", s.
      * intros [->|He]%elem_of_cons.
        -- destruct (first_line s h t Hs) as [b ->]. by exists "", b.
        -- destruct IH as (a & b & ->); [by right|]. by exists (String c a), b.
Qed.

Lemma line_contained s e : e ∈ lines s → contains e s = true.
Proof. intros (a & b & ->)%line_occurs. apply contains_app. Qed.

Section Ignore.
Variable json_loads : string → outcome json.
Variable json_dumps : json → outcome string.
Variables PROFILES_DIR BUILTIN_PROFILES_DIR : path.

Lemma apply_profile_unfold name variant d dry_run f :
  apply_profile json_loads json_dumps PROFILES_DIR BUILTIN_PROFILES_DIR
    name variant d dry_run f =
  match load_profile json_loads PROFILES_DIR BUILTIN_PROFILES_DIR f name with
  | Returns P =>
      match resolve json_loads f name variant d with
      | Returns v =>
          let r := apply_resolved json_dumps name v d dry_run (World f P) in
          (match r.1 with
           | Returns _ => Returns tt
           | Raises e => Raises e
           | Unsupported => Unsupported
           end, files r.2)
      | Raises e => (Raises e, f)
      | Unsupported => (Unsupported, f)
      end
  | Raises e => (Raises e, f)
  | Unsupported => (Unsupported, f)
  end.
Proof.
  unfold apply_profile, apply_loaded, mbind, prog_bind, reading, outcome_bind.
  destruct (load_profile _ _ _ f name) as [P| |]; [|done..]. cbn [files].
  by destruct (resolve json_loads f name variant d).
Qed.

(** C9, as the code has it: a run of [apply_profile] that completes
    (outside dry-run) appends each of the two fixed entries exactly when
    the entry occurs nowhere in the text of the ignore-file -- the test is
    for a substring, not for a line.  An entry that is a line of the file
    is thus never appended again; an entry that only occurs inside a
    longer line is not appended either. *)
Theorem gitignore_entries_appended (name : string) (variant : option string)
    (d : path) (f : fs) :
  (apply_profile json_loads json_dumps PROFILES_DIR BUILTIN_PROFILES_DIR
     name variant d false f).1 = Returns tt →
  (apply_profile json_loads json_dumps PROFILES_DIR BUILTIN_PROFILES_DIR
     name variant d false f).2 !! (d ++ [".gitignore"])
  = gitignore_after (f !! (d ++ [".gitignore"]))
  ∧ (∀ text e, e ∈ missing_entries text
               ↔ e ∈ gitignore_entries ∧ contains e text = false)
  ∧ (∀ text e, e ∈ lines text → e ∉ missing_entries text).
Proof.
  intros Hrun. split; [|split].
  - rewrite apply_profile_unfold in Hrun |- *.
    destruct (load_profile _ _ _ f name) as [P| |]; [|done..].
    destruct (resolve json_loads f name variant d) as [v| |]; [|done..].
    cbv zeta in Hrun |- *.
    rewrite apply_resolved_unfold in Hrun |- *. cbn [profile] in Hrun |- *.
    destruct (variant_config_of P v) as [vc| |]; [|done..].
    destruct (display_name_of name P v); [|done..].
    pose proof (apply_steps_gitignore json_dumps d vc _ (World f P) eq_refl) as H.
    destruct (apply_steps json_dumps d false vc (World f P)) as [[cfg|e|] w'];
      [|done..].
    exact H.
  - intros text e. unfold missing_entries.
    rewrite !list_elem_of_In, filter_In, negb_true_iff. tauto.
  - intros text e He. unfold missing_entries.
    rewrite list_elem_of_In, filter_In, negb_true_iff, (line_contained _ _ He).
    by intros [_ ?].
Qed.

End Ignore.

Lemma gitignore_entries_appended_witness :
  machine_after !! (["project"] ++ [".gitignore"])
  = gitignore_after (machine !! (["project"] ++ [".gitignore"]))
  ∧ (∀ text e, e ∈ missing_entries text
               ↔ e ∈ gitignore_entries ∧ contains e text = false)
  ∧ (∀ text e, e ∈ lines text → e ∉ missing_entries text).
Proof.
  apply (gitignore_entries_appended Codec.loads Codec.dumps home_profiles
           builtin_profiles "web" (Some "bare") ["project"] machine).
  vm_compute. reflexivity.
Defined.

(** C9 as stated fails: the ignore-file of [machine] has no line
    [.claude/settings.local.json], only a longer line that contains it;
    the run completes and the entry is still no line of the file. *)
Lemma gitignore_entry_inside_longer_line :
  (".claude/settings.local.json"
     ∉ lines (gitignore_text (machine !! ["project"; ".gitignore"])))
  ∧ (apply_profile Codec.loads Codec.dumps home_profiles builtin_profiles
       "web" (Some "bare") ["project"] false machine).1
    = Returns tt
  ∧ (".claude/settings.local.json"
       ∉ lines (gitignore_text (machine_after !! ["project"; ".gitignore"]))).
Proof.
  split; [|split].
  - refine (bool_decide_unpack _ _). vm_compute. exact I.
  - vm_compute. reflexivity.
  - refine (bool_decide_unpack _ _). vm_compute. exact I.
Qed.

Lemma no_manifest_for_empty_mcp_witness :
  machine_after !! (["project"] ++ [".mcp.json"])
  = machine !! (["project"] ++ [".mcp.json"]).
Proof.
  apply (no_manifest_for_empty_mcp Codec.loads Codec.dumps home_profiles
           builtin_profiles "web" (Some "bare") ["project"] false machine
           web_profile (Some "bare")
           (JObj [("exclude_mcps", JArr [JStr "db"; JStr "docs"])])).
  - vm_compute. reflexivity.
  - reflexivity.
  - vm_compute. reflexivity.
  - vm_compute. reflexivity.
Defined.

(** * The order of the detected stacks *)

(** X2: [detect_project] returns one entry for each rule of the table one
    of whose markers matches in the directory, and no other entry, in the
    order of the table: neither the order of the files in the directory
    nor the marker that matched plays a part. *)
Theorem detect_project_table_order (f : fs) (directory : path) :
  detect_project f directory = Returns (entries_of (matching_rules f directory))
  ∧ entries_of (matching_rules f directory) `sublist_of` entries_of DETECTION_RULES
  ∧ ∀ stack variant,
      (stack, variant) ∈ entries_of (matching_rules f directory)
      ↔ ∃ markers, (markers, stack, variant) ∈ DETECTION_RULES
                   ∧ ∃ marker, marker ∈ markers ∧ matches f directory marker = true.
Proof.
  split; [apply detect_project_matching|]. split.
  - unfold matching_rules, entries_of. apply fmap_sublist.
    generalize DETECTION_RULES. intros l.
    induction l as [|r l IH]; simpl; [done|].
    destruct (existsb _ _); [by apply sublist_skip | by apply sublist_cons].
  - intros stack variant. unfold entries_of, matching_rules.
    rewrite list_elem_of_fmap. split.
    + intros ([[ms s] v] & [= -> ->] & Hin).
      apply list_elem_of_In, filter_In in Hin as [Hin Hex].
      apply existsb_exists in Hex as (m & Hm & Hmatch).
      exists ms. split; [by apply list_elem_of_In|].
      exists m. split; [by apply list_elem_of_In | done].
    + intros (ms & Hin & m & Hm & Hmatch).
      exists (ms, stack, variant). split; [done|].
      apply list_elem_of_In, filter_In. split; [by apply list_elem_of_In|].
      apply existsb_exists. exists m. split; [by apply list_elem_of_In | done].
Qed.

(** * A dry run *)

Lemma unchanged_dry {X} (obs : world → X) body : unchanged obs (unless true body).
Proof. done. Qed.

Lemma unchanged_files_setitem r key val : unchanged files (setitem r key val).
Proof.
  intros w. destruct r as [k|o]; simpl; [|done].
  by destruct (_ ≫= _).
Qed.

Lemma unchanged_files_merged_settings vc : unchanged files (merged_settings vc).
Proof.
  unfold merged_settings.
  apply unchanged_bind; [apply unchanged_of_profile|]. intros settings.
  apply unchanged_bind; [apply unchanged_lift|]. intros extra.
  destruct (truthy extra); [|apply unchanged_ret].
  apply unchanged_bind; [apply unchanged_lift|]. intros x.
  apply unchanged_bind; [apply unchanged_lift|]. intros entries.
  apply unchanged_fold_prog. intros s [key val]. unfold merge_entry.
  apply unchanged_bind.
  { destruct (is_dict val); [|apply unchanged_ret].
    apply unchanged_bind; [apply unchanged_deref|]. intros cur.
    apply unchanged_bind; [apply unchanged_lift|]. intros old. apply unchanged_ret. }
  intros both. destruct both; [|apply unchanged_files_setitem].
  apply unchanged_bind; [apply unchanged_deref|]. intros cur.
  apply unchanged_bind; [apply unchanged_lift|]. intros old.
  apply unchanged_bind; [apply unchanged_lift|]. intros acc.
  apply unchanged_bind; [apply unchanged_lift|]. intros both_entries.
  apply unchanged_files_setitem.
Qed.

Section Dry.
Variable json_loads : string → outcome json.
Variable json_dumps : json → outcome string.
Variables PROFILES_DIR BUILTIN_PROFILES_DIR : path.

Lemma apply_steps_dry d vc : unchanged files (apply_steps json_dumps d true vc).
Proof.
  unfold apply_steps.
  apply unchanged_bind.
  { unfold create_dirs. apply unchanged_for_each. intros x _.
    apply unchanged_bind; [apply unchanged_reading|]. intros present.
    destruct present; [apply unchanged_ret | apply unchanged_dry]. }
  intros _. apply unchanged_bind; [apply unchanged_of_profile|]. intros mcp.
  apply unchanged_bind.
  { unfold write_mcp. destruct (truthy _); [apply unchanged_dry | apply unchanged_ret]. }
  intros _. apply unchanged_bind; [apply unchanged_of_profile|]. intros claude_md.
  apply unchanged_bind.
  { unfold write_claude_md. destruct (truthy _); [|apply unchanged_ret].
    apply unchanged_bind; [apply unchanged_reading|]. intros present.
    apply unchanged_bind; [|intros _; apply unchanged_dry].
    destruct present; [apply unchanged_dry | apply unchanged_ret]. }
  intros _. apply unchanged_bind; [apply unchanged_of_profile|]. intros rules.
  apply unchanged_bind.
  { unfold write_rules. apply unchanged_for_each. intros [k v] _. apply unchanged_dry. }
  intros _. apply unchanged_bind; [apply unchanged_of_profile|]. intros skills.
  apply unchanged_bind.
  { unfold write_skills. apply unchanged_for_each. intros [k v] _. apply unchanged_dry. }
  intros _. apply unchanged_bind; [apply unchanged_files_merged_settings|]. intros settings.
  apply unchanged_bind; [apply unchanged_deref|]. intros value.
  apply unchanged_bind.
  { unfold write_settings. destruct (truthy _); [apply unchanged_dry | apply unchanged_ret]. }
  intros _. apply unchanged_bind; [|intros _; apply unchanged_ret].
  unfold update_gitignore.
  apply unchanged_bind; [apply unchanged_reading|]. intros present.
  apply unchanged_bind.
  { destruct present; [apply unchanged_reading | apply unchanged_ret]. }
  intros existing. destruct (List.filter _ _); [apply unchanged_ret | apply unchanged_dry].
Qed.

Lemma apply_loaded_dry name variant d :
  unchanged files (apply_loaded json_loads json_dumps name variant d true).
Proof.
  unfold apply_loaded.
  apply unchanged_bind; [apply unchanged_reading|]. intros v.
  unfold apply_resolved.
  apply unchanged_bind; [apply unchanged_of_profile|]. intros vc.
  apply unchanged_bind; [apply unchanged_of_profile|]. intros _.
  apply apply_steps_dry.
Qed.

Lemma apply_profile_dry name variant d f :
  (apply_profile json_loads json_dumps PROFILES_DIR BUILTIN_PROFILES_DIR
     name variant d true f).2 = f.
Proof.
  unfold apply_profile.
  destruct (load_profile _ _ _ f name) as [P| |]; [|done..].
  cbn [snd]. apply (apply_loaded_dry name variant d (World f P)).
Qed.

(** X3: in dry-run mode neither [apply_profile] nor [cmd_apply], with a
    named profile or with [auto], changes the file system: whatever the
    profile, the variant and the directory, and whether the run completes
    or raises, every path holds afterwards what it held before. *)
Theorem dry_run_writes_nothing (name : string) (variant : option string)
    (d : path) (f : fs) :
  (apply_profile json_loads json_dumps PROFILES_DIR BUILTIN_PROFILES_DIR
     name variant d true f).2 = f
  ∧ (cmd_apply json_loads json_dumps PROFILES_DIR BUILTIN_PROFILES_DIR
       name variant d true f).2 = f.
Proof.
  split; [apply apply_profile_dry|].
  unfold cmd_apply. destruct (String.eqb name "auto"); [|apply apply_profile_dry].
  destruct (detect_project f d) as [[|[p v] rest]| |]; [done| |done..].
  destruct (resolve json_loads f p v d); [apply apply_profile_dry|done..].
Qed.

End Dry.

(** * What a run never removes *)

Lemma kept_refl f : kept f f.
Proof. intros p n Hp. by exists n. Qed.

Lemma kept_trans f1 f2 f3 : kept f1 f2 → kept f2 f3 → kept f1 f3.
Proof.
  intros H12 H23 p n Hp.
  destruct (H12 p n Hp) as (n2 & Hp2 & Hk2).
  destruct (H23 p n2 Hp2) as (n3 & Hp3 & Hk3).
  exists n3. split; [done | congruence].
Qed.

Lemma kept_insert_file f p s : f !! p ≠ Some Dir → kept f (<[p := File s]> f).
Proof.
  intros Hp q n Hq. destruct (decide (q = p)) as [->|Hne].
  - rewrite lookup_insert_eq. exists (File s). split; [done|].
    destruct n; [done | congruence].
  - rewrite lookup_insert_ne by done. by exists n.
Qed.

Lemma kept_insert_dir f p : f !! p = None → kept f (<[p := Dir]> f).
Proof.
  intros Hp q n Hq. destruct (decide (q = p)) as [->|Hne]; [congruence|].
  rewrite lookup_insert_ne by done. by exists n.
Qed.

Lemma put_kept f p s f' : FS.put f p s = Returns f' → f !! p ≠ Some Dir → kept f f'.
Proof.
  unfold FS.put. destruct (FS.lookup f (FS.parent p)) as [[]|]; try done.
  intros [= <-]. apply kept_insert_file.
Qed.

Lemma lookup_not_dir f p : FS.lookup f p ≠ Some Dir → f !! p ≠ Some Dir.
Proof. by destruct p. Qed.

Lemma write_text_kept f p s f' : FS.write_text f p s = Returns f' → kept f f'.
Proof.
  unfold FS.write_text. destruct (FS.lookup f p) as [[]|] eqn:Hp; try done;
    intros H; apply (put_kept _ _ _ _ H), lookup_not_dir; congruence.
Qed.

Lemma append_text_kept f p s f' : FS.append_text f p s = Returns f' → kept f f'.
Proof.
  unfold FS.append_text. destruct (FS.lookup f p) as [[]|] eqn:Hp; try done;
    intros H; apply (put_kept _ _ _ _ H), lookup_not_dir; congruence.
Qed.

Lemma mkdir_from_kept rest : ∀ f above f',
  FS.mkdir_from f above rest = Returns f' → kept f f'.
Proof.
  induction rest as [|c rest IH]; intros f above f'; simpl.
  - intros [= <-]. apply kept_refl.
  - rewrite lookup_child. destruct (f !! (above ++ [c])) as [[]|] eqn:Hp; try done.
    + apply IH.
    + intros H. eapply kept_trans; [by apply kept_insert_dir | by eapply IH].
Qed.

Lemma copy2_kept f src dst f' : FS.copy2 f src dst = Returns f' → kept f f'.
Proof.
  unfold FS.copy2. destruct (FS.read_text f src); simpl; try done.
  apply write_text_kept.
Qed.

Lemma keeps_unchanged {A} (m : prog A) : unchanged files m → keeps m.
Proof. intros H w. rewrite (H w). apply kept_refl. Qed.

Lemma keeps_bind {A B} (m : prog A) (k : A → prog B) :
  keeps m → (∀ a, keeps (k a)) → keeps (m ≫= k).
Proof.
  intros Hm Hk w. unfold mbind, prog_bind. specialize (Hm w).
  destruct (m w) as [[a|e|] w']; simpl in *; [|done..].
  eapply kept_trans; [exact Hm | apply Hk].
Qed.

Lemma keeps_writing g :
  (∀ f f', g f = Returns f' → kept f f') → keeps (writing g).
Proof.
  intros H w. unfold writing. specialize (H (files w)).
  destruct (g (files w)); simpl; [by apply H | apply kept_refl..].
Qed.

Lemma keeps_unless dry_run body : keeps body → keeps (unless dry_run body).
Proof. destruct dry_run; [intros _ w; apply kept_refl | done]. Qed.

Lemma keeps_for_each {T} (l : list T) body :
  (∀ x, keeps (body x)) → keeps (for_each l body).
Proof.
  intros H. induction l as [|x l IH]; simpl; [intros w; apply kept_refl|].
  apply keeps_bind; [apply H | intros _; apply IH].
Qed.

Lemma keeps_bind_pure {A B} (m : prog A) (k : A → prog B) :
  unchanged files m → (∀ a, keeps (k a)) → keeps (m ≫= k).
Proof. intros Hm. apply keeps_bind. by apply keeps_unchanged. Qed.

Lemma create_dirs_keeps d dry_run : keeps (create_dirs d dry_run).
Proof.
  unfold create_dirs. apply keeps_for_each. intros x.
  apply keeps_bind_pure; [apply unchanged_reading|]. intros present.
  destruct present; [apply keeps_unchanged, unchanged_ret|].
  apply keeps_unless, keeps_writing. intros f f'. apply mkdir_from_kept.
Qed.

Lemma write_mcp_keeps json_dumps d dry_run mcp : keeps (write_mcp json_dumps d dry_run mcp).
Proof.
  unfold write_mcp. destruct (truthy _); [|apply keeps_unchanged, unchanged_ret].
  apply keeps_unless, keeps_bind_pure; [apply unchanged_lift|]. intros text.
  apply keeps_writing. intros f f'. apply write_text_kept.
Qed.

Lemma write_claude_md_keeps d dry_run c : keeps (write_claude_md d dry_run c).
Proof.
  unfold write_claude_md. destruct (truthy _); [|apply keeps_unchanged, unchanged_ret].
  apply keeps_bind_pure; [apply unchanged_reading|]. intros present.
  apply keeps_bind.
  { destruct present; [|apply keeps_unchanged, unchanged_ret].
    apply keeps_unless, keeps_writing. intros f f'. apply copy2_kept. }
  intros _. apply keeps_unless, keeps_bind_pure; [apply unchanged_lift|]. intros text.
  apply keeps_writing. intros f f'. apply write_text_kept.
Qed.

Lemma write_rules_keeps d dry_run rules : keeps (write_rules d dry_run rules).
Proof.
  unfold write_rules. apply keeps_for_each. intros [k v].
  apply keeps_unless, keeps_bind_pure; [apply unchanged_lift|]. intros rule_path.
  apply keeps_bind_pure; [apply unchanged_lift|]. intros text.
  apply keeps_writing. intros f f'. apply write_text_kept.
Qed.

Lemma write_skills_keeps d dry_run skills : keeps (write_skills d dry_run skills).
Proof.
  unfold write_skills. apply keeps_for_each. intros [k v].
  apply keeps_unless, keeps_bind_pure; [apply unchanged_lift|]. intros skill_dir.
  apply keeps_bind; [apply keeps_writing; intros f f'; apply mkdir_from_kept|].
  intros _. apply keeps_bind_pure; [apply unchanged_lift|]. intros text.
  apply keeps_writing. intros f f'. apply write_text_kept.
Qed.

Lemma write_settings_keeps json_dumps d dry_run v : keeps (write_settings json_dumps d dry_run v).
Proof.
  unfold write_settings. destruct (truthy _); [|apply keeps_unchanged, unchanged_ret].
  apply keeps_unless, keeps_bind_pure; [apply unchanged_lift|]. intros text.
  apply keeps_writing. intros f f'. apply write_text_kept.
Qed.

Lemma update_gitignore_keeps d dry_run : keeps (update_gitignore d dry_run).
Proof.
  unfold update_gitignore.
  apply keeps_bind_pure; [apply unchanged_reading|]. intros present.
  apply keeps_bind_pure.
  { destruct present; [apply unchanged_reading | apply unchanged_ret]. }
  intros existing. destruct (List.filter _ _); [apply keeps_unchanged, unchanged_ret|].
  apply keeps_unless, keeps_writing. intros f f'. apply append_text_kept.
Qed.

Lemma apply_steps_keeps json_dumps d dry_run vc : keeps (apply_steps json_dumps d dry_run vc).
Proof.
  unfold apply_steps.
  apply keeps_bind; [apply create_dirs_keeps|]. intros _.
  apply keeps_bind_pure; [apply unchanged_of_profile|]. intros mcp.
  apply keeps_bind; [apply write_mcp_keeps|]. intros _.
  apply keeps_bind_pure; [apply unchanged_of_profile|]. intros claude_md.
  apply keeps_bind; [apply write_claude_md_keeps|]. intros _.
  apply keeps_bind_pure; [apply unchanged_of_profile|]. intros rules.
  apply keeps_bind; [apply write_rules_keeps|]. intros _.
  apply keeps_bind_pure; [apply unchanged_of_profile|]. intros skills.
  apply keeps_bind; [apply write_skills_keeps|]. intros _.
  apply keeps_bind_pure; [apply unchanged_files_merged_settings|]. intros settings.
  apply keeps_bind_pure; [apply unchanged_deref|]. intros value.
  apply keeps_bind; [apply write_settings_keeps|]. intros _.
  apply keeps_bind; [apply update_gitignore_keeps|]. intros _.
  apply keeps_unchanged, unchanged_ret.
Qed.

Lemma apply_loaded_keeps json_loads json_dumps name variant d dry_run :
  keeps (apply_loaded json_loads json_dumps name variant d dry_run).
Proof.
  unfold apply_loaded.
  apply keeps_bind_pure; [apply unchanged_reading|]. intros v.
  unfold apply_resolved.
  apply keeps_bind_pure; [apply unchanged_of_profile|]. intros vc.
  apply keeps_bind_pure; [apply unchanged_of_profile|]. intros _.
  apply apply_steps_keeps.
Qed.

Lemma apply_profile_kept json_loads json_dumps PD BD name variant d dry_run f :
  kept f (apply_profile json_loads json_dumps PD BD name variant d dry_run f).2.
Proof.
  unfold apply_profile.
  destruct (load_profile _ _ _ f name) as [P| |]; [|apply kept_refl..].
  cbn [snd]. apply (apply_loaded_keeps json_loads json_dumps name variant d dry_run (World f P)).
Qed.

(** X4: [apply_profile] removes nothing and never turns a file into a
    directory or a directory into a file: whatever the arguments, and
    whether the run completes or raises half-way, every directory of the
    file system is a directory afterwards and every file is a file
    (possibly with a new content). *)
Theorem apply_profile_removes_nothing (json_loads : string → outcome json)
    (json_dumps : json → outcome string) (PROFILES_DIR BUILTIN_PROFILES_DIR : path)
    (name : string) (variant : option string) (d : path) (dry_run : bool)
    (f : fs) (p : path) :
  let f' := (apply_profile json_loads json_dumps PROFILES_DIR BUILTIN_PROFILES_DIR
               name variant d dry_run f).2 in
  match f !! p with
  | Some Dir => f' !! p = Some Dir
  | Some (File _) => ∃ s', f' !! p = Some (File s')
  | None => True
  end.
Proof.
  intros f'.
  pose proof (apply_profile_kept json_loads json_dumps PROFILES_DIR
                BUILTIN_PROFILES_DIR name variant d dry_run f p) as H.
  fold f' in H. destruct (f !! p) as [[s|]|]; [| |done].
  - destruct (H _ eq_refl) as ([s'|] & Hp & Hk); [by exists s' | done].
  - by destruct (H _ eq_refl) as ([s'|] & Hp & Hk).
Qed.

(** * Profiles that are not found *)

Section Missing.
Variable json_loads : string → outcome json.
Variable json_dumps : json → outcome string.
Variables PROFILES_DIR BUILTIN_PROFILES_DIR : path.

(** X5: once the user's profiles directory exists it alone is searched: a
    profile that has no file there is not found -- [load_profile] exits
    with status 1, and [apply_profile] with it before anything is written
    -- even when the built-in directory has the profile. *)
Theorem user_profiles_shadow_builtin (name : string) (variant : option string)
    (d : path) (dry_run : bool) (f : fs) :
  FS.plain_name (name +:+ ".json") = true →
  FS.exists_ f PROFILES_DIR = true →
  f !! (PROFILES_DIR ++ [name +:+ ".json"]) = None →
  load_profile json_loads PROFILES_DIR BUILTIN_PROFILES_DIR f name = Raises (SystemExit 1)
  ∧ apply_profile json_loads json_dumps PROFILES_DIR BUILTIN_PROFILES_DIR
      name variant d dry_run f = (Raises (SystemExit 1), f).
Proof.
  intros Hplain Hdir Hfile.
  assert (load_profile json_loads PROFILES_DIR BUILTIN_PROFILES_DIR f name
          = Raises (SystemExit 1)) as Hload.
  { unfold load_profile, get_profiles_dir, FS.child. rewrite Hdir, Hplain. simpl.
    unfold FS.exists_. by rewrite lookup_child, Hfile. }
  split; [done|]. unfold apply_profile. by rewrite Hload.
Qed.

(** * [auto] *)

(** X6: with [auto], [cmd_apply] applies the profile of the first rule of
    the table that has a matching marker, with the variant of that rule
    or, when the rule has none, the variant [detect_variant] finds; the
    variant given on the command line plays no part; when no rule matches
    it exits with status 1 and writes nothing. *)
Theorem cmd_apply_auto (variant : option string) (d : path) (dry_run : bool) (f : fs) :
  cmd_apply json_loads json_dumps PROFILES_DIR BUILTIN_PROFILES_DIR
    "auto" variant d dry_run f =
  match matching_rules f d with
  | [] => (Raises (SystemExit 1), f)
  | (_, stack, Some v) :: _ =>
      apply_profile json_loads json_dumps PROFILES_DIR BUILTIN_PROFILES_DIR
        stack (Some v) d dry_run f
  | (_, stack, None) :: _ =>
      match detect_variant json_loads f stack d with
      | Returns v =>
          apply_profile json_loads json_dumps PROFILES_DIR BUILTIN_PROFILES_DIR
            stack v d dry_run f
      | Raises e => (Raises e, f)
      | Unsupported => (Unsupported, f)
      end
  end.
Proof.
  unfold cmd_apply. cbn [String.eqb Ascii.eqb Bool.eqb].
  rewrite detect_project_matching.
  destruct (matching_rules f d) as [|[[ms stack] [v|]] rest]; done.
Qed.

(** X7: on a directory that does not exist, or that is a file, nothing is
    detected: [cmd_apply auto] and [cmd_diff auto] exit with status 1, and
    no file is written. *)
Theorem auto_without_directory (variant : option string) (d : path)
    (dry_run : bool) (f : fs) :
  FS.is_dir f d = false →
  cmd_apply json_loads json_dumps PROFILES_DIR BUILTIN_PROFILES_DIR
    "auto" variant d dry_run f = (Raises (SystemExit 1), f)
  ∧ cmd_diff json_loads PROFILES_DIR BUILTIN_PROFILES_DIR "auto" d f
    = Raises (SystemExit 1).
Proof.
  intros Hd.
  assert (detect_project f d = Returns []) as Hnone.
  { unfold detect_project. f_equal. apply scan_rules_none.
    eapply Forall_impl; [apply markers_have_parts|].
    intros m Hm. by apply matches_not_dir. }
  unfold cmd_apply, cmd_diff. cbn [String.eqb Ascii.eqb Bool.eqb].
  by rewrite Hnone.
Qed.

(** X8: for a stack of the JavaScript family, a [package.json] that is a
    directory is not skipped: [detect_variant] raises [IsADirectoryError],
    and so [apply_profile], called with no variant, never completes there
    and writes nothing. *)
Theorem manifest_directory_raises (name : string) (d : path) (dry_run : bool) (f : fs) :
  name ∈ JS_FAMILY →
  f !! (d ++ ["package.json"]) = Some Dir →
  detect_variant json_loads f name d = Raises IsADirectoryError
  ∧ (apply_profile json_loads json_dumps PROFILES_DIR BUILTIN_PROFILES_DIR
       name None d dry_run f).1 ≠ Returns tt
  ∧ (apply_profile json_loads json_dumps PROFILES_DIR BUILTIN_PROFILES_DIR
       name None d dry_run f).2 = f.
Proof.
  intros Hname Hdir.
  destruct (js_family_names name Hname) as [Hjava Hpython].
  assert (detect_variant json_loads f name d = Raises IsADirectoryError) as Hv.
  { unfold detect_variant. rewrite Hjava. fold JS_FAMILY.
    rewrite bool_decide_eq_true_2 by done.
    unfold js_variant, FS.exists_. rewrite lookup_child, Hdir.
    unfold manifest_variant, FS.read_text. by rewrite lookup_child, Hdir. }
  split; [done|]. rewrite apply_profile_unfold.
  destruct (load_profile _ _ _ f name); [|done..].
  unfold resolve. by rewrite Hv.
Qed.

End Missing.

Lemma user_profiles_shadow_builtin_witness :
  load_profile Codec.loads home_profiles builtin_profiles fresh_machine "java"
  = Returns java_profile
  ∧ load_profile Codec.loads home_profiles builtin_profiles customised_machine "java"
    = Raises (SystemExit 1)
  ∧ apply_profile Codec.loads Codec.dumps home_profiles builtin_profiles
      "java" None ["project"] false customised_machine
    = (Raises (SystemExit 1), customised_machine).
Proof.
  split; [vm_compute; reflexivity|].
  apply (user_profiles_shadow_builtin Codec.loads Codec.dumps home_profiles
           builtin_profiles "java" None ["project"] false customised_machine).
  - vm_compute. reflexivity.
  - vm_compute. reflexivity.
  - vm_compute. reflexivity.
Defined.

Lemma auto_without_directory_witness :
  cmd_apply Codec.loads Codec.dumps home_profiles builtin_profiles
    "auto" (Some "gradle") ["project"; "src"] false fresh_machine
  = (Raises (SystemExit 1), fresh_machine)
  ∧ cmd_diff Codec.loads home_profiles builtin_profiles "auto" ["project"; "src"]
      fresh_machine
    = Raises (SystemExit 1).
Proof.
  apply (auto_without_directory Codec.loads Codec.dumps home_profiles
           builtin_profiles (Some "gradle") ["project"; "src"] false fresh_machine).
  vm_compute. reflexivity.
Defined.

Lemma manifest_directory_raises_witness :
  detect_variant Codec.loads odd_project "javascript-node" ["project"]
  = Raises IsADirectoryError
  ∧ (apply_profile Codec.loads Codec.dumps home_profiles builtin_profiles
       "javascript-node" None ["project"] false odd_project).1 ≠ Returns tt
  ∧ (apply_profile Codec.loads Codec.dumps home_profiles builtin_profiles
       "javascript-node" None ["project"] false odd_project).2 = odd_project.
Proof.
  apply (manifest_directory_raises Codec.loads Codec.dumps home_profiles
           builtin_profiles "javascript-node" ["project"] false odd_project).
  - refine (bool_decide_unpack _ _). vm_compute. exact I.
  - vm_compute. reflexivity.
Defined.

(** * The paths each step writes *)

Section Frames.
Variable json_dumps : json → outcome string.
Variables (d q : path) (dry_run : bool).

Lemma create_dirs_other :
  ¬ q `prefix_of` d ++ [".claude"; "rules"] →
  ¬ q `prefix_of` d ++ [".claude"; "skills"] →
  unchanged (file_at q) (create_dirs d dry_run).
Proof.
  intros H1 H2. unfold create_dirs. apply unchanged_for_each. intros x Hx.
  apply unchanged_bind; [apply unchanged_reading|]. intros present.
  destruct present; [apply unchanged_ret|].
  apply unchanged_unless, unchanged_writing. intros f f' H.
  eapply mkdir_other; [exact H|].
  rewrite !elem_of_cons, elem_of_nil in Hx.
  by destruct Hx as [->|[->|[]]].
Qed.

Lemma write_mcp_other mcp_servers :
  q ≠ d ++ [".mcp.json"] →
  unchanged (file_at q) (write_mcp json_dumps d dry_run mcp_servers).
Proof.
  intros Hq. unfold write_mcp. destruct (truthy _); [|apply unchanged_ret].
  apply unchanged_unless, unchanged_bind; [apply unchanged_lift|]. intros text.
  apply unchanged_writing. intros f f' H.
  by eapply write_text_other.
Qed.

Lemma write_claude_md_other claude_md :
  q ≠ d ++ [".claude"; "CLAUDE.md"] →
  q ≠ d ++ [".claude"; "CLAUDE.md.bak"] →
  q ≠ d ++ [".claude"; "CLAUDE.md.bak"; "CLAUDE.md"] →
  unchanged (file_at q) (write_claude_md d dry_run claude_md).
Proof.
  intros H1 H2 H3. unfold write_claude_md. destruct (truthy _); [|apply unchanged_ret].
  apply unchanged_bind; [apply unchanged_reading|]. intros present.
  apply unchanged_bind.
  { destruct present; [|apply unchanged_ret].
    apply unchanged_unless, unchanged_writing. intros f f' H.
    eapply copy2_other; [exact H|done|].
    replace (FS.basename (d ++ [".claude"; "CLAUDE.md"])) with "CLAUDE.md".
    - by rewrite <- app_assoc.
    - unfold FS.basename.
      change (d ++ [".claude"; "CLAUDE.md"]) with (d ++ [".claude"] ++ ["CLAUDE.md"]).
      by rewrite app_assoc, last_last. }
  intros _. apply unchanged_unless, unchanged_bind; [apply unchanged_lift|]. intros text.
  apply unchanged_writing. intros f f' H.
  by eapply write_text_other.
Qed.

Lemma write_rules_other rules :
  (∀ k, k ∈ Dict.keys rules → q ≠ d ++ [".claude"; "rules"; k +:+ ".md"]) →
  unchanged (file_at q) (write_rules d dry_run rules).
Proof.
  intros Hq. unfold write_rules. apply unchanged_for_each. intros [k v] Hk.
  apply unchanged_unless, unchanged_bind_lift. intros rule_path ->%child_path.
  apply unchanged_bind; [apply unchanged_lift|]. intros text.
  apply unchanged_writing. intros f f' H.
  eapply write_text_other; [exact H|].
  rewrite <- app_assoc. apply Hq.
  unfold Dict.keys. apply list_elem_of_fmap. by exists (k, v).
Qed.

Lemma write_skills_other skills :
  (∀ k, k ∈ Dict.keys skills → ¬ q `prefix_of` d ++ [".claude"; "skills"; k]) →
  (∀ k, k ∈ Dict.keys skills → q ≠ d ++ [".claude"; "skills"; k; "SKILL.md"]) →
  unchanged (file_at q) (write_skills d dry_run skills).
Proof.
  intros H1 H2. unfold write_skills. apply unchanged_for_each. intros [k v] Hk.
  assert (k ∈ Dict.keys skills) as Hk'.
  { unfold Dict.keys. apply list_elem_of_fmap. by exists (k, v). }
  apply unchanged_unless, unchanged_bind_lift. intros skill_dir ->%child_path.
  apply unchanged_bind.
  { apply unchanged_writing. intros f f' H.
    eapply mkdir_other; [exact H|]. rewrite <- app_assoc. by apply H1. }
  intros _. apply unchanged_bind; [apply unchanged_lift|]. intros text.
  apply unchanged_writing. intros f f' H.
  eapply write_text_other; [exact H|]. rewrite <- !app_assoc. by apply H2.
Qed.

Lemma write_settings_other value :
  q ≠ d ++ [".claude"; "settings.json"] →
  unchanged (file_at q) (write_settings json_dumps d dry_run value).
Proof.
  intros Hq. unfold write_settings. destruct (truthy _); [|apply unchanged_ret].
  apply unchanged_unless, unchanged_bind; [apply unchanged_lift|]. intros text.
  apply unchanged_writing. intros f f' H.
  by eapply write_text_other.
Qed.

Lemma update_gitignore_other :
  q ≠ d ++ [".gitignore"] → unchanged (file_at q) (update_gitignore d dry_run).
Proof.
  intros Hq. unfold update_gitignore.
  apply unchanged_bind; [apply unchanged_reading|]. intros present.
  apply unchanged_bind.
  { destruct present; [apply unchanged_reading | apply unchanged_ret]. }
  intros existing. destruct (List.filter _ _); [apply unchanged_ret|].
  apply unchanged_unless, unchanged_writing. intros f f' H.
  by eapply append_text_other.
Qed.

(** No step before the settings merge touches the profile. *)
Lemma write_mcp_profile mcp : unchanged profile (write_mcp json_dumps d dry_run mcp).
Proof.
  unfold write_mcp. destruct (truthy _); [|apply unchanged_ret].
  apply unchanged_unless, unchanged_bind; [apply unchanged_lift|]. intros text.
  apply unchanged_writing_profile.
Qed.

Lemma write_claude_md_profile c : unchanged profile (write_claude_md d dry_run c).
Proof.
  unfold write_claude_md. destruct (truthy _); [|apply unchanged_ret].
  apply unchanged_bind; [apply unchanged_reading|]. intros present.
  apply unchanged_bind.
  { destruct present; [|apply unchanged_ret].
    apply unchanged_unless, unchanged_writing_profile. }
  intros _. apply unchanged_unless, unchanged_bind; [apply unchanged_lift|]. intros text.
  apply unchanged_writing_profile.
Qed.

Lemma write_rules_profile rules : unchanged profile (write_rules d dry_run rules).
Proof.
  unfold write_rules. apply unchanged_for_each. intros [k v] _.
  apply unchanged_unless, unchanged_bind; [apply unchanged_lift|]. intros rule_path.
  apply unchanged_bind; [apply unchanged_lift|]. intros text.
  apply unchanged_writing_profile.
Qed.

Lemma write_skills_profile skills : unchanged profile (write_skills d dry_run skills).
Proof.
  unfold write_skills. apply unchanged_for_each. intros [k v] _.
  apply unchanged_unless, unchanged_bind; [apply unchanged_lift|]. intros skill_dir.
  apply unchanged_bind; [apply unchanged_writing_profile|]. intros _.
  apply unchanged_bind; [apply unchanged_lift|]. intros text.
  apply unchanged_writing_profile.
Qed.

End Frames.

(** A fact about the files that a statement cannot change. *)
Lemma hoare_stable {A X} (obs : world → X) (φ : X → Prop) (m : prog A) :
  unchanged obs m →
  hoare (λ w, φ (obs w)) m (λ _ w, φ (obs w)) (λ _, True).
Proof.
  intros Hm w Hw. specialize (Hm w).
  destruct (m w) as [[a|e|] w']; simpl in Hm; [|done..]. by rewrite Hm.
Qed.

Lemma hoare_post {A} (I : world → Prop) (m : prog A) (Q Q' : A → world → Prop) E :
  (∀ a w, Q a w → Q' a w) → hoare I m Q E → hoare I m Q' E.
Proof.
  intros H Hm w HI. specialize (Hm w HI).
  destruct (m w) as [[a|e|] w']; [by apply H | done..].
Qed.

Lemma hoare_and {A} (I1 I2 : world → Prop) (m : prog A) (Q1 Q2 : A → world → Prop) :
  hoare I1 m Q1 (λ _, True) → hoare I2 m Q2 (λ _, True) →
  hoare (λ w, I1 w ∧ I2 w) m (λ a w, Q1 a w ∧ Q2 a w) (λ _, True).
Proof.
  intros H1 H2 w [Hw1 Hw2]. specialize (H1 w Hw1). specialize (H2 w Hw2).
  by destruct (m w) as [[a|e|] w'].
Qed.

Lemma hoare_true {A} (I : world → Prop) (m : prog A) :
  hoare I m (λ _ _, True) (λ _, True).
Proof. intros w _. by destruct (m w) as [[a|e|] w']. Qed.

(** * What each step writes *)

Lemma put_at f p s f' : FS.put f p s = Returns f' → f' !! p = Some (File s).
Proof.
  unfold FS.put. destruct (FS.lookup f (FS.parent p)) as [[]|]; try done.
  intros [= <-]. apply lookup_insert_eq.
Qed.

Lemma write_text_at f p s f' : FS.write_text f p s = Returns f' → f' !! p = Some (File s).
Proof.
  unfold FS.write_text. destruct (FS.lookup f p) as [[]|]; try done; apply put_at.
Qed.

Lemma mkdir_from_at rest : ∀ f above f',
  FS.mkdir_from f above rest = Returns f' → rest ≠ [] →
  f' !! (above ++ rest) = Some Dir.
Proof.
  induction rest as [|c rest IH]; intros f above f' H Hne; [done|].
  simpl in H. rewrite lookup_child in H.
  replace (above ++ c :: rest) with ((above ++ [c]) ++ rest) by by rewrite <- app_assoc.
  destruct (f !! (above ++ [c])) as [[]|] eqn:Hp; try done.
  - destruct rest as [|c' rest]; [|by apply (IH _ _ _ H)].
    simpl in H. simplify_eq. by rewrite app_nil_r.
  - destruct rest as [|c' rest]; [|by apply (IH _ _ _ H)].
    simpl in H. simplify_eq. rewrite app_nil_r. apply lookup_insert_eq.
Qed.

Lemma mkdir_at f p f' : FS.mkdir f p = Returns f' → p ≠ [] → f' !! p = Some Dir.
Proof. apply mkdir_from_at. Qed.

Lemma length_append (a b : string) :
  String.length (a +:+ b) = String.length a + String.length b.
Proof. induction a as [|c a IH]; simpl; [done | by rewrite IH]. Qed.

Lemma append_inj (a b s : string) : a +:+ s = b +:+ s → a = b.
Proof.
  revert b. induction a as [|c a IH]; intros [|c' b] H.
  - done.
  - exfalso. apply (f_equal String.length) in H.
    rewrite !length_append in H. simpl in H. lia.
  - exfalso. apply (f_equal String.length) in H.
    rewrite !length_append in H. simpl in H. lia.
  - injection H as -> H. f_equal. by apply IH.
Qed.

Lemma elem_of_keys (k : string) (v : json) (l : dict) : (k, v) ∈ l → k ∈ Dict.keys l.
Proof. intros H. unfold Dict.keys. apply list_elem_of_fmap. by exists (k, v). Qed.

Section Specs.
Variable json_dumps : json → outcome string.
Variable d : path.

Lemma write_mcp_spec m :
  m ≠ [] →
  hoare (λ _, True) (write_mcp json_dumps d false m)
    (λ _ w, ∃ text, json_dumps (JObj [("mcpServers", JObj m)]) = Returns text
                    ∧ file_at (d ++ [".mcp.json"]) w = Some (File (text +:+ nl)))
    (λ _, True).
Proof.
  intros Hm w _. unfold write_mcp. destruct m as [|e m]; [done|]. cbn [truthy unless].
  unfold mbind, prog_bind, lift, writing.
  destruct (json_dumps _) as [text| |]; [|done..].
  destruct (FS.write_text _ _ _) as [f'| |] eqn:Hw; [|done..].
  exists text. split; [done|]. by apply write_text_at in Hw.
Qed.

Lemma write_settings_spec value :
  truthy value = true →
  hoare (λ _, True) (write_settings json_dumps d false value)
    (λ _ w, ∃ text, json_dumps value = Returns text
                    ∧ file_at (d ++ [".claude"; "settings.json"]) w
                      = Some (File (text +:+ nl)))
    (λ _, True).
Proof.
  intros Hv w _. unfold write_settings. rewrite Hv. cbn [unless].
  unfold mbind, prog_bind, lift, writing.
  destruct (json_dumps _) as [text| |]; [|done..].
  destruct (FS.write_text _ _ _) as [f'| |] eqn:Hw; [|done..].
  exists text. split; [done|]. by apply write_text_at in Hw.
Qed.

(** The instructions file and its backup. *)
Lemma write_claude_md_spec c before aside :
  truthy c = true → aside ≠ Some Dir →
  hoare (λ w, file_at (d ++ [".claude"; "CLAUDE.md"]) w = before
              ∧ file_at (d ++ [".claude"; "CLAUDE.md.bak"]) w = aside)
    (write_claude_md d false c)
    (λ _ w, ∃ s, c = JStr s
                 ∧ file_at (d ++ [".claude"; "CLAUDE.md"]) w = Some (File (s +:+ nl))
                 ∧ file_at (d ++ [".claude"; "CLAUDE.md.bak"]) w
                   = match before with Some _ => before | None => aside end)
    (λ _, True).
Proof.
  intros Hc Haside [f P] [Hb Ha]. unfold file_at in *. cbn [files] in *.
  unfold write_claude_md. rewrite Hc. cbn [unless].
  unfold mbind at 1, prog_bind at 1, reading at 1. cbn [files].
  unfold FS.exists_.
  replace (d ++ [".claude"; "CLAUDE.md"]) with ((d ++ [".claude"]) ++ ["CLAUDE.md"])
    in * by by rewrite <- app_assoc.
  replace (d ++ [".claude"; "CLAUDE.md.bak"]) with ((d ++ [".claude"]) ++ ["CLAUDE.md.bak"])
    in * by by rewrite <- app_assoc.
  set (cm := (d ++ [".claude"]) ++ ["CLAUDE.md"]) in *.
  set (bak := (d ++ [".claude"]) ++ ["CLAUDE.md.bak"]) in *.
  assert (cm ≠ bak) as Hne.
  { unfold cm, bak. intros H. apply app_inv_head in H. done. }
  assert (∀ g,
    match (text' ← lift (py_add_str c nl);
           writing (λ f0, FS.write_text f0 cm text')) (World g P) with
    | (Returns _, w) => ∃ s, c = JStr s ∧ files w !! cm = Some (File (s +:+ nl))
                             ∧ files w !! bak = g !! bak
    | _ => True
    end) as Hwrite.
  { intros g. unfold mbind, prog_bind, lift, writing. cbn [files].
    destruct c as [| | |s| |]; simpl; try done.
    destruct (FS.write_text g cm (s +:+ nl)) as [g'| |] eqn:Hw; [|done..].
    exists s. split; [done|]. cbn [files]. split; [by apply write_text_at in Hw|].
    eapply write_text_other; [exact Hw | done]. }
  assert (FS.lookup f cm = before) as Hlc by (unfold cm; by rewrite lookup_child).
  assert (FS.lookup f bak = aside) as Hlb by (unfold bak; by rewrite lookup_child).
  rewrite Hlc.
  destruct before as [[old|]|].
  - cbv beta iota. unfold mbind at 1, prog_bind at 1, writing at 1. cbn [files].
    unfold FS.copy2, FS.read_text, FS.is_dir. rewrite Hlc, Hlb. simpl mbind.
    replace (if match aside with Some Dir => true | _ => false end
             then bak ++ [FS.basename cm] else bak) with bak
      by by destruct aside as [[]|].
    destruct (FS.write_text f bak old) as [f1| |] eqn:Hw1; [|done..].
    specialize (Hwrite f1). cbn [profile].
    destruct (@mbind prog _ _ _ _ _ (World f1 P)) as [[u|e|] w]; [|done..].
    destruct Hwrite as (s & -> & Hcm & Hbak). exists s. split; [done|]. split; [done|].
    rewrite Hbak. by apply write_text_at in Hw1.
  - cbv beta iota. unfold mbind at 1, prog_bind at 1, writing at 1. cbn [files].
    unfold FS.copy2, FS.read_text. by rewrite Hlc.
  - cbv beta iota. unfold mbind at 1, prog_bind at 1, mret at 1, prog_ret at 1.
    specialize (Hwrite f).
    destruct (@mbind prog _ _ _ _ _ (World f P)) as [[u|e|] w]; [|done..].
    destruct Hwrite as (s & -> & Hcm & Hbak). exists s. split; [done|]. split; [done|].
    by rewrite Hbak.
Qed.

End Specs.

Section Loops.
Variable d : path.

Lemma write_rules_cons k c rules :
  write_rules d false ((k, c) :: rules) =
  ((rule_path ← lift (FS.child (d ++ [".claude"; "rules"]) (k +:+ ".md"));
    text ← lift (py_add_str c nl);
    writing (λ f, FS.write_text f rule_path text));;
   write_rules d false rules).
Proof. done. Qed.

Lemma write_rules_spec rules :
  NoDup (Dict.keys rules) →
  hoare (λ _, True) (write_rules d false rules)
    (λ _ w, ∀ k c, (k, c) ∈ rules →
       ∃ s, c = JStr s
            ∧ file_at (d ++ [".claude"; "rules"; k +:+ ".md"]) w = Some (File (s +:+ nl)))
    (λ _, True).
Proof.
  induction rules as [|[k0 c0] rules IH]; intros Hnd.
  { intros w _. simpl. by intros k c ?%elem_of_nil. }
  unfold Dict.keys in Hnd. simpl in Hnd. apply NoDup_cons in Hnd as [Hk0 Hnd].
  rewrite write_rules_cons.
  set (φ := λ v : option node, ∃ s, c0 = JStr s ∧ v = Some (File (s +:+ nl))).
  apply hoare_bind with
    (R := λ _ w, φ (file_at (d ++ [".claude"; "rules"; k0 +:+ ".md"]) w)).
  - intros w _. unfold mbind, prog_bind, lift, writing, FS.child.
    destruct (FS.plain_name _); [|done].
    destruct c0 as [| | |s| |]; simpl; try done.
    rewrite <- app_assoc. cbn [app].
    destruct (FS.write_text _ _ _) as [f'| |] eqn:Hw; [|done..].
    exists s. split; [done|]. by apply write_text_at in Hw.
  - intros _.
    eapply hoare_post; [|eapply hoare_pre; [|apply hoare_and;
      [apply (hoare_stable (file_at (d ++ [".claude"; "rules"; k0 +:+ ".md"])) φ)
      |apply (IH Hnd)]]].
    + intros _ w [H0 Hrest] k c [[= -> ->]|Hin]%elem_of_cons; [exact H0 | by apply Hrest].
    + by intros w Hw.
    + apply write_rules_other. intros k Hk H.
      apply app_inv_head in H. injection H as H. apply append_inj in H. by subst.
Qed.

Lemma write_skills_cons k c skills :
  write_skills d false ((k, c) :: skills) =
  ((skill_dir ← lift (FS.child (d ++ [".claude"; "skills"]) k);
    writing (λ f, FS.mkdir f skill_dir);;
    text ← lift (py_add_str c nl);
    writing (λ f, FS.write_text f (skill_dir ++ ["SKILL.md"]) text));;
   write_skills d false skills).
Proof. done. Qed.

Lemma write_skills_spec skills :
  NoDup (Dict.keys skills) →
  hoare (λ _, True) (write_skills d false skills)
    (λ _ w, ∀ k c, (k, c) ∈ skills →
       ∃ s, c = JStr s
            ∧ file_at (d ++ [".claude"; "skills"; k; "SKILL.md"]) w
              = Some (File (s +:+ nl))
            ∧ file_at (d ++ [".claude"; "skills"; k]) w = Some Dir)
    (λ _, True).
Proof.
  induction skills as [|[k0 c0] skills IH]; intros Hnd.
  { intros w _. simpl. by intros k c ?%elem_of_nil. }
  unfold Dict.keys in Hnd. simpl in Hnd. apply NoDup_cons in Hnd as [Hk0 Hnd].
  rewrite write_skills_cons.
  set (φ := λ v : option node * option node,
              ∃ s, c0 = JStr s ∧ v.1 = Some (File (s +:+ nl)) ∧ v.2 = Some Dir).
  set (obs := λ w, (file_at (d ++ [".claude"; "skills"; k0; "SKILL.md"]) w,
                    file_at (d ++ [".claude"; "skills"; k0]) w)).
  apply hoare_bind with (R := λ _ w, φ (obs w)).
  - intros [f P] _. unfold mbind, prog_bind, lift, writing, FS.child. cbn [files].
    destruct (FS.plain_name _); [|done].
    rewrite <- !app_assoc. cbn [app].
    destruct (FS.mkdir f _) as [f1| |] eqn:Hmk; [|done..]. cbn [files].
    destruct c0 as [| | |s| |]; simpl; try done.
    destruct (FS.write_text _ _ _) as [f2| |] eqn:Hw; [|done..].
    exists s. split; [done|]. unfold obs, file_at. cbn [files fst snd].
    split; [by apply write_text_at in Hw|].
    rewrite (write_text_other _ _ _ _ _ Hw).
    + apply (mkdir_at _ _ _ Hmk). by destruct d.
    + intros H. apply app_inv_head in H. done.
  - intros _.
    eapply hoare_post; [|eapply hoare_pre; [|apply hoare_and;
      [apply (hoare_stable obs φ) | apply (IH Hnd)]]].
    + intros _ w [H0 Hrest] k c [[= -> ->]|Hin]%elem_of_cons; [exact H0 | by apply Hrest].
    + by intros w Hw.
    + apply unchanged_pair.
      * apply write_skills_other.
        -- intros k Hk [r H]. rewrite <- app_assoc in H. apply app_inv_head in H.
           done.
        -- intros k Hk H. apply app_inv_head in H. injection H as H. by subst.
      * apply write_skills_other.
        -- intros k Hk [r H]. rewrite <- app_assoc in H. apply app_inv_head in H.
           injection H as H _. by subst.
        -- intros k Hk H. apply app_inv_head in H. done.
Qed.

End Loops.

(** The keys of a merged dictionary are distinct. *)
Lemma set_keys k v dct :
  Dict.keys (Dict.set k v dct) =
  if bool_decide (k ∈ Dict.keys dct) then Dict.keys dct else Dict.keys dct ++ [k].
Proof.
  unfold Dict.keys. induction dct as [|[k0 v0] dct IH]; [done|].
  cbn [Dict.set]. rewrite !fmap_cons. cbn [fst].
  destruct (String.eqb_spec k k0) as [->|Hne]; rewrite !fmap_cons; cbn [fst].
  - rewrite bool_decide_eq_true_2; [done | left].
  - rewrite IH. destruct (decide (k ∈ dct.*1)) as [Hin|Hout].
    + rewrite !bool_decide_eq_true_2; [done | by right | done].
    + rewrite !bool_decide_eq_false_2; [done | | done].
      by intros [?|?]%elem_of_cons.
Qed.

Lemma set_wf k v dct : Dict.wf dct → Dict.wf (Dict.set k v dct).
Proof.
  unfold Dict.wf. rewrite set_keys. intros Hwf.
  destruct (decide (k ∈ Dict.keys dct)) as [Hin|Hout].
  - by rewrite bool_decide_eq_true_2.
  - rewrite bool_decide_eq_false_2 by done.
    apply NoDup_app. split; [done|]. split; [|apply NoDup_singleton].
    by intros x Hx ->%list_elem_of_singleton.
Qed.

Lemma update_wf other : ∀ dct, Dict.wf dct → Dict.wf (Dict.update dct other).
Proof.
  induction other as [|[k v] other IH]; intros dct Hwf; [done|].
  rewrite update_cons. by apply IH, set_wf.
Qed.

Lemma merged_wf field P vc m : merged field P vc = Returns m → Dict.wf m.
Proof.
  unfold merged. destruct (py_get P field (JObj [])) as [base| |]; simpl; [|done..].
  destruct base as [| | | | |b]; simpl; try done.
  assert (Dict.wf (Dict.update [] b)) as Hb by (apply update_wf, NoDup_nil_2).
  destruct (py_get vc field JNull) as [extra| |]; simpl; [|done..].
  destruct (truthy extra); [|by intros [= <-]].
  destruct (py_getitem vc field) as [x| |]; simpl; [|done..].
  destruct x as [| | |s|l|o]; simpl; try done.
  - destruct s; [by intros [= <-] | done].
  - destruct l; [by intros [= <-] | done].
  - intros [= <-]. by apply update_wf.
Qed.

Lemma get_elem_of k v (l : dict) : Dict.get k l = Some v → (k, v) ∈ l.
Proof.
  induction l as [|[k0 v0] l IH]; simpl; [done|].
  destruct (String.eqb_spec k k0) as [->|Hne].
  - intros [= ->]. left.
  - intros H. right. by apply IH.
Qed.

(** * The artifacts of a completed run *)

Lemma hoare_keep {A} (I : world → Prop) (m : prog A) :
  unchanged (λ w, w) m → hoare I m (λ _ w, I w) (λ _, True).
Proof. apply (hoare_stable (λ w, w) I). Qed.

Lemma unchanged_world_of_profile {A} (g : json → outcome A) :
  unchanged (λ w, w) (of_profile g).
Proof. done. Qed.

(** The settings after the merge, from a profile with settings [S] and a
    variant that merges [M] into them. *)
Lemma merged_settings_spec fields override S M :
  default (JObj []) (Dict.get "settings" fields) = JObj S →
  default (JObj []) (Dict.get "settings_merge" override) = JObj M →
  hoare (λ w, profile w = JObj fields) (merged_settings (JObj override))
    (λ r w, points_to r w (foldl merge_step S M)) (λ _, True).
Proof.
  intros HS HM [f P] Hw. cbn [profile] in Hw. subst P.
  destruct (settings_of_profile_spec f fields S HS) as (r & Hr & Hpt).
  unfold merged_settings. unfold mbind at 1, prog_bind at 1. rewrite Hr.
  unfold mbind at 1, prog_bind at 1, lift at 1. simpl py_get.
  destruct (Dict.get "settings_merge" override) as [x|] eqn:Hx; simpl in HM.
  - subst x. cbn [default from_option id]. destruct M as [|e M]; [done|].
    cbn [truthy]. cbv iota.
    unfold mbind at 1, prog_bind at 1, lift at 1. simpl py_getitem. rewrite Hx.
    unfold mbind at 1, prog_bind at 1, lift at 1. simpl py_items.
    by destruct (fold_merge_entries (e :: M) r _ S Hpt) as (r' & w' & -> & H' & _).
  - simplify_eq. done.
Qed.

Section Walks.
Variable json_dumps : json → outcome string.
Variables (d : path) (vc P : json).

Ltac keep lem :=
  eapply hoare_bind; [apply hoare_unchanged; [apply lem | done] |]; intros ?.

Ltac read :=
  eapply hoare_bind; [apply hoare_keep, unchanged_world_of_profile |]; intros ?.

Ltac bind_value x :=
  eapply hoare_bind; [apply hoare_of_profile; done |]; intros x.

Lemma apply_steps_manifest m :
  merged_mcp_servers P vc = Returns m → m ≠ [] →
  hoare (λ w, profile w = P) (apply_steps json_dumps d false vc)
    (λ _ w, ∃ text, json_dumps (JObj [("mcpServers", JObj m)]) = Returns text
                    ∧ file_at (d ++ [".mcp.json"]) w = Some (File (text +:+ nl)))
    (λ _, True).
Proof.
  intros Hm Hne. unfold apply_steps.
  keep create_dirs_profile. bind_value mcp. simpl.
  apply (hoare_pure (mcp = m)).
  { intros w [Hp Hm']. rewrite Hp, Hm in Hm'. by simplify_eq. }
  intros ->.
  eapply hoare_bind; [eapply hoare_pre; [|by apply write_mcp_spec]; done|]. intros u.
  apply (hoare_stable (file_at (d ++ [".mcp.json"]))
           (λ v, ∃ text, json_dumps (JObj [("mcpServers", JObj m)]) = Returns text
                         ∧ v = Some (File (text +:+ nl)))).
  apply unchanged_bind; [apply unchanged_of_profile|]. intros claude_md.
  apply unchanged_bind; [apply write_claude_md_other; path_neq|]. intros _.
  apply unchanged_bind; [apply unchanged_of_profile|]. intros rules.
  apply unchanged_bind; [apply write_rules_other; intros k _; path_neq|]. intros _.
  apply unchanged_bind; [apply unchanged_of_profile|]. intros skills.
  apply unchanged_bind; [apply write_skills_other; intros k _; [not_prefix|path_neq]|].
  intros _.
  apply unchanged_bind; [apply unchanged_merged_settings|]. intros settings.
  apply unchanged_bind; [apply unchanged_deref|]. intros value.
  apply unchanged_bind; [apply write_settings_other; path_neq|]. intros _.
  apply unchanged_bind; [apply update_gitignore_other; path_neq|]. intros _.
  apply unchanged_ret.
Qed.

Lemma apply_steps_instructions c before aside :
  merged_claude_md P vc = Returns c → truthy c = true → aside ≠ Some Dir →
  hoare (λ w, (file_at (d ++ [".claude"; "CLAUDE.md"]) w,
               (file_at (d ++ [".claude"; "CLAUDE.md.bak"]) w, profile w))
              = (before, (aside, P)))
    (apply_steps json_dumps d false vc)
    (λ _ w, ∃ s, c = JStr s
                 ∧ file_at (d ++ [".claude"; "CLAUDE.md"]) w = Some (File (s +:+ nl))
                 ∧ file_at (d ++ [".claude"; "CLAUDE.md.bak"]) w
                   = match before with Some _ => before | None => aside end)
    (λ _, True).
Proof.
  intros Hc Ht Ha. unfold apply_steps.
  eapply hoare_bind.
  { apply hoare_unchanged; [|done].
    apply unchanged_pair; [apply create_dirs_other; not_prefix|].
    apply unchanged_pair; [apply create_dirs_other; not_prefix|].
    apply create_dirs_profile. }
  intros u1. read.
  eapply hoare_bind.
  { apply hoare_unchanged; [|done].
    apply unchanged_pair; [apply write_mcp_other; path_neq|].
    apply unchanged_pair; [apply write_mcp_other; path_neq|].
    apply write_mcp_profile. }
  intros u2. bind_value claude_md. simpl.
  apply (hoare_pure (claude_md = c)).
  { intros w [Hp Hc']. injection Hp as _ _ Hp. rewrite Hp, Hc in Hc'. by simplify_eq. }
  intros ->.
  eapply hoare_bind.
  { eapply hoare_pre; [|by apply (write_claude_md_spec d c before aside)].
    intros w [Hw _]. by injection Hw as -> -> _. }
  intros u3.
  apply (hoare_stable
           (λ w, (file_at (d ++ [".claude"; "CLAUDE.md"]) w,
                  file_at (d ++ [".claude"; "CLAUDE.md.bak"]) w))
           (λ v, ∃ s, c = JStr s ∧ v.1 = Some (File (s +:+ nl))
                      ∧ v.2 = match before with Some _ => before | None => aside end)).
  apply unchanged_pair.
  - apply unchanged_bind; [apply unchanged_of_profile|]. intros rules.
    apply unchanged_bind; [apply write_rules_other; intros k _; path_neq|]. intros _.
    apply unchanged_bind; [apply unchanged_of_profile|]. intros skills.
    apply unchanged_bind; [apply write_skills_other; intros k _; [not_prefix|path_neq]|].
    intros _.
    apply unchanged_bind; [apply unchanged_merged_settings|]. intros settings.
    apply unchanged_bind; [apply unchanged_deref|]. intros value.
    apply unchanged_bind; [apply write_settings_other; path_neq|]. intros _.
    apply unchanged_bind; [apply update_gitignore_other; path_neq|]. intros _.
    apply unchanged_ret.
  - apply unchanged_bind; [apply unchanged_of_profile|]. intros rules.
    apply unchanged_bind; [apply write_rules_other; intros k _; path_neq|]. intros _.
    apply unchanged_bind; [apply unchanged_of_profile|]. intros skills.
    apply unchanged_bind; [apply write_skills_other; intros k _; [not_prefix|path_neq]|].
    intros _.
    apply unchanged_bind; [apply unchanged_merged_settings|]. intros settings.
    apply unchanged_bind; [apply unchanged_deref|]. intros value.
    apply unchanged_bind; [apply write_settings_other; path_neq|]. intros _.
    apply unchanged_bind; [apply update_gitignore_other; path_neq|]. intros _.
    apply unchanged_ret.
Qed.

Lemma apply_steps_rule rules k c :
  merged "rules" P vc = Returns rules → Dict.get k rules = Some c →
  hoare (λ w, profile w = P) (apply_steps json_dumps d false vc)
    (λ _ w, ∃ s, c = JStr s
                 ∧ file_at (d ++ [".claude"; "rules"; k +:+ ".md"]) w
                   = Some (File (s +:+ nl)))
    (λ _, True).
Proof.
  intros Hr Hk. unfold apply_steps.
  keep create_dirs_profile. read.
  keep write_mcp_profile. read.
  keep write_claude_md_profile. bind_value rules'. simpl.
  apply (hoare_pure (rules' = rules)).
  { intros w [Hp Hr']. rewrite Hp, Hr in Hr'. by simplify_eq. }
  intros ->.
  eapply hoare_bind.
  { eapply hoare_pre; [|eapply hoare_post; [|apply (write_rules_spec d rules)]].
    - done.
    - intros u w H. apply (H k c). by apply get_elem_of.
    - by apply (merged_wf "rules" P vc). }
  intros u.
  apply (hoare_stable (file_at (d ++ [".claude"; "rules"; k +:+ ".md"]))
           (λ v, ∃ s, c = JStr s ∧ v = Some (File (s +:+ nl)))).
  apply unchanged_bind; [apply unchanged_of_profile|]. intros skills.
  apply unchanged_bind; [apply write_skills_other; intros k' _; [not_prefix|path_neq]|].
  intros _.
  apply unchanged_bind; [apply unchanged_merged_settings|]. intros settings.
  apply unchanged_bind; [apply unchanged_deref|]. intros value.
  apply unchanged_bind; [apply write_settings_other; path_neq|]. intros _.
  apply unchanged_bind; [apply update_gitignore_other; path_neq|]. intros _.
  apply unchanged_ret.
Qed.

Lemma apply_steps_skill skills k c :
  merged "skills" P vc = Returns skills → Dict.get k skills = Some c →
  hoare (λ w, profile w = P) (apply_steps json_dumps d false vc)
    (λ _ w, ∃ s, c = JStr s
                 ∧ file_at (d ++ [".claude"; "skills"; k; "SKILL.md"]) w
                   = Some (File (s +:+ nl))
                 ∧ file_at (d ++ [".claude"; "skills"; k]) w = Some Dir)
    (λ _, True).
Proof.
  intros Hs Hk. unfold apply_steps.
  keep create_dirs_profile. read.
  keep write_mcp_profile. read.
  keep write_claude_md_profile. read.
  keep write_rules_profile. bind_value skills'. simpl.
  apply (hoare_pure (skills' = skills)).
  { intros w [Hp Hs']. rewrite Hp, Hs in Hs'. by simplify_eq. }
  intros ->.
  eapply hoare_bind.
  { eapply hoare_pre; [|eapply hoare_post; [|apply (write_skills_spec d skills)]].
    - done.
    - intros u w H. apply (H k c). by apply get_elem_of.
    - by apply (merged_wf "skills" P vc). }
  intros u.
  apply (hoare_stable
           (λ w, (file_at (d ++ [".claude"; "skills"; k; "SKILL.md"]) w,
                  file_at (d ++ [".claude"; "skills"; k]) w))
           (λ v, ∃ s, c = JStr s ∧ v.1 = Some (File (s +:+ nl)) ∧ v.2 = Some Dir)).
  apply unchanged_pair.
  - apply unchanged_bind; [apply unchanged_merged_settings|]. intros settings.
    apply unchanged_bind; [apply unchanged_deref|]. intros value.
    apply unchanged_bind; [apply write_settings_other; path_neq|]. intros _.
    apply unchanged_bind; [apply update_gitignore_other; path_neq|]. intros _.
    apply unchanged_ret.
  - apply unchanged_bind; [apply unchanged_merged_settings|]. intros settings.
    apply unchanged_bind; [apply unchanged_deref|]. intros value.
    apply unchanged_bind; [apply write_settings_other; path_neq|]. intros _.
    apply unchanged_bind; [apply update_gitignore_other; path_neq|]. intros _.
    apply unchanged_ret.
Qed.

Lemma apply_steps_settings fields override S M :
  P = JObj fields → vc = JObj override →
  default (JObj []) (Dict.get "settings" fields) = JObj S →
  default (JObj []) (Dict.get "settings_merge" override) = JObj M →
  foldl merge_step S M ≠ [] →
  hoare (λ w, profile w = P) (apply_steps json_dumps d false vc)
    (λ _ w, ∃ text, json_dumps (JObj (foldl merge_step S M)) = Returns text
                    ∧ file_at (d ++ [".claude"; "settings.json"]) w
                      = Some (File (text +:+ nl)))
    (λ _, True).
Proof.
  intros -> -> HS HM Hne. unfold apply_steps.
  keep create_dirs_profile. read.
  keep write_mcp_profile. read.
  keep write_claude_md_profile. read.
  keep write_rules_profile. read.
  keep write_skills_profile.
  eapply hoare_bind; [by apply (merged_settings_spec fields override S M)|].
  intros settings. simpl.
  eapply hoare_bind with (R := λ value _, value = JObj (foldl merge_step S M)).
  { intros w Hw. unfold points_to in Hw. by rewrite Hw. }
  intros value. apply (hoare_pure (value = JObj (foldl merge_step S M))); [done|].
  intros ->.
  eapply hoare_bind.
  { eapply hoare_pre; [|apply write_settings_spec]; [done|].
    simpl. by destruct (foldl merge_step S M). }
  intros u. simpl.
  apply (hoare_stable (file_at (d ++ [".claude"; "settings.json"]))
           (λ v, ∃ text, json_dumps (JObj (foldl merge_step S M)) = Returns text
                         ∧ v = Some (File (text +:+ nl)))).
  apply unchanged_bind; [apply update_gitignore_other; path_neq|]. intros _.
  apply unchanged_ret.
Qed.

End Walks.

Section Written.
Variable json_loads : string → outcome json.
Variable json_dumps : json → outcome string.
Variables PROFILES_DIR BUILTIN_PROFILES_DIR : path.

(** A completed run, from what its steps guarantee. *)
Lemma apply_profile_post name variant d dry_run f P v vc (Q : world → Prop) :
  load_profile json_loads PROFILES_DIR BUILTIN_PROFILES_DIR f name = Returns P →
  resolve json_loads f name variant d = Returns v →
  variant_config_of P v = Returns vc →
  (apply_profile json_loads json_dumps PROFILES_DIR BUILTIN_PROFILES_DIR
     name variant d dry_run f).1 = Returns tt →
  hoare (λ w, w = World f P) (apply_steps json_dumps d dry_run vc)
    (λ _ w, Q w) (λ _, True) →
  ∃ w, (apply_profile json_loads json_dumps PROFILES_DIR BUILTIN_PROFILES_DIR
          name variant d dry_run f).2 = files w ∧ Q w.
Proof.
  intros Hload Hres Hvc Hrun Hsteps.
  rewrite apply_profile_unfold in Hrun |- *. rewrite Hload, Hres in Hrun |- *.
  cbv zeta in Hrun |- *.
  rewrite apply_resolved_unfold in Hrun |- *. cbn [profile] in Hrun |- *.
  rewrite Hvc in Hrun |- *.
  destruct (display_name_of name P v); [|done..].
  specialize (Hsteps (World f P) eq_refl).
  destruct (apply_steps json_dumps d dry_run vc (World f P)) as [[cfg|e|] w']; [|done..].
  by exists w'.
Qed.

(** X9: a completed run whose merged map [m] of MCP servers is not empty
    leaves, as [.mcp.json], the text [json.dumps] gives for the document
    with the one key [mcpServers] bound to [m], and a newline; what was
    there before is overwritten. *)
Theorem manifest_written (name : string) (variant : option string) (d : path)
    (f : fs) (P : json) (v : option string) (vc : json) (m : dict) :
  load_profile json_loads PROFILES_DIR BUILTIN_PROFILES_DIR f name = Returns P →
  resolve json_loads f name variant d = Returns v →
  variant_config_of P v = Returns vc →
  merged_mcp_servers P vc = Returns m →
  m ≠ [] →
  (apply_profile json_loads json_dumps PROFILES_DIR BUILTIN_PROFILES_DIR
     name variant d false f).1 = Returns tt →
  ∃ text,
    json_dumps (JObj [("mcpServers", JObj m)]) = Returns text
    ∧ (apply_profile json_loads json_dumps PROFILES_DIR BUILTIN_PROFILES_DIR
         name variant d false f).2 !! (d ++ [".mcp.json"])
      = Some (File (text +:+ nl)).
Proof.
  intros Hload Hres Hvc Hm Hne Hrun.
  destruct (apply_profile_post name variant d false f P v vc _ Hload Hres Hvc Hrun
              (hoare_pre _ _ _ _ _ (λ w (H : w = World f P), f_equal profile H)
                 (apply_steps_manifest json_dumps d vc P m Hm Hne)))
    as (w & -> & H).
  exact H.
Qed.

(** X10: where the names of the merged rules and skills are one step of a
    path each ([plain_names]), a completed run whose merged [claude_md] is
    not empty leaves it, with a newline, as [.claude/CLAUDE.md]; a
    [CLAUDE.md] that was there before is kept with its old content as
    [.claude/CLAUDE.md.bak], in place of any earlier backup, and with no
    [CLAUDE.md] before the backup path is left as it was. *)
Theorem instructions_written (name : string) (variant : option string) (d : path)
    (f : fs) (P : json) (v : option string) (vc c : json) (rules skills : dict) :
  load_profile json_loads PROFILES_DIR BUILTIN_PROFILES_DIR f name = Returns P →
  resolve json_loads f name variant d = Returns v →
  variant_config_of P v = Returns vc →
  merged "rules" P vc = Returns rules →
  merged "skills" P vc = Returns skills →
  plain_names rules skills →
  merged_claude_md P vc = Returns c →
  truthy c = true →
  f !! (d ++ [".claude"; "CLAUDE.md.bak"]) ≠ Some Dir →
  (apply_profile json_loads json_dumps PROFILES_DIR BUILTIN_PROFILES_DIR
     name variant d false f).1 = Returns tt →
  ∃ s,
    c = JStr s
    ∧ (apply_profile json_loads json_dumps PROFILES_DIR BUILTIN_PROFILES_DIR
         name variant d false f).2 !! (d ++ [".claude"; "CLAUDE.md"])
      = Some (File (s +:+ nl))
    ∧ (apply_profile json_loads json_dumps PROFILES_DIR BUILTIN_PROFILES_DIR
         name variant d false f).2 !! (d ++ [".claude"; "CLAUDE.md.bak"])
      = match f !! (d ++ [".claude"; "CLAUDE.md"]) with
        | Some old => Some old
        | None => f !! (d ++ [".claude"; "CLAUDE.md.bak"])
        end.
Proof.
  intros Hload Hres Hvc _ _ _ Hc Ht Ha Hrun.
  destruct (apply_profile_post name variant d false f P v vc
              (λ w, ∃ s, c = JStr s
                 ∧ file_at (d ++ [".claude"; "CLAUDE.md"]) w = Some (File (s +:+ nl))
                 ∧ file_at (d ++ [".claude"; "CLAUDE.md.bak"]) w
                   = match f !! (d ++ [".claude"; "CLAUDE.md"]) with
                     | Some _ => f !! (d ++ [".claude"; "CLAUDE.md"])
                     | None => f !! (d ++ [".claude"; "CLAUDE.md.bak"])
                     end)
              Hload Hres Hvc Hrun)
    as (w & -> & s & -> & Hcm & Hbak).
  { eapply hoare_pre; [|by apply (apply_steps_instructions json_dumps d vc P c)].
    by intros w ->. }
  exists s. split; [done|]. split; [exact Hcm|].
  unfold file_at in Hbak. rewrite Hbak.
  by destruct (f !! (d ++ [".claude"; "CLAUDE.md"])).
Qed.

(** X11: where the names of the merged rules and skills are one step of a
    path each ([plain_names]), a completed run leaves every rule of the
    merged [rules] -- those of the profile and those of the variant -- in
    a file of its own, [.claude/rules/<name>.md], holding the rule's text
    and a newline. *)
Theorem rules_written (name : string) (variant : option string) (d : path)
    (f : fs) (P : json) (v : option string) (vc : json) (rules skills : dict)
    (k : string) (c : json) :
  load_profile json_loads PROFILES_DIR BUILTIN_PROFILES_DIR f name = Returns P →
  resolve json_loads f name variant d = Returns v →
  variant_config_of P v = Returns vc →
  merged "rules" P vc = Returns rules →
  merged "skills" P vc = Returns skills →
  plain_names rules skills →
  Dict.get k rules = Some c →
  (apply_profile json_loads json_dumps PROFILES_DIR BUILTIN_PROFILES_DIR
     name variant d false f).1 = Returns tt →
  ∃ s,
    c = JStr s
    ∧ (apply_profile json_loads json_dumps PROFILES_DIR BUILTIN_PROFILES_DIR
         name variant d false f).2 !! (d ++ [".claude"; "rules"; k +:+ ".md"])
      = Some (File (s +:+ nl)).
Proof.
  intros Hload Hres Hvc Hr _ _ Hk Hrun.
  destruct (apply_profile_post name variant d false f P v vc _ Hload Hres Hvc Hrun
              (hoare_pre _ _ _ _ _ (λ w (H : w = World f P), f_equal profile H)
                 (apply_steps_rule json_dumps d vc P rules k c Hr Hk)))
    as (w & -> & H).
  exact H.
Qed.

(** X12: where the names of the merged rules and skills are one step of a
    path each ([plain_names]), a completed run leaves every skill of the
    merged [skills] in a directory of its own, [.claude/skills/<name>], as
    the file [SKILL.md] holding the skill's text and a newline. *)
Theorem skills_written (name : string) (variant : option string) (d : path)
    (f : fs) (P : json) (v : option string) (vc : json) (rules skills : dict)
    (k : string) (c : json) :
  load_profile json_loads PROFILES_DIR BUILTIN_PROFILES_DIR f name = Returns P →
  resolve json_loads f name variant d = Returns v →
  variant_config_of P v = Returns vc →
  merged "rules" P vc = Returns rules →
  merged "skills" P vc = Returns skills →
  plain_names rules skills →
  Dict.get k skills = Some c →
  (apply_profile json_loads json_dumps PROFILES_DIR BUILTIN_PROFILES_DIR
     name variant d false f).1 = Returns tt →
  ∃ s,
    c = JStr s
    ∧ (apply_profile json_loads json_dumps PROFILES_DIR BUILTIN_PROFILES_DIR
         name variant d false f).2 !! (d ++ [".claude"; "skills"; k; "SKILL.md"])
      = Some (File (s +:+ nl))
    ∧ (apply_profile json_loads json_dumps PROFILES_DIR BUILTIN_PROFILES_DIR
         name variant d false f).2 !! (d ++ [".claude"; "skills"; k])
      = Some Dir.
Proof.
  intros Hload Hres Hvc _ Hs _ Hk Hrun.
  destruct (apply_profile_post name variant d false f P v vc _ Hload Hres Hvc Hrun
              (hoare_pre _ _ _ _ _ (λ w (H : w = World f P), f_equal profile H)
                 (apply_steps_skill json_dumps d vc P skills k c Hs Hk)))
    as (w & -> & H).
  exact H.
Qed.

(** X13: a completed run whose merged settings -- the settings [S] of the
    profile with the [settings_merge] [M] of the variant merged in, key by
    key -- are not empty leaves, as [.claude/settings.json], the text
    [json.dumps] gives for them, and a newline. *)
Theorem settings_written (name : string) (variant : option string) (d : path)
    (f : fs) (fields : dict) (v : option string) (override S M : dict) :
  load_profile json_loads PROFILES_DIR BUILTIN_PROFILES_DIR f name
  = Returns (JObj fields) →
  resolve json_loads f name variant d = Returns v →
  variant_config_of (JObj fields) v = Returns (JObj override) →
  default (JObj []) (Dict.get "settings" fields) = JObj S →
  default (JObj []) (Dict.get "settings_merge" override) = JObj M →
  foldl merge_step S M ≠ [] →
  (apply_profile json_loads json_dumps PROFILES_DIR BUILTIN_PROFILES_DIR
     name variant d false f).1 = Returns tt →
  ∃ text,
    json_dumps (JObj (foldl merge_step S M)) = Returns text
    ∧ (apply_profile json_loads json_dumps PROFILES_DIR BUILTIN_PROFILES_DIR
         name variant d false f).2 !! (d ++ [".claude"; "settings.json"])
      = Some (File (text +:+ nl)).
Proof.
  intros Hload Hres Hvc HS HM Hne Hrun.
  destruct (apply_profile_post name variant d false f _ v _ _ Hload Hres Hvc Hrun
              (hoare_pre _ _ _ _ _ (λ w (H : w = World f (JObj fields)), f_equal profile H)
                 (apply_steps_settings json_dumps d _ _ fields override S M
                    eq_refl eq_refl HS HM Hne)))
    as (w & -> & H).
  exact H.
Qed.

End Written.

Lemma manifest_written_witness :
  ∃ text,
    Codec.dumps (JObj [("mcpServers", JObj [("gradle", JObj [])])]) = Returns text
    ∧ java_applied !! (["project"] ++ [".mcp.json"]) = Some (File (text +:+ nl)).
Proof.
  apply (manifest_written Codec.loads Codec.dumps home_profiles builtin_profiles
           "java" None ["project"] fresh_machine java_profile (Some "gradle")
           gradle_variant).
  - vm_compute. reflexivity.
  - vm_compute. reflexivity.
  - vm_compute. reflexivity.
  - vm_compute. reflexivity.
  - discriminate.
  - vm_compute. reflexivity.
Defined.

Lemma instructions_written_witness :
  ∃ s,
    JStr "# Java" = JStr s
    ∧ notes_replaced !! (["project"] ++ [".claude"; "CLAUDE.md"])
      = Some (File (s +:+ nl))
    ∧ notes_replaced !! (["project"] ++ [".claude"; "CLAUDE.md.bak"])
      = match machine_with_notes !! (["project"] ++ [".claude"; "CLAUDE.md"]) with
        | Some old => Some old
        | None => machine_with_notes !! (["project"] ++ [".claude"; "CLAUDE.md.bak"])
        end.
Proof.
  apply (instructions_written Codec.loads Codec.dumps home_profiles builtin_profiles
           "java" None ["project"] machine_with_notes java_profile (Some "gradle")
           gradle_variant (JStr "# Java")
           [("style", JStr "Use records."); ("wrapper", JStr "Use the wrapper.")]
           [("build", JStr "Run the build.")]).
  - vm_compute. reflexivity.
  - vm_compute. reflexivity.
  - vm_compute. reflexivity.
  - vm_compute. reflexivity.
  - vm_compute. reflexivity.
  - split; repeat constructor.
  - vm_compute. reflexivity.
  - reflexivity.
  - vm_compute. discriminate.
  - vm_compute. reflexivity.
Defined.

Lemma rules_written_witness :
  ∃ s,
    JStr "Use the wrapper." = JStr s
    ∧ java_applied !! (["project"] ++ [".claude"; "rules"; "wrapper" +:+ ".md"])
      = Some (File (s +:+ nl)).
Proof.
  apply (rules_written Codec.loads Codec.dumps home_profiles builtin_profiles
           "java" None ["project"] fresh_machine java_profile (Some "gradle")
           gradle_variant
           [("style", JStr "Use records."); ("wrapper", JStr "Use the wrapper.")]
           [("build", JStr "Run the build.")]).
  - vm_compute. reflexivity.
  - vm_compute. reflexivity.
  - vm_compute. reflexivity.
  - vm_compute. reflexivity.
  - vm_compute. reflexivity.
  - split; repeat constructor.
  - reflexivity.
  - vm_compute. reflexivity.
Defined.

Lemma skills_written_witness :
  ∃ s,
    JStr "Run the build." = JStr s
    ∧ java_applied !! (["project"] ++ [".claude"; "skills"; "build"; "SKILL.md"])
      = Some (File (s +:+ nl))
    ∧ java_applied !! (["project"] ++ [".claude"; "skills"; "build"]) = Some Dir.
Proof.
  apply (skills_written Codec.loads Codec.dumps home_profiles builtin_profiles
           "java" None ["project"] fresh_machine java_profile (Some "gradle")
           gradle_variant
           [("style", JStr "Use records."); ("wrapper", JStr "Use the wrapper.")]
           [("build", JStr "Run the build.")]).
  - vm_compute. reflexivity.
  - vm_compute. reflexivity.
  - vm_compute. reflexivity.
  - vm_compute. reflexivity.
  - vm_compute. reflexivity.
  - split; repeat constructor.
  - reflexivity.
  - vm_compute. reflexivity.
Defined.

Lemma settings_written_witness :
  ∃ text,
    Codec.dumps (JObj (foldl merge_step web_settings strict_merge)) = Returns text
    ∧ strict_applied !! (["project"] ++ [".claude"; "settings.json"])
      = Some (File (text +:+ nl)).
Proof.
  apply (settings_written Codec.loads Codec.dumps home_profiles builtin_profiles
           "web" (Some "strict") ["project"] machine web_fields (Some "strict")
           strict_variant web_settings strict_merge).
  - vm_compute. reflexivity.
  - reflexivity.
  - vm_compute. reflexivity.
  - reflexivity.
  - reflexivity.
  - vm_compute. discriminate.
  - vm_compute. reflexivity.
Defined.

(** * A second run and the ignore-file *)

Lemma append_assoc (a b c : string) : (a +:+ b) +:+ c = a +:+ (b +:+ c).
Proof.
  induction a as [|x a IH]; [done|].
  change ((String x a +:+ b) +:+ c) with (String x ((a +:+ b) +:+ c)).
  by rewrite IH.
Qed.

Lemma prefix_inv (n s : string) : String.prefix n s = true → ∃ b, s = n +:+ b.
Proof.
  revert s. induction n as [|c n IH]; intros s H.
  - by exists s.
  - destruct s as [|c' s]; [done|]. simpl in H.
    destruct (ascii_dec c c') as [->|]; [|done].
    destruct (IH s H) as [b ->]. by exists b.
Qed.

Lemma contains_inv (n s : string) : contains n s = true → ∃ a b, s = a +:+ n +:+ b.
Proof.
  induction s as [|c s IH]; rewrite contains_unfold.
  - rewrite orb_false_r. intros [b ->]%prefix_inv. by exists "", b.
  - intros [H|H]%orb_true_iff.
    + apply prefix_inv in H as [b ->]. by exists "", b.
    + destruct (IH H) as (a & b & ->). by exists (String c a), b.
Qed.

Lemma contains_app_l (n s t : string) :
  contains n s = true → contains n (s +:+ t) = true.
Proof.
  intros (a & b & ->)%contains_inv.
  rewrite !append_assoc. apply contains_app.
Qed.

Lemma contains_app_r (n s t : string) :
  contains n t = true → contains n (s +:+ t) = true.
Proof.
  intros (a & b & ->)%contains_inv.
  rewrite <- append_assoc. apply contains_app.
Qed.

(** Once the block is appended no entry is missing. *)
Lemma missing_after_block s :
  missing_entries (s +:+ gitignore_block (missing_entries s)) = []
  ∨ missing_entries s = [].
Proof.
  unfold missing_entries at 2 3, gitignore_entries. cbn [List.filter].
  destruct (contains ".claude/settings.local.json" s) eqn:H1,
           (contains ".claude/CLAUDE.local.md" s) eqn:H2; cbn [negb];
    [by right|left..];
    unfold missing_entries, gitignore_entries; cbn [List.filter];
    rewrite ?(contains_app_l _ _ _ H1), ?(contains_app_l _ _ _ H2);
    rewrite ?contains_app_r by (by vm_compute); done.
Qed.

Lemma gitignore_after_idempotent v :
  gitignore_after (gitignore_after v) = gitignore_after v.
Proof.
  destruct (missing_entries (gitignore_text v)) as [|e new] eqn:Hnew.
  - assert (gitignore_after v = v) as Hv by (unfold gitignore_after; by rewrite Hnew).
    by rewrite !Hv.
  - assert (gitignore_after v
            = Some (File (gitignore_text v +:+ gitignore_block (e :: new)))) as Hv.
    { unfold gitignore_after. by rewrite Hnew. }
    rewrite Hv. unfold gitignore_after. cbn [gitignore_text].
    destruct (missing_after_block (gitignore_text v)) as [H|H]; [|congruence].
    rewrite Hnew in H. by rewrite H.
Qed.

Section Again.
Variable json_loads : string → outcome json.
Variable json_dumps : json → outcome string.
Variables PROFILES_DIR BUILTIN_PROFILES_DIR : path.

Lemma apply_profile_gitignore name variant d f :
  (apply_profile json_loads json_dumps PROFILES_DIR BUILTIN_PROFILES_DIR
     name variant d false f).1 = Returns tt →
  (apply_profile json_loads json_dumps PROFILES_DIR BUILTIN_PROFILES_DIR
     name variant d false f).2 !! (d ++ [".gitignore"])
  = gitignore_after (f !! (d ++ [".gitignore"])).
Proof.
  intros Hrun. rewrite apply_profile_unfold in Hrun |- *.
  destruct (load_profile _ _ _ f name) as [P| |]; [|done..].
  destruct (resolve json_loads f name variant d) as [v| |]; [|done..].
  cbv zeta in Hrun |- *.
  rewrite apply_resolved_unfold in Hrun |- *. cbn [profile] in Hrun |- *.
  destruct (variant_config_of P v) as [vc| |]; [|done..].
  destruct (display_name_of name P v); [|done..].
  pose proof (apply_steps_gitignore json_dumps d vc _ (World f P) eq_refl) as H.
  by destruct (apply_steps json_dumps d false vc (World f P)) as [[cfg|e|] w'].
Qed.

(** X14: the update of the ignore-file is idempotent: after one completed
    run in a directory, a second completed run there -- of the same
    profile or of any other -- leaves [.gitignore] as the first run left
    it; the block of entries is not appended again. *)
Theorem gitignore_unchanged_by_second_run (name name' : string)
    (variant variant' : option string) (d : path) (f f1 : fs) :
  (apply_profile json_loads json_dumps PROFILES_DIR BUILTIN_PROFILES_DIR
     name variant d false f).1 = Returns tt →
  (apply_profile json_loads json_dumps PROFILES_DIR BUILTIN_PROFILES_DIR
     name variant d false f).2 = f1 →
  (apply_profile json_loads json_dumps PROFILES_DIR BUILTIN_PROFILES_DIR
     name' variant' d false f1).1 = Returns tt →
  (apply_profile json_loads json_dumps PROFILES_DIR BUILTIN_PROFILES_DIR
     name' variant' d false f1).2 !! (d ++ [".gitignore"])
  = f1 !! (d ++ [".gitignore"]).
Proof.
  intros Hrun Hf1 Hrun'.
  rewrite (apply_profile_gitignore _ _ _ _ Hrun').
  rewrite <- Hf1, (apply_profile_gitignore _ _ _ _ Hrun).
  apply gitignore_after_idempotent.
Qed.

End Again.

Lemma gitignore_unchanged_by_second_run_witness :
  java_applied_twice !! (["project"] ++ [".gitignore"])
  = java_applied !! (["project"] ++ [".gitignore"]).
Proof.
  apply (gitignore_unchanged_by_second_run Codec.loads Codec.dumps home_profiles
           builtin_profiles "java" "java" None None ["project"] fresh_machine
           java_applied).
  - vm_compute. reflexivity.
  - reflexivity.
  - vm_compute. reflexivity.
Defined.

(** * The merge by key *)

Lemma merged_objects field fields override base :
  default (JObj []) (Dict.get field fields) = JObj base →
  merged field (JObj fields) (JObj override) =
  match Dict.get field override with
  | Some x => if truthy x then py_update (Dict.update [] base) x
              else Returns (Dict.update [] base)
  | None => Returns (Dict.update [] base)
  end.
Proof.
  intros Hbase. unfold merged, py_get, py_getitem. unfold mbind, outcome_bind.
  rewrite Hbase. cbn [py_unpack].
  by destruct (Dict.get field override).
Qed.

(** X15: the merge of [mcp_servers], of [rules] and of [skills] is a merge
    by key in which the variant wins: for a profile whose field is a
    mapping [base] (or is absent) and a variant whose field is a mapping
    [extra] (or is absent), the merge returns a mapping that gives each key
    of [extra] the value [extra] gives it and every other key the value of
    [base]. *)
Theorem merged_variant_wins (field : string) (fields override base extra : dict) :
  default (JObj []) (Dict.get field fields) = JObj base →
  default (JObj []) (Dict.get field override) = JObj extra →
  Dict.wf base →
  Dict.wf extra →
  ∃ m, merged field (JObj fields) (JObj override) = Returns m
       ∧ ∀ k, Dict.get k m = match Dict.get k extra with
                              | Some x => Some x
                              | None => Dict.get k base
                              end.
Proof.
  intros Hbase Hextra Hwf Hwfx. rewrite (merged_objects _ _ _ _ Hbase).
  assert (∀ k, Dict.get k (Dict.update [] base) = Dict.get k base) as Hcopy.
  { intros k. rewrite get_update by done. by destruct (Dict.get k base). }
  destruct (Dict.get field override) as [x|] eqn:Hx; cbn in Hextra.
  - subst x. destruct extra as [|e extra]; cbn [truthy py_update].
    + eexists. split; [reflexivity|]. intros k. apply Hcopy.
    + eexists. split; [reflexivity|]. intros k.
      rewrite (get_update k _ (e :: extra)) by done.
      destruct (Dict.get k (e :: extra)); [done | apply Hcopy].
  - simplify_eq. eexists. split; [reflexivity|]. intros k. apply Hcopy.
Qed.

Lemma merged_variant_wins_witness :
  ∃ m, merged "rules" java_profile gradle_variant = Returns m
       ∧ ∀ k, Dict.get k m = match Dict.get k [("wrapper", JStr "Use the wrapper.")] with
                              | Some x => Some x
                              | None => Dict.get k [("style", JStr "Use records.")]
                              end.
Proof.
  apply (merged_variant_wins "rules" java_fields gradle_fields
           [("style", JStr "Use records.")] [("wrapper", JStr "Use the wrapper.")]).
  - reflexivity.
  - reflexivity.
  - refine (bool_decide_unpack _ _). vm_compute. exact I.
  - refine (bool_decide_unpack _ _). vm_compute. exact I.
Defined.

(** * The entries of a directory *)

Lemma elem_of_children f d p :
  p ∈ FS.children f d ↔ is_Some (f !! p) ∧ p ≠ [] ∧ FS.parent p = d.
Proof.
  unfold FS.children. rewrite list_elem_of_filter, list_elem_of_fmap. split.
  - intros [Hp ([q n] & -> & Hin)]. apply elem_of_map_to_list in Hin.
    split; [by exists n | done].
  - intros [[n Hn] Hp]. split; [done|]. exists (p, n). split; [done|].
    by apply elem_of_map_to_list.
Qed.

Lemma parent_child (d : path) (x : string) : FS.parent (d ++ [x]) = d.
Proof. apply removelast_last. Qed.

Lemma basename_child (d : path) (x : string) : FS.basename (d ++ [x]) = x.
Proof. apply last_last. Qed.

Lemma child_of (p d : path) : p ≠ [] → FS.parent p = d → p = d ++ [FS.basename p].
Proof. intros Hp <-. by apply app_removelast_last. Qed.

Lemma flat_map_singleton {A} (l : list A) : flat_map (λ x, [x]) l = l.
Proof. induction l as [|x l IH]; simpl; [done | by rewrite IH]. Qed.

(** The matches of a pattern of one part with a wildcard. *)
Lemma elem_of_glob f d pat p :
  FS.parts pat = [pat] → FS.has_magic pat = true →
  p ∈ FS.glob f d pat
  ↔ FS.is_dir f d = true
    ∧ ∃ x, p = d ++ [x] ∧ is_Some (f !! p) ∧ FS.fnmatch pat x = true.
Proof.
  intros Hparts Hmagic. unfold FS.glob. rewrite Hparts. cbn [FS.expand].
  rewrite Hmagic. destruct (FS.is_dir f d).
  - change (flat_map (FS.expand f []) ?l) with (flat_map (λ x : path, [x]) l).
    rewrite flat_map_singleton, list_elem_of_filter, elem_of_children. split.
    + intros (Hm & Hsome & Hne & Hpar). split; [done|].
      exists (FS.basename p). split; [by apply child_of | done].
    + intros (_ & x & -> & Hsome & Hm).
      rewrite basename_child, parent_child. split; [done|]. split; [done|].
      split; [by destruct d | done].
  - split; [by intros ?%elem_of_nil | by intros [? _]].
Qed.

Lemma fnmatch_star pat name :
  FS.fnmatch (String "*" pat) name =
  FS.fnmatch pat name ||
  match name with
  | EmptyString => false
  | String _ name' => FS.fnmatch (String "*" pat) name'
  end.
Proof. by destruct name. Qed.

Lemma fnmatch_star_suffix pat sfx :
  (∀ b, FS.fnmatch pat b = true ↔ b = sfx) →
  ∀ name, FS.fnmatch (String "*" pat) name = true ↔ ∃ a, name = a +:+ sfx.
Proof.
  intros Hpat name. split.
  - induction name as [|c name IH]; rewrite fnmatch_star.
    + rewrite orb_false_r. intros ->%Hpat. by exists "".
    + intros [->%Hpat|H]%orb_true_iff; [by exists ""|].
      destruct (IH H) as [a ->]. by exists (String c a).
  - intros [a ->]. induction a as [|c a IH]; rewrite fnmatch_star.
    + apply orb_true_iff. left. by apply Hpat.
    + apply orb_true_iff. right. exact IH.
Qed.

Ltac andb_hyp H :=
  repeat (let H1 := fresh in
          apply andb_true_iff in H as [H1 H]; apply Ascii.eqb_eq in H1; subst).

Lemma fnmatch_json b : FS.fnmatch ".json" b = true ↔ b = ".json".
Proof.
  cbn [FS.fnmatch].
  do 5 (destruct b as [|? b]; [split; [intros H; andb_hyp H; done | done]|]).
  split.
  - intros H. andb_hyp H. by apply String.eqb_eq in H as ->.
  - intros H. by simplify_eq.
Qed.

Lemma fnmatch_md b : FS.fnmatch ".md" b = true ↔ b = ".md".
Proof.
  cbn [FS.fnmatch].
  do 3 (destruct b as [|? b]; [split; [intros H; andb_hyp H; done | done]|]).
  split.
  - intros H. andb_hyp H. by apply String.eqb_eq in H as ->.
  - intros H. by simplify_eq.
Qed.

(** * The stem of a name *)

Lemma rsplit_dot_app b a :
  rsplit_dot a = None → rsplit_dot (b +:+ "." +:+ a) = Some (b, a).
Proof.
  intros Ha. induction b as [|c b IH].
  - change ("" +:+ "." +:+ a) with (String "." a). cbn [rsplit_dot]. by rewrite Ha.
  - change (String c b +:+ "." +:+ a) with (String c (b +:+ "." +:+ a)).
    cbn [rsplit_dot]. by rewrite IH.
Qed.

Lemma rsplit_dot_spec name : ∀ b a,
  rsplit_dot name = Some (b, a) → name = b +:+ "." +:+ a.
Proof.
  induction name as [|c name IH]; intros b a; cbn [rsplit_dot]; [done|].
  destruct (rsplit_dot name) as [[b' a']|].
  - intros [= <- <-]. by rewrite (IH b' a' eq_refl).
  - destruct (Ascii.eqb_spec c "."); [|done]. by intros [= <- <-]; subst.
Qed.

Lemma stem_suffixed n ext :
  rsplit_dot ext = None → ext ≠ "" →
  stem (n +:+ "." +:+ ext) =
  if String.eqb n "" then Returns (n +:+ "." +:+ ext)
  else if only_dots n then Unsupported else Returns n.
Proof.
  intros Hext Hne. unfold stem. rewrite rsplit_dot_app by done.
  destruct (String.eqb n ""); [done|].
  destruct (only_dots n); by destruct ext.
Qed.

Lemma ordinary_stem n ext :
  ordinary n = true → rsplit_dot ext = None → ext ≠ "" →
  stem (n +:+ "." +:+ ext) = Returns n.
Proof.
  intros Hn Hext Hne. rewrite stem_suffixed by done.
  destruct n as [|c n]; [done|]. cbn [String.eqb only_dots].
  cbn [ordinary] in Hn. apply andb_true_iff in Hn as [Hdot _].
  apply negb_true_iff in Hdot. by rewrite Hdot.
Qed.

Lemma prefix_one x c s :
  String.prefix (String x "") (String c s) = if ascii_dec x c then true else false.
Proof. cbn [String.prefix]. destruct (ascii_dec x c); [by destruct s | done]. Qed.

(** The stem starts as the name does. *)
Lemma stem_first name n :
  stem name = Returns n → String.prefix "_" name = false → String.prefix "_" n = false.
Proof.
  unfold stem. destruct (rsplit_dot name) as [[b a]|] eqn:Hsplit; [|by intros [= <-]].
  apply rsplit_dot_spec in Hsplit. subst name.
  destruct b as [|c b]; cbn [String.eqb]; [by intros [= <-]|].
  change (String c b +:+ "." +:+ a) with (String c (b +:+ "." +:+ a)).
  destruct (only_dots (String c b)), (String.eqb a ""); try done; intros [= <-];
    by rewrite ?prefix_one.
Qed.

Lemma map_outcome_spec {X Y} (g : X → outcome Y) l : ∀ ys,
  map_outcome g l = Returns ys → Forall2 (λ x y, g x = Returns y) l ys.
Proof.
  induction l as [|x l IH]; intros ys; cbn [map_outcome].
  - intros [= <-]. constructor.
  - unfold mbind, outcome_bind. destruct (g x) as [y| |] eqn:Hy; [|done..].
    destruct (map_outcome g l) as [ys'| |]; [|done..].
    intros [= <-]. constructor; [done | by apply IH].
Qed.

Lemma string_le_total : Total string_le.
Proof. intros a b. apply leb_total. Qed.

(** * The profiles that are listed *)

Section Listing.
Variables PROFILES_DIR BUILTIN_PROFILES_DIR : path.

(** X16: the list [list_profiles] returns is sorted, has no name that
    starts with an underscore and, among the names that start with a
    character other than a dot and an underscore, has exactly those for
    which the profiles directory in use -- the one [load_profile] reads --
    is a directory that holds [<name>.json]. *)
Theorem list_profiles_lists_loadable (f : fs) (names : list string) :
  list_profiles PROFILES_DIR BUILTIN_PROFILES_DIR f = Returns names →
  Sorted string_le names
  ∧ (∀ n, n ∈ names → String.prefix "_" n = false)
  ∧ (∀ n, ordinary n = true →
       (n ∈ names
        ↔ FS.is_dir f (get_profiles_dir PROFILES_DIR BUILTIN_PROFILES_DIR f) = true
          ∧ is_Some (f !! (get_profiles_dir PROFILES_DIR BUILTIN_PROFILES_DIR f
                           ++ [n +:+ ".json"])))).
Proof.
  unfold list_profiles.
  set (dir := get_profiles_dir PROFILES_DIR BUILTIN_PROFILES_DIR f).
  assert (FS.is_dir f dir = true → FS.exists_ f dir = true) as Hex.
  { unfold FS.is_dir, FS.exists_. by destruct (FS.lookup f dir) as [[]|]. }
  destruct (FS.exists_ f dir).
  2:{ intros [= <-]. split; [constructor|]. split; [by intros n ?%elem_of_nil|].
      intros n _. split; [by intros ?%elem_of_nil|]. intros [Hd _]. by apply Hex in Hd. }
  unfold mbind, outcome_bind.
  destruct (map_outcome _ _) as [stems| |] eqn:Hstems; [|done..].
  intros [= <-]. apply map_outcome_spec in Hstems.
  assert (∀ n, n ∈ sorted stems ↔ n ∈ stems) as Hsorted.
  { intros n. unfold sorted. by rewrite merge_sort_Permutation. }
  assert (∀ p, p ∈ List.filter (λ p, negb (String.prefix "_" (FS.basename p)))
                     (FS.glob f dir "*.json")
               ↔ String.prefix "_" (FS.basename p) = false
                 ∧ FS.is_dir f dir = true
                 ∧ ∃ a, p = dir ++ [a +:+ ".json"] ∧ is_Some (f !! p)) as Hglob.
  { intros p. rewrite list_elem_of_In, filter_In, <- list_elem_of_In, negb_true_iff.
    rewrite elem_of_glob by by vm_compute. split.
    - intros [(Hd & x & -> & Hsome & Hm) Hu]. split; [done|]. split; [done|].
      apply (fnmatch_star_suffix ".json" ".json" fnmatch_json) in Hm as [a ->].
      by exists a.
    - intros (Hu & Hd & a & -> & Hsome). split; [|done]. split; [done|].
      exists (a +:+ ".json"). split; [done|]. split; [done|].
      apply (fnmatch_star_suffix ".json" ".json" fnmatch_json). by exists a. }
  split; [apply Sorted_merge_sort, string_le_total|]. split.
  - intros n [i Hi]%Hsorted%list_elem_of_lookup.
    destruct (Forall2_lookup_r _ _ _ _ _ Hstems Hi) as (p & Hp & Hstem).
    apply list_elem_of_lookup_2, Hglob in Hp as (Hu & _).
    by apply (stem_first _ _ Hstem).
  - intros n Hn. rewrite Hsorted. split.
    + intros [i Hi]%list_elem_of_lookup.
      destruct (Forall2_lookup_r _ _ _ _ _ Hstems Hi) as (p & Hp & Hstem).
      apply list_elem_of_lookup_2, Hglob in Hp as (Hu & Hd & a & -> & Hsome).
      split; [done|]. rewrite basename_child in Hstem.
      change (a +:+ ".json") with (a +:+ "." +:+ "json") in Hstem.
      rewrite stem_suffixed in Hstem by done.
      destruct (String.eqb_spec a "") as [->|Ha].
      * injection Hstem as <-. done.
      * destruct (only_dots a); [done|]. by injection Hstem as ->.
    + intros [Hd Hsome].
      assert (dir ++ [n +:+ ".json"]
              ∈ List.filter (λ p, negb (String.prefix "_" (FS.basename p)))
                  (FS.glob f dir "*.json")) as [i Hi]%list_elem_of_lookup.
      { apply Hglob. split; [|split; [done | by exists n]].
        rewrite basename_child. destruct n as [|c n]; [done|].
        cbn [ordinary] in Hn. apply andb_true_iff in Hn as [_ Hu].
        apply negb_true_iff, Ascii.eqb_neq in Hu.
        change (String c n +:+ ".json") with (String c (n +:+ ".json")).
        rewrite prefix_one. destruct (ascii_dec "_" c); [congruence | done]. }
      destruct (Forall2_lookup_l _ _ _ _ _ Hstems Hi) as (n' & Hn' & Hstem).
      rewrite basename_child in Hstem.
      change (n +:+ ".json") with (n +:+ "." +:+ "json") in Hstem.
      rewrite ordinary_stem in Hstem by done. injection Hstem as <-.
      by eapply list_elem_of_lookup_2.
Qed.

End Listing.

Lemma list_profiles_lists_loadable_witness :
  list_profiles home_profiles builtin_profiles fresh_machine = Returns ["java"; "web"]
  ∧ Sorted string_le ["java"; "web"]
  ∧ (∀ n, n ∈ ["java"; "web"] → String.prefix "_" n = false)
  ∧ (∀ n, ordinary n = true →
       (n ∈ ["java"; "web"]
        ↔ FS.is_dir fresh_machine
            (get_profiles_dir home_profiles builtin_profiles fresh_machine) = true
          ∧ is_Some (fresh_machine
                     !! (get_profiles_dir home_profiles builtin_profiles fresh_machine
                         ++ [n +:+ ".json"])))).
Proof.
  split; [vm_compute; reflexivity|].
  apply (list_profiles_lists_loadable home_profiles builtin_profiles fresh_machine).
  vm_compute. reflexivity.
Defined.

(** * The installation of the built-in profiles *)

Lemma write_text_insert f p s f' :
  FS.write_text f p s = Returns f' → f' = <[p := File s]> f.
Proof.
  unfold FS.write_text, FS.put.
  destruct (FS.lookup f p) as [[]|]; try done;
    destruct (FS.lookup f (FS.parent p)) as [[]|]; try done; by intros [= <-].
Qed.

Lemma kept_is_dir f f' p : kept f f' → FS.is_dir f p = true → FS.is_dir f' p = true.
Proof.
  intros Hk. unfold FS.is_dir, FS.lookup. destruct p as [|c p]; [done|].
  destruct (f !! (c :: p)) as [[]|] eqn:Hp; try done. intros _.
  destruct (Hk _ _ Hp) as (n' & -> & Hn'). by destruct n'.
Qed.

Section Init.
Variables PROFILES_DIR BUILTIN_PROFILES_DIR : path.

(** One copy: the file that is written and what is written to it. *)
Lemma copy_profile_inv g y g' :
  copy_profile PROFILES_DIR g (BUILTIN_PROFILES_DIR ++ [y]) = Returns g' →
  FS.plain_name y = true
  ∧ ∃ c target,
      g !! (BUILTIN_PROFILES_DIR ++ [y]) = Some (File c)
      ∧ target = (if FS.is_dir g (PROFILES_DIR ++ [y])
                  then PROFILES_DIR ++ [y; y] else PROFILES_DIR ++ [y])
      ∧ g' = <[target := File c]> g
      ∧ kept g g'.
Proof.
  unfold copy_profile, FS.child. rewrite basename_child.
  destruct (FS.plain_name y); [|done]. cbn [mbind outcome_bind].
  destruct (bool_decide _); [done|]. intros Hcopy.
  pose proof (copy2_kept _ _ _ _ Hcopy) as Hkept.
  unfold FS.copy2, FS.read_text in Hcopy. rewrite lookup_child, basename_child in Hcopy.
  destruct (g !! (BUILTIN_PROFILES_DIR ++ [y])) as [[c|]|]; try done.
  cbn [mbind outcome_bind] in Hcopy. apply write_text_insert in Hcopy.
  split; [done|]. exists c. eexists. split; [done|]. split; [reflexivity|].
  split; [|done]. rewrite Hcopy. by destruct (FS.is_dir g _); rewrite <- ?app_assoc.
Qed.

Lemma copy_profiles_cons g p l :
  copy_profiles PROFILES_DIR g (p :: l) =
  match copy_profile PROFILES_DIR g p with
  | Returns g' => copy_profiles PROFILES_DIR g' l
  | Raises e => (Raises e, g)
  | Unsupported => (Unsupported, g)
  end.
Proof. done. Qed.

Lemma copy_profiles_kept l : ∀ g, kept g (copy_profiles PROFILES_DIR g l).2.
Proof.
  induction l as [|p l IH]; intros g; [apply kept_refl|].
  rewrite copy_profiles_cons.
  destruct (copy_profile PROFILES_DIR g p) as [g'| |] eqn:Hp; [|apply kept_refl..].
  eapply kept_trans; [|apply IH].
  unfold copy_profile in Hp. destruct (FS.child _ _); cbn [mbind outcome_bind] in Hp;
    [|done..].
  destruct (bool_decide _); [done|]. by eapply copy2_kept.
Qed.

(** A path that no copy writes. *)
Lemma copy_profiles_other q l : ∀ g,
  (∀ p, p ∈ l → ∃ y, p = BUILTIN_PROFILES_DIR ++ [y]
                     ∧ q ≠ PROFILES_DIR ++ [y] ∧ q ≠ PROFILES_DIR ++ [y; y]) →
  (copy_profiles PROFILES_DIR g l).2 !! q = g !! q.
Proof.
  induction l as [|p l IH]; intros g Hl; [done|].
  rewrite copy_profiles_cons.
  destruct (Hl p) as (y & -> & Hq1 & Hq2); [left|].
  destruct (copy_profile _ g _) as [g'| |] eqn:Hp; [|done..].
  rewrite IH by (intros p' Hp'; apply Hl; by right).
  apply copy_profile_inv in Hp as (_ & c & target & _ & -> & -> & _).
  apply lookup_insert_ne. by destruct (FS.is_dir g _).
Qed.

Lemma cmd_init_runs force f :
  FS.exists_ f PROFILES_DIR = false ∨ force = true →
  cmd_init PROFILES_DIR BUILTIN_PROFILES_DIR force f =
  match FS.mkdir f PROFILES_DIR with
  | Returns f' =>
      copy_profiles PROFILES_DIR f' (FS.glob f' BUILTIN_PROFILES_DIR "*.json")
  | Raises e => (Raises e, f)
  | Unsupported => (Unsupported, f)
  end.
Proof.
  intros H. unfold cmd_init.
  by destruct H as [->| ->]; rewrite ?andb_false_r.
Qed.

(** X17: [cmd_init] leaves the user's own profiles alone: a path of the
    profiles directory whose name is not the name of an entry of the
    built-in directory holds after [cmd_init] what it held before,
    with [--force] or without, whether the command completes or
    raises. *)
Theorem cmd_init_keeps_own_profiles (force : bool) (f : fs) (x : string) :
  ¬ BUILTIN_PROFILES_DIR `prefix_of` PROFILES_DIR →
  f !! (BUILTIN_PROFILES_DIR ++ [x]) = None →
  (cmd_init PROFILES_DIR BUILTIN_PROFILES_DIR force f).2 !! (PROFILES_DIR ++ [x])
  = f !! (PROFILES_DIR ++ [x]).
Proof.
  intros Hdisj Hx. unfold cmd_init.
  destruct (FS.exists_ f PROFILES_DIR && negb force); [done|].
  destruct (FS.mkdir f PROFILES_DIR) as [f1| |] eqn:Hmk; [|done..].
  assert (∀ q, ¬ q `prefix_of` PROFILES_DIR → f1 !! q = f !! q) as Hsame.
  { intros q Hq. by eapply mkdir_other. }
  rewrite copy_profiles_other.
  - apply Hsame. intros [r Hr]. apply (f_equal length) in Hr.
    rewrite !length_app in Hr. simpl in Hr. lia.
  - intros p Hp. apply elem_of_glob in Hp as (_ & y & -> & Hsome & _); [|by vm_compute..].
    exists y. split; [done|]. split.
    + intros Heq. apply app_inj_tail in Heq as [_ <-].
      rewrite Hsame, Hx in Hsome; [by destruct Hsome|].
      intros [r Hr]. apply Hdisj. exists ([x] ++ r). by rewrite app_assoc.
    + intros Heq. apply (f_equal length) in Heq. rewrite !length_app in Heq.
      simpl in Heq. lia.
Qed.

Section Install.
Hypothesis apart_1 : ¬ PROFILES_DIR `prefix_of` BUILTIN_PROFILES_DIR.
Hypothesis apart_2 : ¬ BUILTIN_PROFILES_DIR `prefix_of` PROFILES_DIR.
Variables (x : string) (s : string).

Lemma copy_step g y g' :
  copy_profile PROFILES_DIR g (BUILTIN_PROFILES_DIR ++ [y]) = Returns g' →
  g !! (BUILTIN_PROFILES_DIR ++ [x]) = Some (File s) →
  g !! (PROFILES_DIR ++ [x]) ≠ Some Dir →
  g' !! (BUILTIN_PROFILES_DIR ++ [x]) = Some (File s)
  ∧ (if decide (y = x)
     then g' !! (PROFILES_DIR ++ [x]) = Some (File s) ∧ FS.plain_name x = true
     else g' !! (PROFILES_DIR ++ [x]) = g !! (PROFILES_DIR ++ [x])).
Proof.
  intros Hcopy Hsrc Hdst.
  apply copy_profile_inv in Hcopy as (Hplain & c & target & Hc & Ht & -> & _).
  assert (target ≠ BUILTIN_PROFILES_DIR ++ [x]) as Hne.
  { rewrite Ht. destruct (FS.is_dir g _); intros Heq.
    - apply apart_1. exists [y].
      change (PROFILES_DIR ++ [y; y]) with (PROFILES_DIR ++ [y] ++ [y]) in Heq.
      rewrite app_assoc in Heq. by apply app_inj_tail in Heq as [<- _].
    - apply app_inj_tail in Heq as [Heq _]. apply apart_1. rewrite Heq. done. }
  split; [by rewrite lookup_insert_ne|].
  destruct (decide (y = x)) as [->|Hy].
  - rewrite Hsrc in Hc. injection Hc as <-.
    assert (FS.is_dir g (PROFILES_DIR ++ [x]) = false) as Hd.
    { unfold FS.is_dir. rewrite lookup_child.
      by destruct (g !! (PROFILES_DIR ++ [x])) as [[]|]. }
    rewrite Hd in Ht. subst target. by rewrite lookup_insert_eq.
  - apply lookup_insert_ne. rewrite Ht. destruct (FS.is_dir g _); intros Heq.
    + apply (f_equal length) in Heq. rewrite !length_app in Heq. simpl in Heq. lia.
    + by apply app_inj_tail in Heq as [_ ?].
Qed.

Lemma copy_profiles_stays l : ∀ g,
  (∀ p, p ∈ l → ∃ y, p = BUILTIN_PROFILES_DIR ++ [y]) →
  g !! (BUILTIN_PROFILES_DIR ++ [x]) = Some (File s) →
  g !! (PROFILES_DIR ++ [x]) = Some (File s) →
  (copy_profiles PROFILES_DIR g l).1 = Returns tt →
  (copy_profiles PROFILES_DIR g l).2 !! (PROFILES_DIR ++ [x]) = Some (File s).
Proof.
  induction l as [|p l IH]; intros g Hl Hsrc Hdst; [done|].
  rewrite copy_profiles_cons.
  destruct (Hl p) as (y & ->); [left|].
  destruct (copy_profile _ g _) as [g'| |] eqn:Hp; [|done..].
  destruct (copy_step g y g' Hp Hsrc) as [Hsrc' Hdst']; [by rewrite Hdst|].
  apply IH; [intros p' Hp'; apply Hl; by right | done |].
  destruct (decide (y = x)); [by destruct Hdst' | by rewrite Hdst'].
Qed.

Lemma copy_profiles_installs l : ∀ g,
  (∀ p, p ∈ l → ∃ y, p = BUILTIN_PROFILES_DIR ++ [y]) →
  BUILTIN_PROFILES_DIR ++ [x] ∈ l →
  g !! (BUILTIN_PROFILES_DIR ++ [x]) = Some (File s) →
  g !! (PROFILES_DIR ++ [x]) ≠ Some Dir →
  (copy_profiles PROFILES_DIR g l).1 = Returns tt →
  (copy_profiles PROFILES_DIR g l).2 !! (PROFILES_DIR ++ [x]) = Some (File s)
  ∧ FS.plain_name x = true.
Proof.
  induction l as [|p l IH]; intros g Hl Hin Hsrc Hdst; [by apply elem_of_nil in Hin|].
  rewrite copy_profiles_cons.
  destruct (Hl p) as (y & ->); [left|].
  destruct (copy_profile _ g _) as [g'| |] eqn:Hp; [|done..].
  destruct (copy_step g y g' Hp Hsrc Hdst) as [Hsrc' Hdst'].
  assert (∀ p', p' ∈ l → ∃ y', p' = BUILTIN_PROFILES_DIR ++ [y']) as Hl'.
  { intros p' Hp'. apply Hl. by right. }
  intros Hrun. destruct (decide (y = x)) as [->|Hy].
  - destruct Hdst' as [Hdst' Hplain]. split; [|done].
    by apply copy_profiles_stays.
  - apply IH; try done.
    + apply elem_of_cons in Hin as [Heq|Hin]; [|done].
      by apply app_inj_tail in Heq as [_ ->].
    + by rewrite Hdst'.
Qed.

End Install.

Variable json_loads : string → outcome json.

(** X18: where the command runs -- with [--force], or with no profiles
    directory yet -- and completes, and the two directories lie apart,
    [cmd_init] copies every built-in profile: the profiles directory is a
    directory afterwards and holds, under the same name, the content of
    each file [<name>.json] of the built-in directory (unless a directory
    of that name was in the way), so that [load_profile] now decodes that
    content. *)
Theorem cmd_init_installs_builtin (force : bool) (f : fs) (n s : string) :
  ¬ PROFILES_DIR `prefix_of` BUILTIN_PROFILES_DIR →
  ¬ BUILTIN_PROFILES_DIR `prefix_of` PROFILES_DIR →
  FS.exists_ f PROFILES_DIR = false ∨ force = true →
  FS.is_dir f BUILTIN_PROFILES_DIR = true →
  f !! (BUILTIN_PROFILES_DIR ++ [n +:+ ".json"]) = Some (File s) →
  f !! (PROFILES_DIR ++ [n +:+ ".json"]) ≠ Some Dir →
  (cmd_init PROFILES_DIR BUILTIN_PROFILES_DIR force f).1 = Returns tt →
  FS.is_dir (cmd_init PROFILES_DIR BUILTIN_PROFILES_DIR force f).2 PROFILES_DIR = true
  ∧ (cmd_init PROFILES_DIR BUILTIN_PROFILES_DIR force f).2
      !! (PROFILES_DIR ++ [n +:+ ".json"]) = Some (File s)
  ∧ load_profile json_loads PROFILES_DIR BUILTIN_PROFILES_DIR
      (cmd_init PROFILES_DIR BUILTIN_PROFILES_DIR force f).2 n
    = json_loads s.
Proof.
  intros H1 H2 Hforce Hdir Hsrc Hdst. rewrite (cmd_init_runs _ _ Hforce).
  destruct (FS.mkdir f PROFILES_DIR) as [f1| |] eqn:Hmk; [|done..]. intros Hrun.
  assert (PROFILES_DIR ≠ []) as Hne.
  { intros Heq. apply H1. rewrite Heq. apply prefix_nil. }
  assert (∀ q, ¬ q `prefix_of` PROFILES_DIR → f1 !! q = f !! q) as Hsame.
  { intros q Hq. by eapply mkdir_other. }
  assert (FS.is_dir f1 BUILTIN_PROFILES_DIR = true) as Hdir1.
  { eapply kept_is_dir; [|exact Hdir]. by eapply mkdir_from_kept. }
  set (l := FS.glob f1 BUILTIN_PROFILES_DIR "*.json") in *.
  destruct (copy_profiles_installs H1 H2 (n +:+ ".json") s l f1) as [Hfile Hplain];
    try done.
  - intros p Hp. apply elem_of_glob in Hp as (_ & y & -> & _); [|by vm_compute..].
    by exists y.
  - apply elem_of_glob; [by vm_compute..|]. split; [done|].
    exists (n +:+ ".json"). split; [done|]. split.
    + rewrite Hsame; [by rewrite Hsrc|].
      intros [r Hr]. apply H2. exists ([n +:+ ".json"] ++ r). by rewrite app_assoc.
    + apply (fnmatch_star_suffix ".json" ".json" fnmatch_json). by exists n.
  - rewrite Hsame; [done|].
    intros [r Hr]. apply H2. exists ([n +:+ ".json"] ++ r). by rewrite app_assoc.
  - rewrite Hsame; [done|].
    intros [r Hr]. apply (f_equal length) in Hr. rewrite !length_app in Hr.
    simpl in Hr. lia.
  - assert (FS.is_dir (copy_profiles PROFILES_DIR f1 l).2 PROFILES_DIR = true) as Hpd.
    { eapply kept_is_dir; [apply copy_profiles_kept|].
      unfold FS.is_dir, FS.lookup. rewrite (mkdir_at _ _ _ Hmk Hne).
      by destruct PROFILES_DIR. }
    split; [done|]. split; [done|].
    unfold load_profile, get_profiles_dir, FS.child.
    assert (FS.exists_ (copy_profiles PROFILES_DIR f1 l).2 PROFILES_DIR = true) as ->.
    { unfold FS.is_dir in Hpd. unfold FS.exists_.
      by destruct (FS.lookup _ PROFILES_DIR). }
    rewrite Hplain. cbn [mbind outcome_bind].
    unfold FS.exists_, FS.read_text. by rewrite lookup_child, Hfile.
Qed.

End Init.

Lemma cmd_init_keeps_own_profiles_witness :
  (cmd_init home_profiles builtin_profiles true machine_with_own).2
    !! (home_profiles ++ ["mine.json"])
  = machine_with_own !! (home_profiles ++ ["mine.json"]).
Proof.
  apply (cmd_init_keeps_own_profiles home_profiles builtin_profiles true
           machine_with_own "mine.json").
  - intros [r Hr]. vm_compute in Hr. discriminate.
  - vm_compute. reflexivity.
Defined.

Lemma cmd_init_installs_builtin_witness :
  FS.is_dir (cmd_init home_profiles builtin_profiles false fresh_machine).2
    home_profiles = true
  ∧ (cmd_init home_profiles builtin_profiles false fresh_machine).2
      !! (home_profiles ++ ["java" +:+ ".json"])
    = Some (File (default "" (returned (Codec.dumps java_profile))))
  ∧ load_profile Codec.loads home_profiles builtin_profiles
      (cmd_init home_profiles builtin_profiles false fresh_machine).2 "java"
    = Codec.loads (default "" (returned (Codec.dumps java_profile))).
Proof.
  apply (cmd_init_installs_builtin home_profiles builtin_profiles Codec.loads
           false fresh_machine "java").
  - intros [r Hr]. vm_compute in Hr. discriminate.
  - intros [r Hr]. vm_compute in Hr. discriminate.
  - left. vm_compute. reflexivity.
  - vm_compute. reflexivity.
  - vm_compute. reflexivity.
  - vm_compute. discriminate.
  - vm_compute. reflexivity.
Defined.

(** * The comparison after a run *)

(** A fact about the files that holds on as long as nothing is removed. *)
Lemma hoare_kept {A : Type} (Q : fs → Prop) (m : prog A) :
  (∀ f f', kept f f' → Q f → Q f') → keeps m →
  hoare (λ w, Q (files w)) m (λ _ w, Q (files w)) (λ _, True).
Proof.
  intros HQ Hm w Hw. specialize (Hm w).
  destruct (m w) as [[a|e|] w']; simpl in Hm; [|done..]. by eapply HQ.
Qed.

Lemma for_each_establishes {T : Type} (l : list T) (body : T → prog unit) (Q : T → fs → Prop) :
  (∀ x f f', kept f f' → Q x f → Q x f') →
  (∀ x, keeps (body x)) →
  (∀ x, x ∈ l → hoare (λ _, True) (body x) (λ _ w, Q x (files w)) (λ _, True)) →
  hoare (λ _, True) (for_each l body) (λ _ w, ∀ x, x ∈ l → Q x (files w)) (λ _, True).
Proof.
  intros HQ Hkeeps. induction l as [|x l IH]; intros Hbody.
  { intros w _. simpl. by intros x ?%elem_of_nil. }
  cbn [for_each]. eapply hoare_bind; [apply Hbody; left|]. intros u.
  eapply hoare_post; [|eapply hoare_pre; [|apply hoare_and;
    [apply (hoare_kept (Q x) _ (HQ x)), keeps_for_each, Hkeeps
    |apply IH; intros y Hy; apply Hbody; by right]]].
  - intros _ w [H0 Hrest] y [->|Hin]%elem_of_cons; [exact H0 | by apply Hrest].
  - by intros w Hw.
Qed.

Lemma write_text_parent f p s f' :
  FS.write_text f p s = Returns f' → FS.is_dir f' (FS.parent p) = true.
Proof.
  intros Hw. pose proof (write_text_kept _ _ _ _ Hw) as Hk.
  apply (kept_is_dir _ _ _ Hk).
  unfold FS.write_text, FS.put in Hw. unfold FS.is_dir.
  destruct (FS.lookup f p) as [[]|]; try done;
    by destruct (FS.lookup f (FS.parent p)) as [[]|].
Qed.

Lemma mkdir_from_prefix rest : ∀ f above f' pre,
  FS.mkdir_from f above rest = Returns f' → pre ≠ [] → pre `prefix_of` rest →
  f' !! (above ++ pre) = Some Dir.
Proof.
  induction rest as [|c rest IH]; intros f above f' pre H Hne [r Hr].
  { by destruct pre. }
  destruct pre as [|c' pre]; [done|]. injection Hr as <- Hr.
  simpl in H. rewrite lookup_child in H.
  assert (∀ g, g !! (above ++ [c]) = Some Dir →
               FS.mkdir_from g (above ++ [c]) rest = Returns f' →
               f' !! (above ++ c :: pre) = Some Dir) as Hgo.
  { intros g Hg Hrun. destruct pre as [|c'' pre].
    - destruct (mkdir_from_kept _ _ _ _ Hrun _ _ Hg) as (n' & -> & Hn'). by destruct n'.
    - replace (above ++ c :: c'' :: pre) with ((above ++ [c]) ++ c'' :: pre)
        by by rewrite <- app_assoc.
      apply (IH _ _ _ _ Hrun); [done | by exists r]. }
  destruct (f !! (above ++ [c])) as [[]|] eqn:Hp; try done.
  - by apply (Hgo f).
  - apply (Hgo _ (lookup_insert_eq _ _ _) H).
Qed.

Lemma is_dir_of f p : f !! p = Some Dir → FS.is_dir f p = true.
Proof. intros H. unfold FS.is_dir, FS.lookup. destruct p; [done | by rewrite H]. Qed.

(** What the comparison looks for: the file of a rule in the directory of
    the rules, and the directory of a skill in the directory of the
    skills. *)
Section Present.
Variable d : path.

Lemma rule_present_kept k f f' :
  kept f f' →
  is_Some (f !! (d ++ [".claude"; "rules"; k +:+ ".md"]))
  ∧ FS.is_dir f (d ++ [".claude"; "rules"]) = true →
  is_Some (f' !! (d ++ [".claude"; "rules"; k +:+ ".md"]))
  ∧ FS.is_dir f' (d ++ [".claude"; "rules"]) = true.
Proof.
  intros Hk [[n Hn] Hd]. split; [|by eapply kept_is_dir].
  destruct (Hk _ _ Hn) as (n' & -> & _). by eexists.
Qed.

Lemma skill_present_kept k f f' :
  kept f f' →
  FS.is_dir f (d ++ [".claude"; "skills"; k]) = true
  ∧ FS.is_dir f (d ++ [".claude"; "skills"]) = true →
  FS.is_dir f' (d ++ [".claude"; "skills"; k]) = true
  ∧ FS.is_dir f' (d ++ [".claude"; "skills"]) = true.
Proof. intros Hk [H1 H2]. split; by eapply kept_is_dir. Qed.

Lemma write_rules_present rules :
  hoare (λ _, True) (write_rules d false rules)
    (λ _ w, ∀ x, x ∈ rules →
       is_Some (files w !! (d ++ [".claude"; "rules"; x.1 +:+ ".md"]))
       ∧ FS.is_dir (files w) (d ++ [".claude"; "rules"]) = true)
    (λ _, True).
Proof.
  unfold write_rules.
  apply (for_each_establishes rules _
           (λ x f, is_Some (f !! (d ++ [".claude"; "rules"; x.1 +:+ ".md"]))
                   ∧ FS.is_dir f (d ++ [".claude"; "rules"]) = true)).
  - intros x f f'. apply rule_present_kept.
  - intros [k c]. apply keeps_unless, keeps_bind_pure; [apply unchanged_lift|].
    intros rule_path. apply keeps_bind_pure; [apply unchanged_lift|]. intros text.
    apply keeps_writing. intros f f'. apply write_text_kept.
  - intros [k c] _ [f P] _. cbn [unless fst].
    unfold mbind, prog_bind, lift, writing, FS.child. cbn [files].
    destruct (FS.plain_name _); [|done].
    destruct (py_add_str c nl) as [text| |]; [|done..].
    destruct (FS.write_text _ _ _) as [f'| |] eqn:Hw; [|done..]. cbn [files].
    split.
    + rewrite <- app_assoc in Hw. cbn [app] in Hw.
      rewrite (write_text_at _ _ _ _ Hw). by eexists.
    + apply write_text_parent in Hw. by rewrite parent_child in Hw.
Qed.

Lemma write_skills_present skills :
  hoare (λ _, True) (write_skills d false skills)
    (λ _ w, ∀ x, x ∈ skills →
       FS.is_dir (files w) (d ++ [".claude"; "skills"; x.1]) = true
       ∧ FS.is_dir (files w) (d ++ [".claude"; "skills"]) = true)
    (λ _, True).
Proof.
  unfold write_skills.
  apply (for_each_establishes skills _
           (λ x f, FS.is_dir f (d ++ [".claude"; "skills"; x.1]) = true
                   ∧ FS.is_dir f (d ++ [".claude"; "skills"]) = true)).
  - intros x f f'. apply skill_present_kept.
  - intros [k c]. apply keeps_unless, keeps_bind_pure; [apply unchanged_lift|].
    intros skill_dir.
    apply keeps_bind; [apply keeps_writing; intros f f'; apply mkdir_from_kept|].
    intros _. apply keeps_bind_pure; [apply unchanged_lift|]. intros text.
    apply keeps_writing. intros f f'. apply write_text_kept.
  - intros [k c] _ [f P] _. cbn [unless fst].
    unfold mbind, prog_bind, lift, writing, FS.child. cbn [files].
    destruct (FS.plain_name _); [|done].
    destruct (FS.mkdir f _) as [f1| |] eqn:Hmk; [|done..]. cbn [files].
    destruct (py_add_str c nl) as [text| |]; [|done..].
    destruct (FS.write_text _ _ _) as [f2| |] eqn:Hw; [|done..]. cbn [files].
    pose proof (write_text_kept _ _ _ _ Hw) as Hk.
    rewrite <- app_assoc in Hmk. cbn [app] in Hmk.
    split; apply (kept_is_dir _ _ _ Hk), is_dir_of.
    + apply (mkdir_at _ _ _ Hmk). by destruct d.
    + apply (mkdir_from_prefix _ _ _ _ (d ++ [".claude"; "skills"]) Hmk);
        [by destruct d | by exists [k]; rewrite <- app_assoc].
Qed.

End Present.

Lemma merged_keys field P vc m base :
  merged field P vc = Returns m →
  py_get P field (JObj []) = Returns (JObj base) →
  ∀ k, k ∈ Dict.keys base → ∃ c, (k, c) ∈ m.
Proof.
  unfold merged. intros Hm Hbase k Hk. rewrite Hbase in Hm.
  cbn [mbind outcome_bind py_unpack] in Hm.
  assert (is_Some (Dict.get k (Dict.update [] base))) as Hin.
  { apply keys_update. by right. }
  assert (is_Some (Dict.get k m)) as [c Hc]; [|exists c; by apply get_elem_of].
  destruct (py_get vc field JNull) as [extra| |]; cbn [mbind outcome_bind] in Hm;
    [|done..].
  destruct (truthy extra); [|by simplify_eq].
  destruct (py_getitem vc field) as [x| |]; cbn [mbind outcome_bind] in Hm; [|done..].
  destruct x as [| | |s|l|o]; simpl in Hm; try done.
  - destruct s; by simplify_eq.
  - destruct l; by simplify_eq.
  - simplify_eq. apply keys_update. left. by apply get_Some_keys.
Qed.

Section Placed.
Variable json_dumps : json → outcome string.
Variables (d : path) (vc P : json).

Ltac keep lem :=
  eapply hoare_bind; [apply hoare_unchanged; [apply lem | done] |]; intros ?.

Ltac read :=
  eapply hoare_bind; [apply hoare_keep, unchanged_world_of_profile |]; intros ?.

(** After a completed run every rule and every skill of the effective
    configuration is where the comparison looks for it. *)
Lemma apply_steps_present :
  hoare (λ w, profile w = P) (apply_steps json_dumps d false vc)
    (λ _ w, ∃ rules skills,
       merged "rules" P vc = Returns rules
       ∧ merged "skills" P vc = Returns skills
       ∧ (∀ x, x ∈ rules →
            is_Some (files w !! (d ++ [".claude"; "rules"; x.1 +:+ ".md"]))
            ∧ FS.is_dir (files w) (d ++ [".claude"; "rules"]) = true)
       ∧ (∀ x, x ∈ skills →
            FS.is_dir (files w) (d ++ [".claude"; "skills"; x.1]) = true
            ∧ FS.is_dir (files w) (d ++ [".claude"; "skills"]) = true))
    (λ _, True).
Proof.
  unfold apply_steps.
  keep create_dirs_profile. read.
  keep write_mcp_profile. read.
  keep write_claude_md_profile.
  eapply hoare_bind; [apply hoare_of_profile; done|]. intros rules. cbv beta.
  apply (hoare_pure (merged "rules" P vc = Returns rules)).
  { intros w [Hp Hr]. rewrite <- Hp. exact Hr. }
  intros Hr.
  set (Qr := λ f : fs, ∀ x, x ∈ rules →
         is_Some (f !! (d ++ [".claude"; "rules"; x.1 +:+ ".md"]))
         ∧ FS.is_dir f (d ++ [".claude"; "rules"]) = true).
  set (Qs := λ (skills : dict) (f : fs), ∀ x, x ∈ skills →
         FS.is_dir f (d ++ [".claude"; "skills"; x.1]) = true
         ∧ FS.is_dir f (d ++ [".claude"; "skills"]) = true).
  assert (∀ f f', kept f f' → Qr f → Qr f') as Hmono_r.
  { intros f f' Hk H x Hx. eapply rule_present_kept; [exact Hk | by apply H]. }
  assert (∀ skills f f', kept f f' → Qs skills f → Qs skills f') as Hmono_s.
  { intros skills f f' Hk H x Hx. eapply skill_present_kept; [exact Hk | by apply H]. }
  eapply hoare_bind with (R := λ _ w, profile w = P ∧ Qr (files w)).
  { eapply hoare_pre; [|apply hoare_and;
      [apply (hoare_unchanged profile P); [apply write_rules_profile | done]
      |apply write_rules_present]].
    by intros w [Hp _]. }
  intros u. eapply hoare_bind; [apply hoare_of_profile; done|]. intros skills. cbv beta.
  apply (hoare_pure (merged "skills" P vc = Returns skills)).
  { intros w [[Hp _] Hs]. rewrite <- Hp. exact Hs. }
  intros Hs.
  eapply hoare_bind with (R := λ _ w, Qr (files w) ∧ Qs skills (files w)).
  { eapply hoare_pre; [|apply hoare_and;
      [apply (hoare_kept Qr _ Hmono_r), write_skills_keeps
      |apply write_skills_present]].
    by intros w [[_ Hq] _]. }
  intros u'.
  eapply hoare_post;
    [|apply (hoare_kept (λ f, Qr f ∧ Qs skills f))].
  - intros _ w [H1 H2]. by exists rules, skills.
  - intros f f' Hk [H1 H2]. split; [by eapply Hmono_r | by eapply Hmono_s].
  - apply keeps_bind_pure; [apply unchanged_files_merged_settings|]. intros settings.
    apply keeps_bind_pure; [apply unchanged_deref|]. intros value.
    apply keeps_bind; [apply write_settings_keeps|]. intros _.
    apply keeps_bind; [apply update_gitignore_keeps|]. intros _.
    apply keeps_unchanged, unchanged_ret.
Qed.

End Placed.

Section Diff.
Variable json_loads : string → outcome json.
Variable json_dumps : json → outcome string.
Variables PROFILES_DIR BUILTIN_PROFILES_DIR : path.

Lemma apply_profile_completed name variant d dry_run f :
  (apply_profile json_loads json_dumps PROFILES_DIR BUILTIN_PROFILES_DIR
     name variant d dry_run f).1 = Returns tt →
  ∃ P v vc,
    load_profile json_loads PROFILES_DIR BUILTIN_PROFILES_DIR f name = Returns P
    ∧ resolve json_loads f name variant d = Returns v
    ∧ variant_config_of P v = Returns vc.
Proof.
  rewrite apply_profile_unfold.
  destruct (load_profile _ _ _ f name) as [P| |]; [|done..].
  destruct (resolve json_loads f name variant d) as [v| |]; [|done..].
  cbv zeta. rewrite apply_resolved_unfold. cbn [profile].
  destruct (variant_config_of P v) as [vc| |] eqn:Hvc; cbn [fst]; [|done..].
  intros _. by exists P, v, vc.
Qed.

Lemma cmd_diff_named name d f :
  name ≠ "auto" →
  cmd_diff json_loads PROFILES_DIR BUILTIN_PROFILES_DIR name d f =
  (profile ← load_profile json_loads PROFILES_DIR BUILTIN_PROFILES_DIR f name;
   diff_loaded json_loads profile d f).
Proof.
  intros Hname. unfold cmd_diff.
  by destruct (String.eqb_spec name "auto").
Qed.

Lemma diff_loaded_inv P d f rep :
  diff_loaded json_loads P d f = Returns rep →
  diff_mcp json_loads P d f = Returns (mcp_report rep)
  ∧ diff_rules P d f = Returns (missing_rules rep)
  ∧ diff_skills P d f = Returns (missing_skills rep).
Proof.
  unfold diff_loaded, mbind, outcome_bind.
  destruct (diff_mcp json_loads P d f); [|done..].
  destruct (diff_rules P d f); [|done..].
  destruct (diff_skills P d f); [|done..].
  by intros [= <-].
Qed.

Lemma py_keys_inv v ks : py_keys v = Returns ks → ∃ o, v = JObj o ∧ ks = Dict.keys o.
Proof. destruct v; try done. intros [= <-]. by eexists. Qed.

(** With every rule of the profile in place, only a rule whose name is
    empty can be reported. *)
Lemma diff_rules_present P d f mr :
  (∀ base k, py_get P "rules" (JObj []) = Returns (JObj base) →
     k ∈ Dict.keys base →
     is_Some (f !! (d ++ [".claude"; "rules"; k +:+ ".md"]))
     ∧ FS.is_dir f (d ++ [".claude"; "rules"]) = true) →
  diff_rules P d f = Returns mr →
  ∀ k, k ∈ mr → k = "".
Proof.
  intros Hpresent. unfold diff_rules, mbind, outcome_bind.
  destruct (py_get P "rules" (JObj [])) as [rv| |] eqn:Hrv; [|done..].
  destruct (py_keys rv) as [pk| |] eqn:Hpk; [|done..].
  apply py_keys_inv in Hpk as (base & -> & ->).
  destruct (if FS.exists_ f _ then _ else _) as [existing| |] eqn:Hex; [|done..].
  intros [= <-] k [Hk Hnot]%elem_of_difference.
  apply elem_of_list_to_set in Hk. rewrite elem_of_list_to_set in Hnot.
  destruct (Hpresent base k eq_refl Hk) as [Hfile Hdir].
  assert (FS.exists_ f (d ++ [".claude"; "rules"]) = true) as Hexists.
  { unfold FS.is_dir in Hdir. unfold FS.exists_. by destruct (FS.lookup f _). }
  rewrite Hexists in Hex. apply map_outcome_spec in Hex.
  assert (d ++ [".claude"; "rules"; k +:+ ".md"]
          ∈ FS.glob f (d ++ [".claude"; "rules"]) "*.md") as [i Hi]%list_elem_of_lookup.
  { apply elem_of_glob; [by vm_compute..|]. split; [done|].
    exists (k +:+ ".md"). rewrite <- app_assoc. split; [done|]. split; [done|].
    apply (fnmatch_star_suffix ".md" ".md" fnmatch_md). by exists k. }
  destruct (Forall2_lookup_l _ _ _ _ _ Hex Hi) as (y & Hy & Hstem).
  replace (d ++ [".claude"; "rules"; k +:+ ".md"])
    with ((d ++ [".claude"; "rules"]) ++ [k +:+ ".md"]) in Hstem
    by by rewrite <- app_assoc.
  rewrite basename_child in Hstem.
  change (k +:+ ".md") with (k +:+ "." +:+ "md") in Hstem.
  rewrite stem_suffixed in Hstem by done.
  destruct (String.eqb_spec k ""); [done|]. exfalso.
  destruct (only_dots k); [done|]. injection Hstem as <-.
  apply Hnot. by eapply list_elem_of_lookup_2.
Qed.

Lemma diff_skills_present P d f ms :
  (∀ base k, py_get P "skills" (JObj []) = Returns (JObj base) →
     k ∈ Dict.keys base →
     FS.is_dir f (d ++ [".claude"; "skills"; k]) = true
     ∧ FS.is_dir f (d ++ [".claude"; "skills"]) = true) →
  diff_skills P d f = Returns ms →
  ms = ∅.
Proof.
  intros Hpresent. unfold diff_skills, mbind, outcome_bind.
  destruct (py_get P "skills" (JObj [])) as [sv| |] eqn:Hsv; [|done..].
  destruct (py_keys sv) as [pk| |] eqn:Hpk; [|done..].
  apply py_keys_inv in Hpk as (base & -> & ->).
  destruct (if FS.exists_ f _ then _ else _) as [existing| |] eqn:Hex; [|done..].
  intros [= <-]. apply set_eq. intros k. rewrite elem_of_difference, !elem_of_list_to_set.
  split; [|by intros ?%elem_of_empty]. intros [Hk Hnot]. exfalso. apply Hnot.
  destruct (Hpresent base k eq_refl Hk) as [Hskill Hdir].
  assert (FS.exists_ f (d ++ [".claude"; "skills"]) = true) as Hexists.
  { unfold FS.is_dir in Hdir. unfold FS.exists_. by destruct (FS.lookup f _). }
  rewrite Hexists in Hex. unfold subdirectories in Hex. rewrite Hdir in Hex.
  injection Hex as <-. apply list_elem_of_fmap.
  exists (d ++ [".claude"; "skills"; k]). split.
  - replace (d ++ [".claude"; "skills"; k]) with ((d ++ [".claude"; "skills"]) ++ [k])
      by by rewrite <- app_assoc.
    by rewrite basename_child.
  - apply list_elem_of_In, filter_In. split; [|done]. apply list_elem_of_In.
    apply elem_of_children.
    replace (d ++ [".claude"; "skills"; k]) with ((d ++ [".claude"; "skills"]) ++ [k])
      in * by by rewrite <- app_assoc.
    rewrite parent_child. split; [|split; [by destruct (d ++ [".claude"; "skills"]) | done]].
    unfold FS.is_dir in Hskill. rewrite lookup_child in Hskill.
    by destruct (f !! _).
Qed.

(** X19: a comparison right after a completed run finds the rules and the
    skills of the profile in place: where the names of the merged rules
    and skills are one step of a path each ([plain_names]) and the profile
    still loads as before, [cmd_diff] with the same profile name and
    directory, if it returns, reports no missing skill, and no missing
    rule other than a rule whose name is the empty string (its file [.md]
    has the stem [.md]). *)
Theorem diff_after_apply (name : string) (variant : option string) (d : path)
    (f : fs) (P : json) (v : option string) (vc : json) (rules skills : dict)
    (rep : report) :
  name ≠ "auto" →
  load_profile json_loads PROFILES_DIR BUILTIN_PROFILES_DIR f name = Returns P →
  resolve json_loads f name variant d = Returns v →
  variant_config_of P v = Returns vc →
  merged "rules" P vc = Returns rules →
  merged "skills" P vc = Returns skills →
  plain_names rules skills →
  (apply_profile json_loads json_dumps PROFILES_DIR BUILTIN_PROFILES_DIR
     name variant d false f).1 = Returns tt →
  load_profile json_loads PROFILES_DIR BUILTIN_PROFILES_DIR
    (apply_profile json_loads json_dumps PROFILES_DIR BUILTIN_PROFILES_DIR
       name variant d false f).2 name
  = load_profile json_loads PROFILES_DIR BUILTIN_PROFILES_DIR f name →
  cmd_diff json_loads PROFILES_DIR BUILTIN_PROFILES_DIR name d
    (apply_profile json_loads json_dumps PROFILES_DIR BUILTIN_PROFILES_DIR
       name variant d false f).2
  = Returns rep →
  missing_skills rep = ∅
  ∧ ∀ k, k ∈ missing_rules rep → k = "".
Proof.
  intros Hname Hload Hres Hvc _ _ _ Hrun Hsame Hdiff.
  destruct (apply_profile_post json_loads json_dumps PROFILES_DIR BUILTIN_PROFILES_DIR
              name variant d false f P v vc _ Hload Hres Hvc Hrun
              (hoare_pre _ _ _ _ _ (λ w (H : w = World f P), f_equal profile H)
                 (apply_steps_present json_dumps d vc P)))
    as (w & Hw & rules' & skills' & Hr & Hs & Hrules & Hskills).
  rewrite Hw in Hsame, Hdiff.
  rewrite cmd_diff_named, Hsame, Hload in Hdiff by done.
  cbn [mbind outcome_bind] in Hdiff.
  apply diff_loaded_inv in Hdiff as (_ & Hdr & Hds). split.
  - apply (diff_skills_present P d (files w)); [|done].
    intros base k Hbase Hk.
    destruct (merged_keys _ _ _ _ _ Hs Hbase k Hk) as [c Hc].
    apply (Hskills _ Hc).
  - apply (diff_rules_present P d (files w)); [|done].
    intros base k Hbase Hk.
    destruct (merged_keys _ _ _ _ _ Hr Hbase k Hk) as [c Hc].
    apply (Hrules _ Hc).
Qed.

(** X20: the comparison is with the profile alone, not with the variant
    that was applied: after a completed run that wrote the manifest of a
    non-empty merged map [m] of servers, where the manifest decodes to
    what was encoded and the profile still loads as before, [cmd_diff]
    reports as missing the servers of the profile that are not in [m] --
    those the variant excludes -- and as extra the servers of [m] that
    the profile does not have -- those the variant adds. *)
Theorem diff_reports_variant_servers (name : string) (variant : option string)
    (d : path) (f : fs) (fields : dict) (v : option string) (vc : json)
    (base m : dict) (rep : report) :
  name ≠ "auto" →
  load_profile json_loads PROFILES_DIR BUILTIN_PROFILES_DIR f name
  = Returns (JObj fields) →
  resolve json_loads f name variant d = Returns v →
  variant_config_of (JObj fields) v = Returns vc →
  default (JObj []) (Dict.get "mcp_servers" fields) = JObj base →
  merged_mcp_servers (JObj fields) vc = Returns m →
  m ≠ [] →
  (∀ text, json_dumps (JObj [("mcpServers", JObj m)]) = Returns text →
           json_loads (text +:+ nl) = Returns (JObj [("mcpServers", JObj m)])) →
  (apply_profile json_loads json_dumps PROFILES_DIR BUILTIN_PROFILES_DIR
     name variant d false f).1 = Returns tt →
  load_profile json_loads PROFILES_DIR BUILTIN_PROFILES_DIR
    (apply_profile json_loads json_dumps PROFILES_DIR BUILTIN_PROFILES_DIR
       name variant d false f).2 name
  = Returns (JObj fields) →
  cmd_diff json_loads PROFILES_DIR BUILTIN_PROFILES_DIR name d
    (apply_profile json_loads json_dumps PROFILES_DIR BUILTIN_PROFILES_DIR
       name variant d false f).2
  = Returns rep →
  mcp_report rep
  = Some (list_to_set (Dict.keys base) ∖ list_to_set (Dict.keys m),
          list_to_set (Dict.keys m) ∖ list_to_set (Dict.keys base)).
Proof.
  intros Hname Hload Hres Hvc Hbase Hm Hne Hcodec Hrun Hsame Hdiff.
  destruct (apply_profile_post json_loads json_dumps PROFILES_DIR BUILTIN_PROFILES_DIR
              name variant d false f _ v vc _ Hload Hres Hvc Hrun
              (hoare_pre _ _ _ _ _ (λ w (H : w = World f (JObj fields)), f_equal profile H)
                 (apply_steps_manifest json_dumps d vc _ m Hm Hne)))
    as (w & Hw & text & Htext & Hfile).
  rewrite Hw in Hsame, Hdiff.
  rewrite cmd_diff_named, Hsame in Hdiff by done.
  cbn [mbind outcome_bind] in Hdiff.
  apply diff_loaded_inv in Hdiff as (Hmcp & _ & _).
  unfold diff_mcp, FS.exists_, FS.read_text in Hmcp.
  unfold file_at in Hfile. rewrite lookup_child, Hfile in Hmcp.
  cbn [mbind outcome_bind] in Hmcp. rewrite (Hcodec _ Htext) in Hmcp.
  cbn [mbind outcome_bind py_get Dict.get String.eqb Ascii.eqb Bool.eqb default
       from_option id py_keys] in Hmcp.
  rewrite Hbase in Hmcp. cbn [mbind outcome_bind py_keys] in Hmcp.
  by injection Hmcp as <-.
Qed.

End Diff.

Lemma diff_after_apply_witness :
  cmd_diff Codec.loads home_profiles builtin_profiles "java" ["project"] java_applied
  = Returns java_report
  ∧ missing_skills java_report = ∅
  ∧ ∀ k, k ∈ missing_rules java_report → k = "".
Proof.
  split; [vm_compute; reflexivity|].
  apply (diff_after_apply Codec.loads Codec.dumps home_profiles builtin_profiles
           "java" None ["project"] fresh_machine java_profile (Some "gradle")
           gradle_variant
           [("style", JStr "Use records."); ("wrapper", JStr "Use the wrapper.")]
           [("build", JStr "Run the build.")] java_report).
  - discriminate.
  - vm_compute. reflexivity.
  - vm_compute. reflexivity.
  - vm_compute. reflexivity.
  - vm_compute. reflexivity.
  - vm_compute. reflexivity.
  - split; repeat constructor.
  - vm_compute. reflexivity.
  - vm_compute. reflexivity.
  - vm_compute. reflexivity.
Defined.

Lemma diff_reports_variant_servers_witness :
  mcp_report java_report
  = Some (list_to_set (Dict.keys [("docs", JObj [("command", JStr "npx")])])
            ∖ list_to_set (Dict.keys [("gradle", JObj [])]),
          list_to_set (Dict.keys [("gradle", JObj [])])
            ∖ list_to_set (Dict.keys [("docs", JObj [("command", JStr "npx")])])).
Proof.
  apply (diff_reports_variant_servers Codec.loads Codec.dumps home_profiles
           builtin_profiles "java" None ["project"] fresh_machine java_fields
           (Some "gradle") gradle_variant).
  - discriminate.
  - vm_compute. reflexivity.
  - vm_compute. reflexivity.
  - vm_compute. reflexivity.
  - reflexivity.
  - vm_compute. reflexivity.
  - discriminate.
  - intros text H. vm_compute in H. injection H as <-. vm_compute. reflexivity.
  - vm_compute. reflexivity.
  - vm_compute. reflexivity.
  - vm_compute. reflexivity.
Defined.

(** * The variant of a Python project *)

Lemma lower_app a b la lb :
  lower a = Returns la → lower b = Returns lb → lower (a +:+ b) = Returns (la +:+ lb).
Proof.
  revert la. induction a as [|c a IH]; intros la Ha Hb.
  - by injection Ha as <-.
  - change (String c a +:+ b) with (String c (a +:+ b)). cbn [lower] in Ha |- *.
    destruct (128 <=? nat_of_ascii c)%nat; [done|].
    destruct (lower a) as [la'| |]; cbn [mbind outcome_bind] in Ha; [|done..].
    injection Ha as <-. by rewrite (IH la' eq_refl Hb).
Qed.

Lemma matches_file f d name :
  FS.parts name = [name] → FS.has_magic name = false →
  f !! (d ++ [name]) = None → matches f d name = false.
Proof.
  intros Hp Hm Hnone. rewrite matches_literal by done.
  unfold FS.exists_. rewrite lookup_child, Hnone. apply andb_false_r.
Qed.

Section Python.
Variable json_loads : string → outcome json.

Lemma detect_variant_python f d :
  detect_variant json_loads f "python" d = python_variant f d.
Proof.
  unfold detect_variant. cbn [String.eqb Ascii.eqb Bool.eqb].
  rewrite bool_decide_eq_false_2; [done|].
  rewrite !elem_of_cons, elem_of_nil. by intros [?|[?|[?|[]]]].
Qed.

(** X21: for a Python project with none of [manage.py], [app.py] and
    [wsgi.py], the variant [fastapi] is found whatever the case of the
    letters: when the ASCII text of [pyproject.toml] holds, anywhere, a
    word that is [fastapi] once lowered, [detect_variant] returns
    [fastapi]. *)
Theorem fastapi_in_any_case (f : fs) (d : path) (a x b la lb : string) :
  f !! (d ++ ["manage.py"]) = None →
  f !! (d ++ ["app.py"]) = None →
  f !! (d ++ ["wsgi.py"]) = None →
  f !! (d ++ ["pyproject.toml"]) = Some (File (a +:+ x +:+ b)) →
  lower a = Returns la →
  lower x = Returns "fastapi" →
  lower b = Returns lb →
  detect_variant json_loads f "python" d = Returns (Some "fastapi").
Proof.
  intros Hm Ha Hw Hp Hla Hx Hlb. rewrite detect_variant_python. unfold python_variant.
  rewrite !matches_file by (done || by vm_compute). cbn [orb].
  unfold FS.exists_, FS.read_text. rewrite lookup_child, Hp. cbn [mbind outcome_bind].
  rewrite (lower_app _ _ _ _ Hla (lower_app _ _ _ _ Hx Hlb)). cbn [mbind outcome_bind].
  by rewrite contains_app.
Qed.

(** X22: the tests for the variant of a Python project are tried in
    order, and the first that succeeds decides: in a directory with
    [manage.py] the variant is [django], whatever else is there; with no
    [manage.py] but with [app.py] or [wsgi.py] it is [flask]; in both
    cases [pyproject.toml] is not read. *)
Theorem python_variant_precedence (f : fs) (d : path) :
  FS.is_dir f d = true →
  (is_Some (f !! (d ++ ["manage.py"])) →
   detect_variant json_loads f "python" d = Returns (Some "django"))
  ∧ (f !! (d ++ ["manage.py"]) = None →
     is_Some (f !! (d ++ ["app.py"])) ∨ is_Some (f !! (d ++ ["wsgi.py"])) →
     detect_variant json_loads f "python" d = Returns (Some "flask")).
Proof.
  intros Hd. rewrite detect_variant_python. unfold python_variant.
  rewrite !matches_literal by by vm_compute. rewrite Hd. cbn [andb].
  unfold FS.exists_. rewrite !lookup_child. split.
  - by intros [n ->].
  - intros -> [[n ->]|[n ->]]; [done|]. by destruct (f !! (d ++ ["app.py"])).
Qed.

End Python.

Lemma fastapi_in_any_case_witness :
  detect_variant Codec.loads fastapi_project "python" ["project"]
  = Returns (Some "fastapi").
Proof.
  apply (fastapi_in_any_case Codec.loads fastapi_project ["project"]
           "dependencies: " "FastAPI" ">=0.100" "dependencies: " ">=0.100").
  - vm_compute. reflexivity.
  - vm_compute. reflexivity.
  - vm_compute. reflexivity.
  - vm_compute. reflexivity.
  - vm_compute. reflexivity.
  - vm_compute. reflexivity.
  - vm_compute. reflexivity.
Defined.

Lemma python_variant_precedence_witness :
  (is_Some (django_project !! (["project"] ++ ["manage.py"])) →
   detect_variant Codec.loads django_project "python" ["project"]
   = Returns (Some "django"))
  ∧ (django_project !! (["project"] ++ ["manage.py"]) = None →
     is_Some (django_project !! (["project"] ++ ["app.py"]))
     ∨ is_Some (django_project !! (["project"] ++ ["wsgi.py"])) →
     detect_variant Codec.loads django_project "python" ["project"]
     = Returns (Some "flask")).
Proof.
  apply (python_variant_precedence Codec.loads django_project ["project"]).
  vm_compute. reflexivity.
Defined.

(** * The comparison with a manifest that is no JSON *)

Section Manifest.
Variable json_loads : string → outcome json.
Variables PROFILES_DIR BUILTIN_PROFILES_DIR : path.

(** X23: [cmd_diff] does not catch what [json.loads] raises: when the
    profile loads and [.mcp.json] is a file whose text is not JSON, the
    command ends with [JSONDecodeError] -- where [detect_variant] treats
    an unreadable [package.json] as no variant. *)
Theorem cmd_diff_malformed_manifest (name : string) (d : path) (f : fs)
    (P : json) (text : string) :
  name ≠ "auto" →
  load_profile json_loads PROFILES_DIR BUILTIN_PROFILES_DIR f name = Returns P →
  f !! (d ++ [".mcp.json"]) = Some (File text) →
  json_loads text = Raises JSONDecodeError →
  cmd_diff json_loads PROFILES_DIR BUILTIN_PROFILES_DIR name d f
  = Raises JSONDecodeError.
Proof.
  intros Hname Hload Hfile Hbad.
  rewrite cmd_diff_named, Hload by done. cbn [mbind outcome_bind].
  unfold diff_loaded, diff_mcp, FS.exists_, FS.read_text.
  rewrite lookup_child, Hfile. cbn [mbind outcome_bind]. by rewrite Hbad.
Qed.

End Manifest.

Lemma cmd_diff_malformed_manifest_witness :
  cmd_diff Codec.loads home_profiles builtin_profiles "java" ["project"] broken_manifest
  = Raises JSONDecodeError.
Proof.
  apply (cmd_diff_malformed_manifest Codec.loads home_profiles builtin_profiles
           "java" ["project"] broken_manifest java_profile "{ ").
  - discriminate.
  - vm_compute. reflexivity.
  - vm_compute. reflexivity.
  - vm_compute. reflexivity.
Defined.

(** * The directories of the rules and of the skills *)

Section Structure.
Variable json_loads : string → outcome json.
Variable json_dumps : json → outcome string.
Variables PROFILES_DIR BUILTIN_PROFILES_DIR : path.

Lemma exists_kept p f f' : kept f f' → FS.exists_ f p = true → FS.exists_ f' p = true.
Proof.
  intros Hk. unfold FS.exists_, FS.lookup. destruct p as [|c p]; [done|].
  destruct (f !! (c :: p)) as [n|] eqn:Hp; [|done]. intros _.
  by destruct (Hk _ _ Hp) as (n' & -> & _).
Qed.

Lemma create_dirs_present d :
  hoare (λ _, True) (create_dirs d false)
    (λ _ w, ∀ x, x ∈ [[".claude"; "rules"]; [".claude"; "skills"]] →
                 FS.exists_ (files w) (d ++ x) = true)
    (λ _, True).
Proof.
  unfold create_dirs.
  apply (for_each_establishes _ _ (λ x f, FS.exists_ f (d ++ x) = true)).
  - intros x f f'. apply exists_kept.
  - intros x. apply keeps_bind_pure; [apply unchanged_reading|]. intros present.
    destruct present; [apply keeps_unchanged, unchanged_ret|].
    apply keeps_unless, keeps_writing. intros f f'. apply mkdir_from_kept.
  - intros x Hx [f P] _. unfold mbind, prog_bind, reading. cbn [files].
    destruct (FS.exists_ f (d ++ x)) eqn:Hex; [done|]. cbn [unless].
    unfold writing. cbn [files].
    destruct (FS.mkdir f (d ++ x)) as [f'| |] eqn:Hmk; [|done..]. cbn [files].
    unfold FS.exists_, FS.lookup.
    assert (d ++ x ≠ []) as Hne.
    { rewrite !elem_of_cons, elem_of_nil in Hx.
      destruct Hx as [->|[->|[]]]; by destruct d. }
    rewrite (mkdir_at _ _ _ Hmk Hne). by destruct (d ++ x).
Qed.

(** X24: a completed run leaves [.claude/rules] and [.claude/skills] in
    the directory, also for a profile that has no rule and no skill: both
    paths exist afterwards. *)
Theorem structure_created (name : string) (variant : option string) (d : path) (f : fs) :
  (apply_profile json_loads json_dumps PROFILES_DIR BUILTIN_PROFILES_DIR
     name variant d false f).1 = Returns tt →
  FS.exists_ (apply_profile json_loads json_dumps PROFILES_DIR BUILTIN_PROFILES_DIR
                name variant d false f).2 (d ++ [".claude"; "rules"]) = true
  ∧ FS.exists_ (apply_profile json_loads json_dumps PROFILES_DIR BUILTIN_PROFILES_DIR
                  name variant d false f).2 (d ++ [".claude"; "skills"]) = true.
Proof.
  intros Hrun.
  destruct (apply_profile_completed _ _ _ _ _ _ _ _ _ Hrun)
    as (P & v & vc & Hload & Hres & Hvc).
  set (Q := λ g : fs, ∀ x, x ∈ [[".claude"; "rules"]; [".claude"; "skills"]] →
                           FS.exists_ g (d ++ x) = true).
  destruct (apply_profile_post json_loads json_dumps PROFILES_DIR BUILTIN_PROFILES_DIR
              name variant d false f P v vc (λ w, Q (files w)) Hload Hres Hvc Hrun)
    as (w & -> & Hw).
  - unfold apply_steps.
    eapply hoare_bind; [eapply hoare_pre; [|apply create_dirs_present]; done|].
    intros u. apply (hoare_kept Q).
    + intros g g' Hk Hg x Hx. eapply exists_kept; [exact Hk | by apply Hg].
    + apply keeps_bind_pure; [apply unchanged_of_profile|]. intros mcp.
      apply keeps_bind; [apply write_mcp_keeps|]. intros _.
      apply keeps_bind_pure; [apply unchanged_of_profile|]. intros claude_md.
      apply keeps_bind; [apply write_claude_md_keeps|]. intros _.
      apply keeps_bind_pure; [apply unchanged_of_profile|]. intros rules.
      apply keeps_bind; [apply write_rules_keeps|]. intros _.
      apply keeps_bind_pure; [apply unchanged_of_profile|]. intros skills.
      apply keeps_bind; [apply write_skills_keeps|]. intros _.
      apply keeps_bind_pure; [apply unchanged_files_merged_settings|]. intros settings.
      apply keeps_bind_pure; [apply unchanged_deref|]. intros value.
      apply keeps_bind; [apply write_settings_keeps|]. intros _.
      apply keeps_bind; [apply update_gitignore_keeps|]. intros _.
      apply keeps_unchanged, unchanged_ret.
  - split; apply Hw; [left | right; left].
Qed.

End Structure.

Lemma structure_created_witness :
  FS.exists_ strict_applied (["project"] ++ [".claude"; "rules"]) = true
  ∧ FS.exists_ strict_applied (["project"] ++ [".claude"; "skills"]) = true.
Proof.
  apply (structure_created Codec.loads Codec.dumps home_profiles builtin_profiles
           "web" (Some "strict") ["project"] machine).
  vm_compute. reflexivity.
Defined.
